(** * Snowpack dev server: request resolution, transform, cache, live reload

    A shallow embedding of [src/dev/command.ts] (the [snowpack dev] command)
    and the properties of its request handler, file watcher, live-reload
    broadcast and typecheck-output parser; of the listeners of the terminal
    display ([paint.tsx]) that [command] starts; and of the resolution of a
    dependency from the CDN ([resolveDependency]).

    Conventions of the embedding.
    - JavaScript strings are Rocq strings: sequences of 8-bit characters,
      read as the code units below 256.  Code units above 255 are outside
      the model.
    - [Map<string, _>] objects are [gmap string _]; the array of live-reload
      responses is a list whose end is the end of the array ([push] appends,
      [pop] removes the last element).
    - What Node and Babel provide ([path.join], [path.parse], [decodeURI],
      [url.parse], [babel.transformAsync], [process.platform]) is a record
      of functions, [Host]; the file system the process sees at one moment
      is a record of oracles, [FileSystem].
    - One run of the request handler, and one run of the watch callback, is
      one transition: the interleaving of two handlers at their [await]
      points is not modelled. *)

From Stdlib Require Import Ascii String.
From stdpp Require Import base option list gmap strings pretty.

Local Open Scope list_scope.

(** ** JavaScript string primitives used by the source *)

Module JS.

(** JavaScript truthiness of a string: only the empty string is falsy. *)
Definition truthy (s : string) : bool :=
  match s with
  | EmptyString => false
  | String _ _ => true
  end.

(** [s.startsWith(p)] *)
Definition startsWith (s p : string) : bool := String.prefix p s.

(** [s.endsWith(p)] *)
Definition endsWith (s p : string) : bool :=
  String.prefix (String.rev p) (String.rev s).

(** [s.includes(p)] *)
Fixpoint includes (s p : string) : bool :=
  String.prefix p s ||
  match s with
  | EmptyString => false
  | String _ s' => includes s' p
  end.

(** [s.slice(n)]: drop the first [n] characters. *)
Fixpoint drop (n : nat) (s : string) : string :=
  match n, s with
  | O, _ => s
  | S n', String _ s' => drop n' s'
  | S _, EmptyString => EmptyString
  end.

(** [s.slice(0, n)]: the first [n] characters. *)
Fixpoint take (n : nat) (s : string) : string :=
  match n, s with
  | S n', String a s' => String a (take n' s')
  | _, _ => EmptyString
  end.

(** Splits [s] at the first occurrence of [pat]: the text before the match
    and the text after it. *)
Fixpoint splitFirst (s pat : string) : option (string * string) :=
  if String.prefix pat s then Some (EmptyString, drop (String.length pat) s)
  else match s with
       | EmptyString => None
       | String a s' =>
           match splitFirst s' pat with
           | Some (before, after) => Some (String a before, after)
           | None => None
           end
       end.

(** GetSubstitution for a string pattern (no capture groups): in the
    replacement text, [$$] is a dollar sign, [$&] the matched text,
    [$`] the text before the match and [$'] the text after it; any other
    character, and a dollar sign followed by anything else, is literal. *)
Fixpoint getSubstitution (matched before after rep : string) : string :=
  match rep with
  | EmptyString => EmptyString
  | String "$" (String "$" r) =>
      String "$" (getSubstitution matched before after r)
  | String "$" (String "&" r) =>
      matched +:+ getSubstitution matched before after r
  | String "$" (String "`" r) =>
      before +:+ getSubstitution matched before after r
  | String "$" (String "'" r) =>
      after +:+ getSubstitution matched before after r
  | String a r => String a (getSubstitution matched before after r)
  end.

(** [s.replace(pat, rep)] with a string pattern: the first occurrence
    only. *)
Definition replace (s pat rep : string) : string :=
  match splitFirst s pat with
  | Some (before, after) =>
      before +:+ getSubstitution pat before after rep +:+ after
  | None => s
  end.

(** [s.replace(/\.js$/, ext)] where [ext] holds no dollar sign: without
    the [m] flag [$] matches at the end of the input only. *)
Definition replaceJsSuffix (s ext : string) : string :=
  if endsWith s ".js" then take (String.length s - 3) s +:+ ext else s.

(** [s.replace(/\.(js|ts|jsx|tsx)$/, '.js')]: the alternatives have to
    reach the end of the input, so at most one start position matches. *)
Definition replaceScriptSuffix (s : string) : string :=
  if endsWith s ".js" || endsWith s ".ts" then
    take (String.length s - 3) s +:+ ".js"
  else if endsWith s ".jsx" || endsWith s ".tsx" then
    take (String.length s - 4) s +:+ ".js"
  else s.

(** Line terminators below code unit 256: LF and CR. *)
Definition isLineTerminator (a : ascii) : bool :=
  match a with
  | "010"%char | "013"%char => true
  | _ => false
  end.

(** White space and line terminators below code unit 256, as
    [trimStart] strips them: TAB, LF, VT, FF, CR, SP and NBSP. *)
Definition isWhiteSpace (a : ascii) : bool :=
  match a with
  | "009"%char | "010"%char | "011"%char | "012"%char | "013"%char
  | " "%char | "160"%char => true
  | _ => false
  end.

(** [s.trimStart()] *)
Fixpoint trimStart (s : string) : string :=
  match s with
  | String a s' => if isWhiteSpace a then trimStart s' else s
  | EmptyString => EmptyString
  end.

(** [a.toLowerCase()] on one code unit below 256: A-Z, and the Latin-1
    capitals other than the multiplication sign. *)
Definition lowerChar (a : ascii) : ascii :=
  let n := nat_of_ascii a in
  if ((65 <=? n) && (n <=? 90))%nat then ascii_of_nat (n + 32)
  else if ((192 <=? n) && (n <=? 222) && negb (n =? 215))%nat then
    ascii_of_nat (n + 32)
  else a.

(** [s.toLowerCase()] *)
Fixpoint toLowerCase (s : string) : string :=
  match s with
  | EmptyString => EmptyString
  | String a s' => String (lowerChar a) (toLowerCase s')
  end.

Definition isDigit (a : ascii) : bool :=
  let n := nat_of_ascii a in ((48 <=? n) && (n <=? 57))%nat.

(** The longest run of decimal digits at the start of [s], and the rest. *)
Fixpoint spanDigits (s : string) : string * string :=
  match s with
  | String a s' =>
      if isDigit a then
        let '(ds, rest) := spanDigits s' in (String a ds, rest)
      else (EmptyString, s)
  | EmptyString => (EmptyString, EmptyString)
  end.

(** [parseInt(ds)] for a string of decimal digits, as a natural number
    (the rounding of a JavaScript number above 2^53 is not modelled). *)
Fixpoint parseDigits (acc : N) (ds : string) : N :=
  match ds with
  | EmptyString => acc
  | String a ds' =>
      parseDigits (acc * 10 + N.of_nat (nat_of_ascii a - 48))%N ds'
  end.

Definition parseInt (ds : string) : N := parseDigits 0%N ds.

End JS.

(** ** The environment of the server *)

(** A server response object ([http.ServerResponse]), by identity. *)
Definition Res : Type := nat.

(** The error a rejected [babel.transformAsync] carries. *)
Definition Error : Type := string.

(** The two encodings the source reads files with. *)
Inductive Encoding : Type := utf8 | binary.

(** What the source asks of an [fs.Stats] object. *)
Record Stats : Type := mkStats { isFile : bool; isDirectory : bool }.

(** The file system at one moment.  [None] is a rejected promise (or, for
    the synchronous calls of [watch], a thrown error). *)
Record FileSystem : Type := mkFileSystem {
  stat : string -> option Stats;
  readFile : string -> Encoding -> option string;
  readdir : string -> option (list string)
}.

(** [BabelFileResult]: the source reads its [code] field only, which may be
    absent.  The source dereferences the result without a null test, so the
    result itself is an object here. *)
Record BabelFileResult : Type := mkBabelFileResult { code : option string }.

Inductive BabelOutcome : Type :=
| Resolved (result : BabelFileResult)
| Rejected (err : Error).

(** Node and Babel, as the source calls them. *)
Record Host : Type := mkHost {
  platform : string;                          (* process.platform *)
  path_join : string -> string -> string;     (* path.join(a, b) *)
  path_ext : string -> string;                (* path.parse(p).ext *)
  url_pathname : string -> string;            (* url.parse(u).pathname *)
  decodeURI : string -> option string;        (* None: throws URIError *)
  transformAsync : string -> string -> BabelOutcome
                                              (* contents, then filename *)
}.

(** [DevOptions]; an entry of [paths] is [[pathStart]] or
    [[pathStart, pathEnd]]. *)
Record DevOptions : Type := mkDevOptions {
  cwd : string;
  port : N;
  publicDir : string;
  fallback : string;
  paths : list (string * option string)
}.

(** ** Events, effects and the state of one server *)

(** The events emitted on [messageBus], named as in the source. *)
Inductive BusEvent : Type :=
| BABEL_START (file : string)
| BABEL_FINISH (file : string) (result : BabelFileResult)
| BABEL_ERROR (file : string) (err : Error)
| TSC_RESET
| TSC_MSG (msg : string)
| TSC_DONE
| TSC_ERROR (num : N)
| SERVER_RESPONSE (method url : string) (statusCode : nat)
| NEW_SESSION.

(** What a transition does to the outside, in program order. *)
Inductive Effect : Type :=
| Emit (e : BusEvent)                   (* messageBus.emit *)
| FsStat (p : string)                   (* fs.stat(p) *)
| FsReadFile (p : string) (enc : Encoding)   (* fs.readFile(p, enc) *)
| ResWrite (res : Res) (chunk : string).     (* res.write on an event stream *)

(** The mutable objects shared by the request handler and the watcher. *)
Record State : Type := mkState {
  FILE_CACHE : gmap string string;
  babelFileErrors : gmap string Error;
  liveReloadClients : list Res
}.

Definition initialState : State :=
  {| FILE_CACHE := ∅; babelFileErrors := ∅; liveReloadClients := [] |}.

Definition setFileCache (f : gmap string string -> gmap string string)
    (st : State) : State :=
  {| FILE_CACHE := f (FILE_CACHE st);
     babelFileErrors := babelFileErrors st;
     liveReloadClients := liveReloadClients st |}.

Definition setBabelFileErrors (f : gmap string Error -> gmap string Error)
    (st : State) : State :=
  {| FILE_CACHE := FILE_CACHE st;
     babelFileErrors := f (babelFileErrors st);
     liveReloadClients := liveReloadClients st |}.

Definition setLiveReloadClients (f : list Res -> list Res)
    (st : State) : State :=
  {| FILE_CACHE := FILE_CACHE st;
     babelFileErrors := babelFileErrors st;
     liveReloadClients := f (liveReloadClients st) |}.

(** A computation over the shared state that logs its effects. *)
Definition Action (A : Type) : Type := State -> A * State * list Effect.

Definition ret {A : Type} (a : A) : Action A := fun st => (a, st, []).

Definition bind {A B : Type} (k : A -> Action B) (m : Action A) : Action B :=
  fun st =>
    let '(a, st1, t1) := m st in
    let '(b, st2, t2) := k a st1 in
    (b, st2, t1 ++ t2).

(** [x ← m; k] and [m;; k] are stdpp's notations for [bind]. *)
#[global] Instance Action_ret : MRet Action := @ret.
#[global] Instance Action_bind : MBind Action := @bind.

Definition effect (e : Effect) : Action unit := fun st => (tt, st, [e]).
Definition emit (e : BusEvent) : Action unit := effect (Emit e).
Definition modify (f : State -> State) : Action unit :=
  fun st => (tt, f st, []).
Definition gets {A : Type} (f : State -> A) : Action A :=
  fun st => (f st, st, []).

(** The three components of a finished action. *)
Definition valueOf {A : Type} (r : A * State * list Effect) : A := r.1.1.
Definition stateOf {A : Type} (r : A * State * list Effect) : State := r.1.2.
Definition traceOf {A : Type} (r : A * State * list Effect) : list Effect :=
  r.2.

(** ** The constants and helpers at the top of the module *)

Definition LIVE_RELOAD_SNIPPET : string := "
  <script>
    const source = new EventSource('/livereload');
    const reload = () => location.reload(true);
    source.onmessage = reload;
    source.onerror = () => (source.onopen = reload);
    console.log('[snowpack] listening for file changes');
  </script>
".

Definition getEncodingType (ext : string) : Encoding :=
  if String.eqb ext ".js" || String.eqb ext ".css" || String.eqb ext ".html"
  then utf8 else binary.

(** What the handler did with the response object. *)
Inductive Response : Type :=
| SendFile (file : string) (ext : string)  (* sendFile: status 200 *)
| SendError (status : nat)                 (* sendError *)
| EventStream                              (* /livereload: 200, left open *)
| Uncaught.                                (* the handler threw: nothing sent *)

(** [res.statusCode] once the response has finished, if it has. *)
Definition statusCode (r : Response) : option nat :=
  match r with
  | SendFile _ _ => Some 200
  | SendError status => Some status
  | EventStream => None
  | Uncaught => None
  end.

Definition newline : string := String "010"%char EmptyString.

(** [sendMessage(res, channel, data)]: two writes on the event stream. *)
Definition sendMessage (res : Res) (channel data : string) : Action unit :=
  effect (ResWrite res
    ("event: " +:+ channel +:+ newline +:+ "id: 0" +:+ newline +:+
     "data: " +:+ data +:+ newline));;
  effect (ResWrite res (newline +:+ newline)).

(** An incoming request: [req.method], [req.url] and the response object. *)
Record Request : Type := mkRequest {
  method : string;
  url : string;
  res : Res
}.

(** What the resolution part of the handler leaves in [fileLoc],
    [requestedFileExt] and [isRoute]. *)
Record Resolution : Type := mkResolution {
  fileLoc : option string;
  requestedFileExt : string;
  isRoute : bool
}.

(** JavaScript truthiness of a [string | null]. *)
Definition isTruthy (o : option string) : bool :=
  match o with
  | Some s => JS.truthy s
  | None => false
  end.

(** [a || b] on awaited [string | null] values: [b] runs only when the
    value of [a] is falsy. *)
Definition orElse (a b : Action (option string)) : Action (option string) :=
  x ← a; if isTruthy x then mret x else b.

(** A call that a [watch] of the source makes on [fs.watch]. *)
Inductive WatchCall : Type :=
| FsWatch (fileLoc : string) (recursive : bool).

(** How a synchronous call ended; [OutOfFuel] belongs to the model only. *)
Inductive Completion : Type := Normal | Throws | OutOfFuel.

(** [entries.forEach(f)]: in order, up to the first call that throws. *)
Fixpoint forEach {A : Type} (f : A -> list WatchCall * Completion)
    (entries : list A) : list WatchCall * Completion :=
  match entries with
  | [] => ([], Normal)
  | entry :: rest =>
      match f entry with
      | (calls, Normal) =>
          let '(calls', c) := forEach f rest in (calls ++ calls', c)
      | (calls, c) => (calls, c)
      end
  end.

Section Server.

Variable host : Host.
Variable opts : DevOptions.
Variable fs : FileSystem.

(** [watch(fileLoc, notify)] (lines 59-73).  The calls made on
    [fs.watch], in order, and how the call ended. *)
Fixpoint watch (fuel : nat) (fileLoc : string)
    : list WatchCall * Completion :=
  match fuel with
  | O => ([], OutOfFuel)
  | S fuel' =>
      if negb (String.eqb (platform host) "linux") then
        ([FsWatch fileLoc true], Normal)
      else if JS.endsWith fileLoc "node_modules" then ([], Normal)
      else
        match stat fs fileLoc with
        | None => ([], Throws)
        | Some st =>
            if isDirectory st then ([FsWatch fileLoc false], Normal)
            else
              match readdir fs fileLoc with
              | None => ([], Throws)
              | Some entries =>
                  forEach
                    (fun entry => watch fuel' (path_join host fileLoc entry))
                    entries
              end
        end
  end.

(** The two calls of [watch] at the end of [command] (lines 369-374). *)
Definition startWatching (fuel : nat) : list WatchCall * Completion :=
  let '(calls1, c1) :=
    if negb (JS.startsWith (cwd opts) (publicDir opts))
    then watch fuel (cwd opts) else ([], Normal) in
  match c1 with
  | Normal =>
      let '(calls2, c2) :=
        if negb (JS.startsWith (publicDir opts) (cwd opts))
        then watch fuel (publicDir opts) else ([], Normal) in
      (calls1 ++ calls2, c2)
  | _ => (calls1, c1)
  end.

(** [buildBabelFile(fileLoc, fileContents)] (lines 130-145): the pair
    [[null, result]] or [[err]]. *)
Definition buildBabelFile (fileLoc fileContents : string)
    : Action (option Error * option BabelFileResult) :=
  emit (BABEL_START fileLoc);;
  match transformAsync host fileContents fileLoc with
  | Resolved result =>
      modify (setBabelFileErrors (delete fileLoc));;
      emit (BABEL_FINISH fileLoc result);;
      mret (None, Some result)
  | Rejected err =>
      modify (setBabelFileErrors (insert fileLoc err));;
      emit (BABEL_ERROR fileLoc err);;
      mret (Some err, None)
  end.

(** The loop over [paths] (lines 254-267): [requestedFile] and [isSrc]. *)
Definition applyPath (reqPath resource : string)
    (acc : string * bool) (entry : string * option string)
    : string * bool :=
  let '(pathStart, pathEnd) := entry in
  if JS.startsWith reqPath pathStart then
    let requestedFile := path_join host (cwd opts) resource in
    if isTruthy pathEnd then
      (JS.replace requestedFile pathStart (default EmptyString pathEnd),
       true)
    else (requestedFile, true)
  else acc.

Definition candidateFile (reqPath resource : string) : string * bool :=
  fold_left (applyPath reqPath resource) (paths opts)
    (path_join host (publicDir opts) resource, false).

(** [fs.stat(p).then(stat => accept(stat) ? p : null).catch(() => null)] *)
Definition statProbe (p : string) (accept : Stats -> bool)
    : Action (option string) :=
  effect (FsStat p);;
  mret (match stat fs p with
        | Some s => if accept s then Some p else None
        | None => None
        end).

(** The alternatives of lines 279-292: [.ts], [.jsx], [.tsx] in place of
    a final [.js]; each is accepted as soon as [stat] succeeds. *)
Definition probeSource (requestedFile : string) : Action (option string) :=
  orElse
    (orElse
       (statProbe (JS.replaceJsSuffix requestedFile ".ts") (fun _ => true))
       (statProbe (JS.replaceJsSuffix requestedFile ".jsx") (fun _ => true)))
    (statProbe (JS.replaceJsSuffix requestedFile ".tsx") (fun _ => true)).

(** The alternatives of lines 295-311. *)
Definition probeRoute (requestedFile : string) : Action (option string) :=
  orElse
    (orElse
       (orElse
          (statProbe (requestedFile +:+ ".html") (fun _ => true))
          (statProbe (requestedFile +:+ "/index.html") (fun _ => true)))
       (statProbe (requestedFile +:+ "index.html") (fun _ => true)))
    (statProbe (path_join host (publicDir opts) (fallback opts)) isFile).

(** Lines 273-316: from the candidate file to [fileLoc], the extension
    to serve and [isRoute]. *)
Definition resolveFile (requestedFile : string) (isSrc : bool)
    (ext : string) : Action Resolution :=
  loc ← statProbe requestedFile isFile;
  loc ← (if negb (isTruthy loc) && isSrc
         then orElse (mret loc) (probeSource requestedFile)
         else mret loc);
  if negb (isTruthy loc) && negb (JS.truthy ext) then
    loc ← probeRoute requestedFile;
    if isTruthy loc then mret (mkResolution loc ".html" true)
    else mret (mkResolution loc ext false)
  else mret (mkResolution loc ext false).

(** Lines 317-346: read, augment, transform, cache and send. *)
Definition serveResolved (r : Resolution) : Action Response :=
  match fileLoc r with
  | None => mret (SendError 404)
  | Some loc =>
      if negb (JS.truthy loc) then mret (SendError 404)
      else
        effect (FsReadFile loc (getEncodingType (requestedFileExt r)));;
        match readFile fs loc (getEncodingType (requestedFileExt r)) with
        | None => mret (SendError 500)
        | Some fileContents =>
            if negb (JS.truthy fileContents) then mret (SendError 404)
            else
              fileContents ←
                (if isRoute r then
                   emit NEW_SESSION;;
                   mret (fileContents +:+ LIVE_RELOAD_SNIPPET)
                 else mret fileContents);
              if String.eqb (requestedFileExt r) ".js" &&
                 negb (JS.includes loc "/web_modules/")
              then
                built ← buildBabelFile loc fileContents;
                match built with
                | (None, Some babelResult) =>
                    if isTruthy (code babelResult) then
                      let responseContents :=
                        default EmptyString (code babelResult) in
                      modify (setFileCache (insert loc responseContents));;
                      mret (SendFile responseContents (requestedFileExt r))
                    else mret (SendError 500)
                | _ => mret (SendError 500)
                end
              else
                modify (setFileCache (insert loc fileContents));;
                mret (SendFile fileContents (requestedFileExt r))
        end
  end.

(** The listener of [res.on('finish', ...)] (lines 227-238). *)
Definition onFinish (req : Request) (r : Response) : Action unit :=
  match statusCode r with
  | Some status =>
      if Nat.eqb status 200 then mret tt
      else emit (SERVER_RESPONSE (method req) (url req) status)
  | None => mret tt
  end.

(** The request listener of [http.createServer] (lines 222-347).  The
    timer started by [setInterval] for the keep-alive pings is not
    modelled. *)
Definition handleRequest (req : Request) : Action Response :=
  let reqPath := url_pathname host (url req) in
  if String.eqb reqPath "/livereload" then
    sendMessage (res req) "connected" "ready";;
    modify (setLiveReloadClients (fun l => l ++ [res req]));;
    mret EventStream
  else
    match decodeURI host reqPath with
    | None => mret Uncaught
    | Some resource =>
        let requestedFileExt :=
          JS.toLowerCase (path_ext host resource) in
        let '(requestedFile, isSrc) := candidateFile reqPath resource in
        cached ← gets (fun st => FILE_CACHE st !! requestedFile);
        response ←
          match cached with
          | Some file => mret (SendFile file requestedFileExt)
          | None =>
              r ← resolveFile requestedFile isSrc requestedFileExt;
              serveResolved r
          end;
        onFinish req response;;
        mret response
    end.

(** [liveReloadClients.pop()] *)
Definition pop (l : list Res) : option (Res * list Res) :=
  match rev l with
  | [] => None
  | last :: front => Some (last, rev front)
  end.

(** The loop of lines 356-358. *)
Fixpoint drainClients (fuel : nat) : Action unit :=
  match fuel with
  | O => mret tt
  | S fuel' =>
      clients ← gets liveReloadClients;
      match pop clients with
      | None => mret tt
      | Some (client, rest) =>
          modify (setLiveReloadClients (fun _ => rest));;
          sendMessage client "message" "reload";;
          drainClients fuel'
      end
  end.

(** [onWatchEvent(event, fileLoc)] (lines 350-367). *)
Definition onWatchEvent (event fileLoc : string) : Action unit :=
  let requestId :=
    if JS.startsWith fileLoc (cwd opts)
    then JS.replaceScriptSuffix fileLoc else fileLoc in
  modify (setFileCache (delete requestId));;
  clients ← gets liveReloadClients;
  drainClients (length clients);;
  failed ← gets (fun st => babelFileErrors st !! fileLoc);
  match failed with
  | None => mret tt
  | Some _ =>
      effect (FsReadFile fileLoc utf8);;
      match readFile fs fileLoc utf8 with
      | Some fileContents =>
          if JS.truthy fileContents then
            buildBabelFile fileLoc fileContents;; mret tt
          else modify (setBabelFileErrors (delete fileLoc))
      | None => modify (setBabelFileErrors (delete fileLoc))
      end
  end.

End Server.

(** ** The listener on the output of [tsc --watch] (lines 181-202) *)

(** ESC followed by [c]: the text of both [\u001bc] and [\x1Bc]. *)
Definition clearScreen : string := String "027"%char (String "c" EmptyString).

(** [/^\[/gm.test(s)]: with the [m] flag, [^] matches at the start of the
    input and after each line terminator.  [atLineStart] tells whether the
    first character of [s] is at such a position. *)
Fixpoint testLineStartBracket (atLineStart : bool) (s : string) : bool :=
  match s with
  | EmptyString => false
  | String a s' =>
      (atLineStart && Ascii.eqb a "[") ||
      testLineStartBracket (JS.isLineTerminator a) s'
  end.

Definition watchingPhrase : string := "Watching for file changes".

(** [/Watching for file changes./] matched at the start of [t]: the final
    dot of the pattern takes one character that is no line terminator. *)
Definition matchWatchingAt (t : string) : bool :=
  String.prefix watchingPhrase t &&
  match JS.drop (String.length watchingPhrase) t with
  | String a _ => negb (JS.isLineTerminator a)
  | EmptyString => false
  end.

(** [/Watching for file changes./gm.test(s)] *)
Fixpoint testWatching (s : string) : bool :=
  matchWatchingAt s ||
  match s with
  | EmptyString => false
  | String _ s' => testWatching s'
  end.

(** [/Found (\d+) errors/] matched at the start of [t]: the captured
    digits.  The greedy [\d+] takes the whole run of digits, and giving a
    digit back can not help, since a space has to follow. *)
Definition matchFoundAt (t : string) : option string :=
  if String.prefix "Found " t then
    let '(ds, rest) := JS.spanDigits (JS.drop 6 t) in
    if JS.truthy ds && String.prefix " errors" rest then Some ds else None
  else None.

(** [s.match(/Found (\d+) errors/)]: the first capture of the leftmost
    match. *)
Fixpoint matchFound (s : string) : option string :=
  match matchFoundAt s with
  | Some ds => Some ds
  | None =>
      match s with
      | EmptyString => None
      | String _ s' => matchFound s'
      end
  end.

(** The text sent as [TSC_MSG]: the chunk without its first two clear
    sequences and without leading white space. *)
Definition tscMessage (b : string) : string :=
  JS.trimStart
    (JS.replace (JS.replace b clearScreen EmptyString)
       clearScreen EmptyString).

(** The events the listener emits for one chunk [b], in order. *)
Definition onTscData (b : string) : list BusEvent :=
  let tscOutput := tscMessage b in
  (if JS.startsWith b clearScreen || JS.startsWith b clearScreen
   then [TSC_RESET] else []) ++
  [TSC_MSG tscOutput] ++
  (if testLineStartBracket true tscOutput then
     (if testWatching tscOutput then [TSC_DONE] else []) ++
     match matchFound tscOutput with
     | Some digits => [TSC_ERROR (JS.parseInt digits)]
     | None => []
     end
   else []).

(** ** What the typecheck listener looks for, stated on the text *)

(** [s] begins with [p]. *)
Definition beginsWith (p s : string) : Prop :=
  exists rest, s = p +:+ rest.

(** Some line of [s] begins with an opening bracket: [s] itself does, or
    a bracket follows a line terminator. *)
Definition hasBracketLine (s : string) : Prop :=
  beginsWith "[" s \/
  exists before a rest,
    s = before +:+ String a ("[" +:+ rest) /\ JS.isLineTerminator a = true.

(** [s] holds the phrase followed by one more character of the line. *)
Definition holdsWatching (s : string) : Prop :=
  exists before a rest,
    s = before +:+ watchingPhrase +:+ String a rest /\
    JS.isLineTerminator a = false.

Fixpoint allDigits (s : string) : bool :=
  match s with
  | EmptyString => true
  | String a s' => JS.isDigit a && allDigits s'
  end.

(** [s] holds [Found], a space, the decimal digits [digits], a space and
    [errors]. *)
Definition holdsFound (s digits : string) : Prop :=
  exists before rest,
    s = before +:+ "Found " +:+ digits +:+ " errors" +:+ rest /\
    JS.truthy digits = true /\ allDigits digits = true.

(** ** What the properties speak of, in terms of the trace *)

(** The files the Source Transformer was invoked on, in order. *)
Definition transformerRuns (t : list Effect) : list string :=
  omap (fun e => match e with
                 | Emit (BABEL_START file) => Some file
                 | _ => None
                 end) t.

(** The paths probed with [fs.stat], in order. *)
Definition statProbes (t : list Effect) : list string :=
  omap (fun e => match e with FsStat p => Some p | _ => None end) t.

(** The chunks written to the event stream of [client], in order. *)
Definition writesTo (client : Res) (t : list Effect) : list string :=
  omap (fun e => match e with
                 | ResWrite r chunk =>
                     if Nat.eqb r client then Some chunk else None
                 | _ => None
                 end) t.

(** The two chunks of one [message]/[reload] event. *)
Definition reloadMessage : list string :=
  ["event: message" +:+ newline +:+ "id: 0" +:+ newline +:+
   "data: reload" +:+ newline;
   newline +:+ newline].

(** The number of positions of [hay] at which [needle] occurs. *)
Fixpoint countOccurrences (needle hay : string) : nat :=
  (if String.prefix needle hay then 1 else 0) +
  match hay with
  | EmptyString => 0
  | String _ hay' => countOccurrences needle hay'
  end.

(** The source-root mapping that the wording of the specification selects:
    the last entry of [paths], in iteration order, whose prefix starts the
    request path. *)
Definition lastMatching (reqPath : string)
    (entries : list (string * option string))
    : option (string * option string) :=
  last (filter (fun entry => JS.startsWith reqPath entry.1 = true) entries).

(** The candidate file as the specification words it: decided by the last
    matching mapping alone, and by the public root when none matches. *)
Definition candidateBySpec (host : Host) (opts : DevOptions)
    (reqPath resource : string) : string * bool :=
  match lastMatching reqPath (paths opts) with
  | None => (path_join host (publicDir opts) resource, false)
  | Some (pathStart, Some pathEnd) =>
      if JS.truthy pathEnd then
        (JS.replace (path_join host (cwd opts) resource) pathStart pathEnd,
         true)
      else (path_join host (cwd opts) resource, true)
  | Some (pathStart, None) => (path_join host (cwd opts) resource, true)
  end.

(** The first of the four route candidates that the file system has, in
    the order the specification lists them; the fallback document counts
    only as a regular file. *)
Definition routeBySpec (host : Host) (opts : DevOptions) (fs : FileSystem)
    (requestedFile : string) : option string :=
  let exists_ p := bool_decide (is_Some (stat fs p)) in
  let fallbackDoc := path_join host (publicDir opts) (fallback opts) in
  if exists_ (requestedFile +:+ ".html") then
    Some (requestedFile +:+ ".html")
  else if exists_ (requestedFile +:+ "/index.html") then
    Some (requestedFile +:+ "/index.html")
  else if exists_ (requestedFile +:+ "index.html") then
    Some (requestedFile +:+ "index.html")
  else
    match stat fs fallbackDoc with
    | Some s => if isFile s then Some fallbackDoc else None
    | None => None
    end.

(** ** A POSIX host and an in-memory disk, to run the model on examples

    The theorems below hold for every [Host] and [FileSystem].  The
    examples run on this one: [path.posix] as Node documents it, percent
    decoding of escapes below 128, and a disk given as a list of absolute
    paths. *)

Module Posix.

Definition isSlash (a : ascii) : bool := Ascii.eqb a "/".

(** [p.split('/')] *)
Fixpoint segments (p : string) : list string :=
  match p with
  | EmptyString => [EmptyString]
  | String a p' =>
      if isSlash a then EmptyString :: segments p'
      else match segments p' with
           | seg :: rest => String a seg :: rest
           | [] => [String a EmptyString]
           end
  end.

(** One step of [normalizeString]; [stack] holds the segments kept so
    far, the last one first. *)
Definition pushSegment (allowAboveRoot : bool) (stack : list string)
    (seg : string) : list string :=
  if String.eqb seg "" || String.eqb seg "." then stack
  else if String.eqb seg ".." then
    match stack with
    | top :: rest =>
        if String.eqb top ".." then
          (if allowAboveRoot then ".." :: stack else stack)
        else rest
    | [] => if allowAboveRoot then [".."] else []
    end
  else seg :: stack.

Fixpoint joinWith (sep : string) (l : list string) : string :=
  match l with
  | [] => EmptyString
  | [x] => x
  | x :: rest => x +:+ sep +:+ joinWith sep rest
  end.

(** [path.posix.normalize(p)] *)
Definition normalize (p : string) : string :=
  if String.eqb p "" then "."
  else
    let isAbsolute := JS.startsWith p "/" in
    let trailingSeparator := JS.endsWith p "/" in
    let body :=
      joinWith "/"
        (rev (fold_left (pushSegment (negb isAbsolute)) (segments p) [])) in
    if String.eqb body "" then
      (if isAbsolute then "/"
       else if trailingSeparator then "./" else ".")
    else
      let body := if trailingSeparator then body +:+ "/" else body in
      if isAbsolute then "/" +:+ body else body.

(** [path.posix.join(a, b)] *)
Definition join (a b : string) : string :=
  if String.eqb a "" then (if String.eqb b "" then "." else normalize b)
  else if String.eqb b "" then normalize a
  else normalize (a +:+ "/" +:+ b).

(** The reversed text of [s] up to and including its first dot, and the
    reversed text that follows, when [s] holds a dot. *)
Fixpoint splitAtDot (s : string) : option (string * string) :=
  match s with
  | EmptyString => None
  | String a s' =>
      if Ascii.eqb a "." then Some (String a EmptyString, s')
      else match splitAtDot s' with
           | Some (e, r) => Some (String a e, r)
           | None => None
           end
  end.

Fixpoint dropSlashes (s : string) : string :=
  match s with
  | String a s' => if isSlash a then dropSlashes s' else s
  | EmptyString => EmptyString
  end.

Fixpoint takeToSlash (s : string) : string :=
  match s with
  | String a s' => if isSlash a then EmptyString else String a (takeToSlash s')
  | EmptyString => EmptyString
  end.

(** [path.posix.parse(p).ext]: the text from the last dot of the last
    path component, unless that dot starts the component or the
    component is [..]. *)
Definition ext (p : string) : string :=
  let revBase := takeToSlash (dropSlashes (String.rev p)) in
  if String.eqb revBase ".." then EmptyString
  else match splitAtDot revBase with
       | Some (revExt, String _ _) => String.rev revExt
       | _ => EmptyString
       end.

(** [url.parse(u).pathname] for a request target: the text before the
    first question mark or hash. *)
Fixpoint pathname (u : string) : string :=
  match u with
  | EmptyString => EmptyString
  | String a u' =>
      if Ascii.eqb a "?" || Ascii.eqb a "#" then EmptyString
      else String a (pathname u')
  end.

Definition hexValue (a : ascii) : option nat :=
  let n := nat_of_ascii a in
  if ((48 <=? n) && (n <=? 57))%nat then Some (n - 48)
  else if ((65 <=? n) && (n <=? 70))%nat then Some (n - 55)
  else if ((97 <=? n) && (n <=? 102))%nat then Some (n - 87)
  else None.

(** The characters [decodeURI] leaves escaped. *)
Definition isReserved (a : ascii) : bool :=
  JS.includes ";/?:@&=+$,#" (String a EmptyString).

(** [decodeURI(s)] on escapes below 128; an escape of a larger byte, and
    a malformed escape, give [None]. *)
Fixpoint decode (s : string) : option string :=
  match s with
  | EmptyString => Some EmptyString
  | String "%" (String h1 (String h2 s')) =>
      match hexValue h1, hexValue h2, decode s' with
      | Some d1, Some d2, Some r =>
          let n := d1 * 16 + d2 in
          if (128 <=? n)%nat then None
          else if isReserved (ascii_of_nat n) then
            Some (String "%" (String h1 (String h2 r)))
          else Some (String (ascii_of_nat n) r)
      | _, _, _ => None
      end
  | String "%" _ => None
  | String a s' =>
      match decode s' with
      | Some r => Some (String a r)
      | None => None
      end
  end.

End Posix.

(** A stand-in for the compiler: it rejects a text that holds [@error],
    produces no code for a text that holds [@empty], and otherwise puts a
    marker in front of the text. *)
Definition exampleTransform (contents filename : string) : BabelOutcome :=
  if JS.includes contents "@error" then
    Rejected ("SyntaxError: " +:+ filename)
  else if JS.includes contents "@empty" then
    Resolved (mkBabelFileResult None)
  else Resolved (mkBabelFileResult (Some ("/*babel*/" +:+ contents))).

Definition exampleHost (platformName : string) : Host :=
  {| platform := platformName;
     path_join := Posix.join;
     path_ext := Posix.ext;
     url_pathname := Posix.pathname;
     decodeURI := Posix.decode;
     transformAsync := exampleTransform |}.

(** An entry of the in-memory disk. *)
Inductive Node : Type :=
| RegularFile (contents : string)
| Directory (entries : list string).

Definition Disk : Type := list (string * Node).

Fixpoint lookupDisk (disk : Disk) (p : string) : option Node :=
  match disk with
  | [] => None
  | (q, n) :: rest => if String.eqb q p then Some n else lookupDisk rest p
  end.

(** The node a path leads to: the path is normalized first, and a path
    with a trailing slash leads to a directory only. *)
Definition nodeAt (disk : Disk) (p : string) : option Node :=
  let q := Posix.normalize p in
  if JS.endsWith q "/" && negb (String.eqb q "/") then
    match lookupDisk disk (JS.take (String.length q - 1) q) with
    | Some (Directory entries) => Some (Directory entries)
    | _ => None
    end
  else lookupDisk disk q.

Definition diskFS (disk : Disk) : FileSystem :=
  {| stat p :=
       match nodeAt disk p with
       | Some (RegularFile _) => Some (mkStats true false)
       | Some (Directory _) => Some (mkStats false true)
       | None => None
       end;
     readFile p _ :=
       match nodeAt disk p with
       | Some (RegularFile contents) => Some contents
       | _ => None
       end;
     readdir p :=
       match nodeAt disk p with
       | Some (Directory entries) => Some entries
       | _ => None
       end |}.

(** ** Pure views of the handler, used to state and prove its properties *)

(** An action that leaves the state alone: it returns [v] and logs [t]. *)
Definition runsAs {A : Type} (m : Action A) (v : A) (t : list Effect) : Prop :=
  forall st, m st = (v, st, t).

(** The value of one [statProbe]. *)
Definition probeValue (fs : FileSystem) (p : string)
    (accept : Stats -> bool) : option string :=
  match stat fs p with
  | Some s => if accept s then Some p else None
  | None => None
  end.

(** A chain [v || probe c1 || probe c2 || ...]: its value and the paths
    probed, after [probed]. *)
Fixpoint probeChain (fs : FileSystem) (v : option string)
    (probed : list string) (cands : list (string * (Stats -> bool)))
    : option string * list string :=
  match cands with
  | [] => (v, probed)
  | (p, accept) :: rest =>
      if isTruthy v then (v, probed)
      else probeChain fs (probeValue fs p accept) (probed ++ [p]) rest
  end.

Definition sourceCandidates (requestedFile : string)
    : list (string * (Stats -> bool)) :=
  [(JS.replaceJsSuffix requestedFile ".ts", fun _ => true);
   (JS.replaceJsSuffix requestedFile ".jsx", fun _ => true);
   (JS.replaceJsSuffix requestedFile ".tsx", fun _ => true)].

Definition routeCandidates (host : Host) (opts : DevOptions)
    (requestedFile : string) : list (string * (Stats -> bool)) :=
  [(requestedFile +:+ ".html", fun _ => true);
   (requestedFile +:+ "/index.html", fun _ => true);
   (requestedFile +:+ "index.html", fun _ => true);
   (path_join host (publicDir opts) (fallback opts), isFile)].


(** [resolveFile] as a function: the resolution and the paths probed. *)
Definition resolution (host : Host) (opts : DevOptions) (fs : FileSystem)
    (requestedFile : string) (isSrc : bool) (ext : string)
    : Resolution * list string :=
  let v0 := probeValue fs requestedFile isFile in
  let '(v1, probed1) :=
    if negb (isTruthy v0) && isSrc
    then probeChain fs v0 [requestedFile] (sourceCandidates requestedFile)
    else (v0, [requestedFile]) in
  if negb (isTruthy v1) && negb (JS.truthy ext) then
    let '(v2, probed2) :=
      probeChain fs v1 probed1 (routeCandidates host opts requestedFile) in
    if isTruthy v2 then (mkResolution v2 ".html" true, probed2)
    else (mkResolution v2 ext false, probed2)
  else (mkResolution v1 ext false, probed1).

(** The trace of [onFinish]. *)
Definition finishTrace (req : Request) (r : Response) : list Effect :=
  match statusCode r with
  | Some status =>
      if Nat.eqb status 200 then []
      else [Emit (SERVER_RESPONSE (method req) (url req) status)]
  | None => []
  end.

(** Whether the handler hands a file to the Source Transformer. *)
Definition needsTransform (ext loc : string) : bool :=
  String.eqb ext ".js" && negb (JS.includes loc "/web_modules/").

(** The states one server can be in: any sequence of requests and watch
    events, each against the file system of its moment. *)
Inductive reachable (host : Host) (opts : DevOptions) : State -> Prop :=
| reachable_initial : reachable host opts initialState
| reachable_request (fs : FileSystem) (req : Request) (st : State) :
    reachable host opts st ->
    reachable host opts (stateOf (handleRequest host opts fs req st))
| reachable_watch (fs : FileSystem) (event fileLoc : string) (st : State) :
    reachable host opts st ->
    reachable host opts (stateOf (onWatchEvent host opts fs event fileLoc st)).

(** A transform that failed, as the trace shows it: the compiler rejected
    the input, or it returned a result without code. *)
Definition transformFailed (t : list Effect) : Prop :=
  (exists file err, In (Emit (BABEL_ERROR file err)) t) \/
  (exists file result,
     In (Emit (BABEL_FINISH file result)) t /\
     isTruthy (code result) = false).

(** The script element of the snippet: the snippet without the line break
    at each end. *)
Definition snippetElement : string :=
  JS.take (String.length LIVE_RELOAD_SNIPPET - 2)
    (JS.drop 1 LIVE_RELOAD_SNIPPET).

(** The four ways through the request listener, with what each leaves:
    the registration of an event stream, an uncaught [URIError], a cache
    hit, and a cache miss followed by resolution and serving. *)
Inductive HandlerPath (host : Host) (opts : DevOptions) (fs : FileSystem)
    (req : Request) (st : State) : Response * State * list Effect -> Prop :=
| path_livereload :
    url_pathname host (url req) = "/livereload" ->
    HandlerPath host opts fs req st
      (EventStream, setLiveReloadClients (fun l => l ++ [res req]) st,
       traceOf (sendMessage (res req) "connected" "ready" st))
| path_uncaught :
    url_pathname host (url req) <> "/livereload" ->
    decodeURI host (url_pathname host (url req)) = None ->
    HandlerPath host opts fs req st (Uncaught, st, [])
| path_hit resource file :
    url_pathname host (url req) <> "/livereload" ->
    decodeURI host (url_pathname host (url req)) = Some resource ->
    FILE_CACHE st
      !! (candidateFile host opts (url_pathname host (url req)) resource).1 =
      Some file ->
    HandlerPath host opts fs req st
      (SendFile file (JS.toLowerCase (path_ext host resource)), st, [])
| path_miss resource r probed served :
    url_pathname host (url req) <> "/livereload" ->
    decodeURI host (url_pathname host (url req)) = Some resource ->
    FILE_CACHE st
      !! (candidateFile host opts (url_pathname host (url req)) resource).1 =
      None ->
    resolution host opts fs
      (candidateFile host opts (url_pathname host (url req)) resource).1
      (candidateFile host opts (url_pathname host (url req)) resource).2
      (JS.toLowerCase (path_ext host resource)) = (r, probed) ->
    serveResolved host fs r st = served ->
    HandlerPath host opts fs req st
      (valueOf served, stateOf served,
       (FsStat <$> probed) ++ traceOf served ++
       finishTrace req (valueOf served)).

(** The bytes served for a resolved file with the given contents, before
    any transform: a route gets the snippet appended. *)
Definition augment (r : Resolution) (contents : string) : string :=
  if isRoute r then contents +:+ LIVE_RELOAD_SNIPPET else contents.

(** The event a route emits when it is augmented. *)
Definition sessionTrace (r : Resolution) : list Effect :=
  if isRoute r then [Emit NEW_SESSION] else [].

(** The seven ways through the serving part of the listener. *)
Inductive ServePath (host : Host) (fs : FileSystem) (r : Resolution)
    (st : State) : Response * State * list Effect -> Prop :=
| serve_unresolved :
    isTruthy (fileLoc r) = false ->
    ServePath host fs r st (SendError 404, st, [])
| serve_unreadable loc :
    fileLoc r = Some loc -> JS.truthy loc = true ->
    readFile fs loc (getEncodingType (requestedFileExt r)) = None ->
    ServePath host fs r st
      (SendError 500, st,
       [FsReadFile loc (getEncodingType (requestedFileExt r))])
| serve_empty loc :
    fileLoc r = Some loc -> JS.truthy loc = true ->
    readFile fs loc (getEncodingType (requestedFileExt r)) =
      Some EmptyString ->
    ServePath host fs r st
      (SendError 404, st,
       [FsReadFile loc (getEncodingType (requestedFileExt r))])
| serve_plain loc contents :
    fileLoc r = Some loc -> JS.truthy loc = true ->
    readFile fs loc (getEncodingType (requestedFileExt r)) = Some contents ->
    JS.truthy contents = true ->
    needsTransform (requestedFileExt r) loc = false ->
    ServePath host fs r st
      (SendFile (augment r contents) (requestedFileExt r),
       setFileCache (insert loc (augment r contents)) st,
       FsReadFile loc (getEncodingType (requestedFileExt r)) ::
       sessionTrace r)
| serve_rejected loc contents err :
    fileLoc r = Some loc -> JS.truthy loc = true ->
    readFile fs loc (getEncodingType (requestedFileExt r)) = Some contents ->
    JS.truthy contents = true ->
    needsTransform (requestedFileExt r) loc = true ->
    transformAsync host (augment r contents) loc = Rejected err ->
    ServePath host fs r st
      (SendError 500,
       setBabelFileErrors (insert loc err) st,
       FsReadFile loc (getEncodingType (requestedFileExt r)) ::
       sessionTrace r ++
       [Emit (BABEL_START loc); Emit (BABEL_ERROR loc err)])
| serve_nocode loc contents result :
    fileLoc r = Some loc -> JS.truthy loc = true ->
    readFile fs loc (getEncodingType (requestedFileExt r)) = Some contents ->
    JS.truthy contents = true ->
    needsTransform (requestedFileExt r) loc = true ->
    transformAsync host (augment r contents) loc = Resolved result ->
    isTruthy (code result) = false ->
    ServePath host fs r st
      (SendError 500,
       setBabelFileErrors (delete loc) st,
       FsReadFile loc (getEncodingType (requestedFileExt r)) ::
       sessionTrace r ++
       [Emit (BABEL_START loc); Emit (BABEL_FINISH loc result)])
| serve_transformed loc contents result v :
    fileLoc r = Some loc -> JS.truthy loc = true ->
    readFile fs loc (getEncodingType (requestedFileExt r)) = Some contents ->
    JS.truthy contents = true ->
    needsTransform (requestedFileExt r) loc = true ->
    transformAsync host (augment r contents) loc = Resolved result ->
    code result = Some v -> JS.truthy v = true ->
    ServePath host fs r st
      (SendFile v (requestedFileExt r),
       setFileCache (insert loc v) (setBabelFileErrors (delete loc) st),
       FsReadFile loc (getEncodingType (requestedFileExt r)) ::
       sessionTrace r ++
       [Emit (BABEL_START loc); Emit (BABEL_FINISH loc result)]).

(** The four outcomes of the resolver: the candidate itself, a source
    alternative, a route candidate, or nothing. *)
Inductive ResolutionPath (host : Host) (opts : DevOptions) (fs : FileSystem)
    (requestedFile : string) (isSrc : bool) (ext : string)
    : Resolution -> Prop :=
| resolved_direct s :
    stat fs requestedFile = Some s -> isFile s = true ->
    JS.truthy requestedFile = true ->
    ResolutionPath host opts fs requestedFile isSrc ext
      (mkResolution (Some requestedFile) ext false)
| resolved_source loc :
    isTruthy (probeValue fs requestedFile isFile) = false ->
    isSrc = true ->
    (probeChain fs None [] (sourceCandidates requestedFile)).1 = Some loc ->
    JS.truthy loc = true ->
    ResolutionPath host opts fs requestedFile isSrc ext
      (mkResolution (Some loc) ext false)
| resolved_route loc :
    isTruthy (probeValue fs requestedFile isFile) = false ->
    (isSrc = true ->
     isTruthy (probeChain fs None [] (sourceCandidates requestedFile)).1 =
       false) ->
    JS.truthy ext = false ->
    (probeChain fs None [] (routeCandidates host opts requestedFile)).1 =
      Some loc ->
    JS.truthy loc = true ->
    ResolutionPath host opts fs requestedFile isSrc ext
      (mkResolution (Some loc) ".html" true)
| resolved_none v :
    isTruthy (probeValue fs requestedFile isFile) = false ->
    (isSrc = true ->
     isTruthy (probeChain fs None [] (sourceCandidates requestedFile)).1 =
       false) ->
    (JS.truthy ext = false ->
     isTruthy
       (probeChain fs None [] (routeCandidates host opts requestedFile)).1 =
       false) ->
    isTruthy v = false ->
    ResolutionPath host opts fs requestedFile isSrc ext
      (mkResolution v ext false).

(** The writes of one [message]/[reload] event to each client of a list,
    in the order of the list. *)
Definition reloadTrace (clients : list Res) : list Effect :=
  flat_map (fun client => ResWrite client <$> reloadMessage) clients.

(** The key [onWatchEvent] deletes from the cache. *)
Definition requestId (opts : DevOptions) (fileLoc : string) : string :=
  if JS.startsWith fileLoc (cwd opts)
  then JS.replaceScriptSuffix fileLoc else fileLoc.

(** The state after the first two steps of [onWatchEvent]: the cache
    entry deleted and the clients drained. *)
Definition invalidated (opts : DevOptions) (fileLoc : string)
    (st : State) : State :=
  setLiveReloadClients (fun _ => [])
    (setFileCache (delete (requestId opts fileLoc)) st).

(** ** The history of a server *)

(** One step of a server: a request, or a call of the watch callback,
    each against the file system of its moment. *)
Inductive Transition : Type :=
| RequestStep (fs : FileSystem) (req : Request)
| WatchStep (fs : FileSystem) (event fileLoc : string).

Definition step (host : Host) (opts : DevOptions) (st : State)
    (t : Transition) : State :=
  match t with
  | RequestStep fs req => stateOf (handleRequest host opts fs req st)
  | WatchStep fs event fileLoc =>
      stateOf (onWatchEvent host opts fs event fileLoc st)
  end.

(** The state of a server after the steps of [history], the first step
    first, from the state in which [command] leaves it. *)
Definition run (host : Host) (opts : DevOptions)
    (history : list Transition) : State :=
  fold_left (step host opts) history initialState.

(** The request [req], handled in the state [st] against the file system
    [fs], stored [loc ↦ v] in the cache: the request missed the cache, its
    resolver ended at [loc], which [fs] has; [loc] was read, with the
    encoding of the extension served, as contents that are not empty;
    where the handler transforms, the compiler run on those contents
    (with the snippet, for a route) produced the code [v], and where it
    does not, [v] is those contents; [v] was sent with status 200 and put
    into the cache under [loc]. *)
Definition storedBy (host : Host) (opts : DevOptions) (fs : FileSystem)
    (req : Request) (st : State) (loc v : string) : Prop :=
  exists resource contents,
    let reqPath := url_pathname host (url req) in
    let requestedFile := (candidateFile host opts reqPath resource).1 in
    let isSrc := (candidateFile host opts reqPath resource).2 in
    let r :=
      valueOf (resolveFile host opts fs requestedFile isSrc
                 (JS.toLowerCase (path_ext host resource)) st) in
    let out := handleRequest host opts fs req st in
    reqPath <> "/livereload" /\
    decodeURI host reqPath = Some resource /\
    FILE_CACHE st !! requestedFile = None /\
    fileLoc r = Some loc /\
    is_Some (stat fs loc) /\
    readFile fs loc (getEncodingType (requestedFileExt r)) = Some contents /\
    JS.truthy contents = true /\
    (if needsTransform (requestedFileExt r) loc then
       exists result,
         transformAsync host (augment r contents) loc = Resolved result /\
         code result = Some v /\ JS.truthy v = true /\
         In (Emit (BABEL_FINISH loc result)) (traceOf out)
     else v = augment r contents) /\
    valueOf out = SendFile v (requestedFileExt r) /\
    FILE_CACHE (stateOf out) = <[loc := v]> (FILE_CACHE st).

(** ** What [fs.watch] tells its listener

    [watch] hands [onWatchEvent] itself to [fs.watch] (lines 61 and 69),
    so the second argument of [onWatchEvent] is the file name as
    [fs.watch] reports it: the name of the changed file relative to the
    watched directory.  A watch that is not recursive reports the entries
    of the watched directory only. *)
Definition watchedName (call : WatchCall) (changed : string)
    : option string :=
  match call with
  | FsWatch root recursive =>
      if JS.startsWith changed (root +:+ "/") then
        let name := JS.drop (String.length root + 1) changed in
        if recursive || negb (JS.includes name "/") then Some name
        else None
      else None
  end.

(** What a change of the file [changed] does to the server, given the
    watches that are attached: one call of [onWatchEvent] for each watch
    that sees the change, with the name that watch reports. *)
Fixpoint onFileChange (host : Host) (opts : DevOptions) (fs : FileSystem)
    (watches : list WatchCall) (event changed : string) : Action unit :=
  match watches with
  | [] => mret tt
  | call :: rest =>
      match watchedName call changed with
      | Some name => onWatchEvent host opts fs event name
      | None => mret tt
      end;;
      onFileChange host opts fs rest event changed
  end.

(** ** A project to run the model on *)

(** The options of the scenario of the specification: [/components/] is
    served from [src/components/], and [/src/] from the working
    directory. *)
Definition projectOptions : DevOptions :=
  mkDevOptions "/proj" 8080 "/proj/public" "index.html"
    [("/components/", Some "/src/components/"); ("/src/", None)].

Definition projectDisk : Disk :=
  [("/proj", Directory ["public"; "src"]);
   ("/proj/public",
    Directory ["index.html"; "about.html"; "empty.css"; "guide"]);
   ("/proj/public/index.html", RegularFile "<html>home</html>");
   ("/proj/public/about.html", RegularFile "<html>about</html>");
   ("/proj/public/empty.css", RegularFile "");
   ("/proj/public/guide", Directory ["index.html"]);
   ("/proj/public/guide/index.html", RegularFile "<html>guide</html>");
   ("/proj/src", Directory ["components"; "bad.js"; "docs"]);
   ("/proj/src/components", Directory ["app.tsx"]);
   ("/proj/src/components/app.tsx", RegularFile "export const a = 1;");
   ("/proj/src/bad.js", RegularFile "let @error");
   ("/proj/src/docs", Directory ["index.html"]);
   ("/proj/src/docs/index.html", RegularFile "<html>docs</html>")].


(** The same disk with a home page that already holds the snippet. *)
Definition projectDiskSnippet : Disk :=
  ("/proj/public/index.html",
   RegularFile ("<html>home</html>" +:+ LIVE_RELOAD_SNIPPET)) :: projectDisk.

Definition linuxHost : Host := exampleHost "linux".

Definition macHost : Host := exampleHost "darwin".

(** The same disk after [src/bad.js] was saved with contents that
    compile. *)
Definition projectDiskFixed : Disk :=
  ("/proj/src/bad.js", RegularFile "let a = 1;") :: projectDisk.

(** The same disk after [public/about.html] was edited. *)
Definition projectDiskEdited : Disk :=
  ("/proj/public/about.html", RegularFile "<html>about us</html>") ::
  projectDisk.

Definition GET (target : string) (response : Res) : Request :=
  mkRequest "GET" target response.

(** The state after [/src/bad.js] was requested and rejected by the
    compiler. *)
Definition afterBadRequest : State :=
  stateOf (handleRequest linuxHost projectOptions (diskFS projectDisk)
             (GET "/src/bad.js" 0) initialState).

(** The state after three browsers opened [/livereload]. *)
Definition threeClients : State :=
  stateOf (handleRequest linuxHost projectOptions (diskFS projectDisk)
    (GET "/livereload" 3)
    (stateOf (handleRequest linuxHost projectOptions (diskFS projectDisk)
      (GET "/livereload" 2)
      (stateOf (handleRequest linuxHost projectOptions (diskFS projectDisk)
        (GET "/livereload" 1) initialState))))).

(** ** Further views of the trace *)

(** The paths read with [fs.readFile], in order. *)
Definition fileReads (t : list Effect) : list string :=
  omap (fun e => match e with FsReadFile p _ => Some p | _ => None end) t.

(** The responses written to, chunk by chunk, in order. *)
Definition writes (t : list Effect) : list (Res * string) :=
  omap (fun e => match e with
                 | ResWrite r chunk => Some (r, chunk)
                 | _ => None
                 end) t.

(** The events emitted on the message bus, in order. *)
Definition busEvents (t : list Effect) : list BusEvent :=
  omap (fun e => match e with Emit b => Some b | _ => None end) t.

(** The project with an installed package under [web_modules]. *)
Definition projectDiskModules : Disk :=
  ("/proj/public/web_modules", Directory ["vue.js"]) ::
  ("/proj/public/web_modules/vue.js", RegularFile "export default {};") ::
  projectDisk.

(** ** The terminal display ([paint.tsx])

    [paint(messageBus)] renders [App], whose state variables change with
    the events of the message bus.  The listeners of lines 236-275 are
    embedded as one function from an event and the state before it to the
    state after it; React applies the updates of one listener together,
    and [EventEmitter.emit] runs the listeners before it returns, so the
    states follow the order of the events.  [useEventEmitter], a module
    that is not among the sources at hand, is taken to subscribe its
    listener to the event it names.  [indent] (the package
    [indent-string]) is a parameter. *)

Module Paint.

(** The values of [tscState] other than [null]. *)
Inductive TscState : Type := IN_PROGRESS | DONE.

(** The six state variables of [App]. *)
Record AppState : Type := mkAppState {
  tscOutput : string;
  tscErrors : N;
  tscState : option TscState;
  babelErrors : gmap string Error;
  serverLogs : list string;
  consoleLogs : list string
}.

(** The arguments of the six [useState] calls. *)
Definition initialApp : AppState := mkAppState "" 0 None ∅ [] [].

(** The listeners on the events of [BusEvent]; no listener is registered
    for [BABEL_START]. *)
Definition onBusEvent (indent : string -> nat -> string) (e : BusEvent)
    (app : AppState) : AppState :=
  match e with
  | TSC_ERROR num =>
      mkAppState (tscOutput app) num (tscState app) (babelErrors app)
        (serverLogs app) (consoleLogs app)
  | TSC_RESET =>
      mkAppState "" 0 (Some IN_PROGRESS) (babelErrors app)
        (serverLogs app) (consoleLogs app)
  | TSC_DONE =>
      mkAppState (tscOutput app) (tscErrors app) (Some DONE)
        (babelErrors app) (serverLogs app) (consoleLogs app)
  | TSC_MSG msg =>
      mkAppState (tscOutput app +:+ indent msg 2 +:+ newline)
        (tscErrors app) (tscState app) (babelErrors app)
        (serverLogs app) (consoleLogs app)
  | BABEL_ERROR file err =>
      mkAppState (tscOutput app) (tscErrors app) (tscState app)
        (<[file := err]> (babelErrors app)) (serverLogs app)
        (consoleLogs app)
  | BABEL_FINISH file _ =>
      mkAppState (tscOutput app) (tscErrors app) (tscState app)
        (delete file (babelErrors app)) (serverLogs app) (consoleLogs app)
  | SERVER_RESPONSE method url statusCode =>
      mkAppState (tscOutput app) (tscErrors app) (tscState app)
        (babelErrors app) (serverLogs app)
        (consoleLogs app ++
         ["  [" +:+ pretty statusCode +:+ "] " +:+ method +:+ " " +:+ url])
  | NEW_SESSION =>
      mkAppState (tscOutput app) (tscErrors app) (tscState app) ∅ [] []
  | BABEL_START _ => app
  end.

(** The listener on [CONSOLE], the event of the [console.log],
    [console.warn] and [console.error] that [command] installs (lines
    205-213); [args] holds the arguments as [join] converts them. *)
Definition onConsole (level : string) (args : list string)
    (app : AppState) : AppState :=
  mkAppState (tscOutput app) (tscErrors app) (tscState app)
    (babelErrors app) (serverLogs app)
    (consoleLogs app ++
     ["  [" +:+ level +:+ "] " +:+ Posix.joinWith " " args]).

(** The state after the events of a list, delivered in order. *)
Definition deliver (indent : string -> nat -> string)
    (events : list BusEvent) (app : AppState) : AppState :=
  fold_left (fun a e => onBusEvent indent e a) events app.

(** [hasTsc], and the states shown on the lines [Babel] and
    [TypeScript] of the overview. *)
Definition hasTsc (app : AppState) : bool :=
  match tscState app with Some _ => true | None => false end.

Definition babelStatus (app : AppState) : string :=
  if bool_decide (size (babelErrors app) = 0) then "READY" else "ERROR".

Definition typeScriptStatus (app : AppState) : string :=
  if (0 <? tscErrors app)%N then "ERROR"
  else match tscState app with
       | Some DONE => "OK"
       | _ => "RUNNING"
       end.

(** The set [showDetails], as the list of its members. *)
Definition showDetails (app : AppState) : list string :=
  (if bool_decide (0 < size (babelErrors app)) then ["BABEL"] else []) ++
  (if hasTsc app && (0 <? tscErrors app)%N then ["TYPESCRIPT"] else []).

End Paint.

(** ** The resolution of a dependency from the CDN

    [resolveDependency] of the installer (the first module of
    [part_000], lines 18-118).  The package-name validator, the address
    of the CDN and [fetchCDNResource] come from modules that are not part
    of the sources at hand: they are parameters.  The CDN is a state of
    its own, which a fetch may change (a lookup can start a build); the
    local cache of [cacache] is a map from keys to entries.
    [fetchCDNResource] and [cacache.put] are taken to resolve. *)

Module Remote.

(** [ImportMap]: the [imports] of a lockfile. *)
Record ImportMap : Type := mkImportMap { imports : gmap string string }.

(** What the source reads of an answer of [fetchCDNResource]. *)
Record CDNResponse : Type := mkCDNResponse {
  statusCode : nat;
  headers : gmap string string;
  body : string
}.

(** An entry of the cache: its data and, when it has a [metadata]
    object, the field [pinnedUrl] of that object, if any. *)
Record CacheEntry : Type := mkCacheEntry {
  data : string;
  metadata : option (option string)
}.

(** What a call does to the outside, in program order. *)
Inductive Effect : Type :=
| Warn (message : string)       (* console.warn *)
| Log (message : string)        (* console.log; the colour is left out *)
| CacheInfo (key : string)      (* cacache.get.info *)
| Fetch (url : string)          (* fetchCDNResource *)
| CachePut (key : string).      (* cacache.put *)

(** How a call ends: with [null] or a URL, or with a thrown error;
    [OutOfFuel] belongs to the model only. *)
Inductive Outcome : Type :=
| Returned (url : option string)
| Threw (message : string)
| OutOfFuel.

Section Resolve.

Variable Net : Type.
Variable validForNewPackages : string -> bool.
Variable PIKA_CDN : string.
Variable fetchCDNResource : string -> Net -> CDNResponse * Net.

(** The CDN and the local cache at one moment. *)
Record World : Type := mkWorld {
  net : Net;
  cache : gmap string CacheEntry
}.

(** [lockfile && lockfile.imports[installSpecifier]], when truthy. *)
Definition pinOf (lockfile : option ImportMap) (installSpecifier : string)
    : option string :=
  match lockfile with
  | Some l =>
      match imports l !! installSpecifier with
      | Some installUrl =>
          if JS.truthy installUrl then Some installUrl else None
      | None => None
      end
  | None => None
  end.

(** [cacache.put(RESOURCE_CACHE, pinnedUrl, body, {metadata: {pinnedUrl}})] *)
Definition put (pinnedUrl body : string) (c : gmap string CacheEntry)
    : gmap string CacheEntry :=
  <[pinnedUrl := mkCacheEntry body (Some (Some pinnedUrl))]> c.

Definition fallingBack : Effect := Warn "Falling back to local copy...".

Fixpoint resolveDependency (fuel : nat)
    (installSpecifier packageSemver : string) (lockfile : option ImportMap)
    (canRetry : bool) (w : World) : Outcome * World * list Effect :=
  match fuel with
  | O => (OutOfFuel, w, [])
  | S fuel' =>
      if negb (validForNewPackages installSpecifier) then
        (Returned None, w, [])
      else
        match pinOf lockfile installSpecifier with
        | Some installUrl =>
            match cache w !! installUrl with
            | Some (mkCacheEntry _ (Some pinnedUrl)) =>
                (Returned pinnedUrl, w, [CacheInfo installUrl])
            | _ =>
                let '(response, net') :=
                  fetchCDNResource installUrl (net w) in
                if negb (Nat.eqb (statusCode response) 200) then
                  (Returned None, mkWorld net' (cache w),
                   [CacheInfo installUrl; Fetch installUrl;
                    Warn ("Failed to resolve [" +:+
                          pretty (statusCode response) +:+ "]: " +:+
                          installUrl +:+ " (" +:+ body response +:+ ")");
                    fallingBack])
                else
                  (Returned (Some installUrl),
                   mkWorld net' (put installUrl (body response) (cache w)),
                   [CacheInfo installUrl; Fetch installUrl;
                    CachePut installUrl])
            end
        | None =>
            let warned :=
              if String.eqb packageSemver "latest" then
                [Warn ("warn(" +:+ installSpecifier +:+
                       "): Not found in " +:+ String "034" "dependencies" +:+
                       String "034" ". Using latest package version...")]
              else [] in
            if JS.startsWith packageSemver "npm:@reactesm" ||
               JS.startsWith packageSemver "npm:@pika/react" then
              (Threw ("React workaround packages no longer needed! " +:+
                      "Revert to the official React & React-DOM packages."),
               w, warned)
            else if JS.includes packageSemver " " ||
                    JS.includes packageSemver ":" then
              (Returned None, w,
               warned ++
               [Warn ("warn(" +:+ installSpecifier +:+
                      "): Can't fetch complex semver " +:+ String "034"
                        packageSemver +:+ String "034" " from remote CDN.")])
            else
              let installUrl :=
                PIKA_CDN +:+ "/" +:+ installSpecifier +:+ "@" +:+
                packageSemver in
              let '(response, net') :=
                fetchCDNResource installUrl (net w) in
              if negb (Nat.eqb (statusCode response) 200) then
                (Returned None, mkWorld net' (cache w),
                 warned ++
                 [Fetch installUrl;
                  Warn ("Failed to resolve [" +:+
                        pretty (statusCode response) +:+ "]: " +:+
                        installUrl +:+ " (" +:+ body response +:+ ")");
                  fallingBack])
              else
                let importUrlPath := headers response !! "x-import-url" in
                let pinnedUrlPath := headers response !! "x-pinned-url" in
                let buildStatus := headers response !! "x-import-status" in
                if isTruthy pinnedUrlPath then
                  let pinnedUrl :=
                    PIKA_CDN +:+ default "" pinnedUrlPath in
                  (Returned (Some pinnedUrl),
                   mkWorld net' (put pinnedUrl (body response) (cache w)),
                   warned ++ [Fetch installUrl; CachePut pinnedUrl])
                else if bool_decide (buildStatus = Some "SUCCESS") then
                  (Returned None, mkWorld net' (cache w),
                   warned ++
                   [Fetch installUrl;
                    Warn ("Failed to lookup [" +:+
                          pretty (statusCode response) +:+ "]: " +:+
                          installUrl);
                    fallingBack])
                else if negb canRetry ||
                        bool_decide (buildStatus = Some "FAIL") then
                  (Returned None, mkWorld net' (cache w),
                   warned ++
                   [Fetch installUrl;
                    Warn ("Failed to build: " +:+ installSpecifier +:+
                          "@" +:+ packageSemver);
                    fallingBack])
                else
                  let building :=
                    Log ("Building " +:+ installSpecifier +:+ "@" +:+
                         packageSemver +:+
                         "... (This takes a moment, but will be cached " +:+
                         "for future use)") in
                  if negb (isTruthy importUrlPath) then
                    (Threw "X-Import-URL header expected, but none received.",
                     mkWorld net' (cache w),
                     warned ++ [Fetch installUrl; building])
                  else
                    let '(lookup, net'') :=
                      fetchCDNResource (default "" importUrlPath) net' in
                    if negb (Nat.eqb (statusCode lookup) 200) then
                      (Threw ("Unexpected response [" +:+
                              pretty (statusCode lookup) +:+ "]: " +:+
                              PIKA_CDN +:+ default "" importUrlPath),
                       mkWorld net'' (cache w),
                       warned ++
                       [Fetch installUrl; building;
                        Fetch (default "" importUrlPath)])
                    else
                      let '(outcome, w', t) :=
                        resolveDependency fuel' installSpecifier
                          packageSemver lockfile false
                          (mkWorld net'' (cache w)) in
                      (outcome, w',
                       warned ++
                       [Fetch installUrl; building;
                        Fetch (default "" importUrlPath)] ++ t)
        end
  end.

(** The calls a trace makes on the CDN and on [cacache.put]. *)
Definition fetches (t : list Effect) : list string :=
  omap (fun e => match e with Fetch url => Some url | _ => None end) t.

Definition puts (t : list Effect) : list string :=
  omap (fun e => match e with CachePut key => Some key | _ => None end) t.

(** A cache in which every entry with metadata names its own key as
    [pinnedUrl], as every entry written by [put] does. *)
Definition selfPinned (c : gmap string CacheEntry) : Prop :=
  forall key entry pinnedUrl,
    c !! key = Some entry -> metadata entry = Some pinnedUrl ->
    pinnedUrl = Some key.

End Resolve.

(** A CDN to run the model on: its state is the list of the packages it
    has built.  A lookup of a package that is built answers with the
    pinned path; a lookup of any other answers with the path that starts
    its build; a fetch of that path builds the package; a pinned path
    answers with the module. *)
Definition exampleCDN (url : string) (built : list string)
    : CDNResponse * list string :=
  if String.eqb url "https://cdn.example/vue@^2.6.0" then
    if bool_decide ("vue" ∈ built) then
      (mkCDNResponse 200 {[ "x-pinned-url" := "/pin/vue-v2.6.11/vue.js";
                            "x-import-status" := "SUCCESS" ]} "", built)
    else
      (mkCDNResponse 200 {[ "x-import-url" := "/build/vue@2.6.11" ]} "",
       built)
  else if String.eqb url "/build/vue@2.6.11" then
    (mkCDNResponse 200 ∅ "", "vue" :: built)
  else if String.eqb url "https://cdn.example/pin/vue-v2.6.11/vue.js" then
    (mkCDNResponse 200 ∅ "export default {};", built)
  else (mkCDNResponse 404 ∅ "Not Found", built).

End Remote.

(** The model of [resolveDependency] on the example CDN, with every name
    that is not empty taken as valid. *)
Definition exampleResolve (fuel : nat) (installSpecifier packageSemver : string)
    (lockfile : option Remote.ImportMap) (canRetry : bool)
    (w : Remote.World (list string))
    : Remote.Outcome * Remote.World (list string) * list Remote.Effect :=
  Remote.resolveDependency (list string) JS.truthy "https://cdn.example"
    Remote.exampleCDN fuel installSpecifier packageSemver lockfile canRetry w.

(** A CDN that has built nothing, and an empty local cache. *)
Definition freshWorld : Remote.World (list string) := Remote.mkWorld _ [] ∅.

(** ** The version asked of the CDN ([resolveTargetsFromRemoteCDN])

    Lines 132-138: the version range of an install specifier, from the
    [webDependencies] of the configuration and the four sections of the
    package manifest.  A section that is absent counts as empty, and an
    entry that is the empty string counts as absent. *)
Record PackageManifest : Type := mkPackageManifest {
  webDependencies : option (gmap string string);
  dependencies : option (gmap string string);
  devDependencies : option (gmap string string);
  peerDependencies : option (gmap string string)
}.

(** [(section || {})[installSpecifier]], when truthy. *)
Definition versionIn (section : option (gmap string string))
    (installSpecifier : string) : option string :=
  match section with
  | Some entries =>
      match entries !! installSpecifier with
      | Some version => if JS.truthy version then Some version else None
      | None => None
      end
  | None => None
  end.

Definition installSemver (configWebDependencies : option (gmap string string))
    (pkgManifest : PackageManifest) (installSpecifier : string) : string :=
  match versionIn configWebDependencies installSpecifier with
  | Some version => version
  | None =>
  match versionIn (webDependencies pkgManifest) installSpecifier with
  | Some version => version
  | None =>
  match versionIn (dependencies pkgManifest) installSpecifier with
  | Some version => version
  | None =>
  match versionIn (devDependencies pkgManifest) installSpecifier with
  | Some version => version
  | None =>
  match versionIn (peerDependencies pkgManifest) installSpecifier with
  | Some version => version
  | None => "latest"
  end end end end end.

(** * Properties *)

(** ** The action monad *)

Lemma runsAs_ret {A : Type} (a : A) : runsAs (mret a) a [].
Proof. done. Qed.

Lemma runsAs_effect (e : Effect) : runsAs (effect e) tt [e].
Proof. done. Qed.

Lemma runsAs_bind {A B : Type} (m : Action A) (k : A -> Action B) a t b t' :
  runsAs m a t -> runsAs (k a) b t' -> runsAs (m ≫= k) b (t ++ t').
Proof.
  intros Hm Hk st. unfold mbind, Action_bind, bind. by rewrite Hm, Hk.
Qed.

Lemma runsAs_bind_eq {A B : Type} (m : Action A) (k : A -> Action B)
    a t b t' v tr :
  runsAs m a t -> runsAs (k a) b t' -> v = b -> tr = t ++ t' ->
  runsAs (m ≫= k) v tr.
Proof. intros Hm Hk -> ->. by apply runsAs_bind with a. Qed.

Lemma runsAs_if {A : Type} (c : bool) (m1 m2 : Action A) a1 t1 a2 t2 :
  runsAs m1 a1 t1 -> runsAs m2 a2 t2 ->
  runsAs (if c then m1 else m2) (if c then a1 else a2) (if c then t1 else t2).
Proof. by destruct c. Qed.

Lemma bind_run {A B : Type} (m : Action A) (k : A -> Action B) st :
  (m ≫= k) st =
  (valueOf (k (valueOf (m st)) (stateOf (m st))),
   stateOf (k (valueOf (m st)) (stateOf (m st))),
   traceOf (m st) ++ traceOf (k (valueOf (m st)) (stateOf (m st)))).
Proof.
  unfold mbind, Action_bind, bind, valueOf, stateOf, traceOf.
  destruct (m st) as [[a st1] t1]. cbn. by destruct (k a st1) as [[b st2] t2].
Qed.

Section Resolver.

Variable host : Host.
Variable opts : DevOptions.
Variable fs : FileSystem.

Lemma runsAs_statProbe p accept :
  runsAs (statProbe fs p accept) (probeValue fs p accept) [FsStat p].
Proof. done. Qed.

Lemma runsAs_orElse a b va ta vb tb :
  runsAs a va ta -> runsAs b vb tb ->
  runsAs (orElse a b)
    (if isTruthy va then va else vb) (if isTruthy va then ta else ta ++ tb).
Proof.
  intros Ha Hb st. unfold orElse, mbind, Action_bind, bind. rewrite Ha.
  destruct (isTruthy va); cbn; [by rewrite app_nil_r|]. by rewrite Hb.
Qed.

(** One more alternative at the end of a chain. *)
Lemma runsAs_orElse_chain m v probed cands p accept :
  runsAs m (probeChain fs v probed cands).1
    (FsStat <$> (probeChain fs v probed cands).2) ->
  runsAs (orElse m (statProbe fs p accept))
    (probeChain fs v probed (cands ++ [(p, accept)])).1
    (FsStat <$> (probeChain fs v probed (cands ++ [(p, accept)])).2).
Proof.
  intros Hm.
  assert (forall cs v0 pr,
    probeChain fs v0 pr (cs ++ [(p, accept)]) =
    let r := probeChain fs v0 pr cs in
    if isTruthy r.1 then r else (probeValue fs p accept, r.2 ++ [p])) as Hsnoc.
  { induction cs as [|[q acc] cs IH]; intros v0 pr; cbn.
    - by destruct (isTruthy v0) eqn:E; [destruct v0|].
    - destruct (isTruthy v0) eqn:E; cbn; [by rewrite E|]. apply IH. }
  rewrite Hsnoc. cbn.
  pose proof (runsAs_orElse _ _ _ _ _ _ Hm (runsAs_statProbe p accept)) as H.
  destruct (isTruthy (probeChain fs v probed cands).1); [done|].
  cbn. by rewrite fmap_app.
Qed.

Lemma runsAs_probeSource requestedFile :
  runsAs (probeSource fs requestedFile)
    (probeChain fs None [] (sourceCandidates requestedFile)).1
    (FsStat <$> (probeChain fs None [] (sourceCandidates requestedFile)).2).
Proof.
  unfold probeSource, sourceCandidates.
  set (c1 := (JS.replaceJsSuffix requestedFile ".ts", fun _ : Stats => true)).
  set (c2 := (JS.replaceJsSuffix requestedFile ".jsx", fun _ : Stats => true)).
  apply (runsAs_orElse_chain _ None [] [c1; c2]).
  apply (runsAs_orElse_chain _ None [] [c1]).
  apply runsAs_statProbe.
Qed.

Lemma runsAs_probeRoute requestedFile :
  runsAs (probeRoute host opts fs requestedFile)
    (probeChain fs None [] (routeCandidates host opts requestedFile)).1
    (FsStat <$>
       (probeChain fs None [] (routeCandidates host opts requestedFile)).2).
Proof.
  unfold probeRoute, routeCandidates.
  set (c1 := (requestedFile +:+ ".html", fun _ : Stats => true)).
  set (c2 := (requestedFile +:+ "/index.html", fun _ : Stats => true)).
  set (c3 := (requestedFile +:+ "index.html", fun _ : Stats => true)).
  apply (runsAs_orElse_chain _ None [] [c1; c2; c3]).
  apply (runsAs_orElse_chain _ None [] [c1; c2]).
  apply (runsAs_orElse_chain _ None [] [c1]).
  apply runsAs_statProbe.
Qed.

(** The paths probed before a chain stay in front of its own. *)
Lemma probeChain_probed v pre probed cands :
  probeChain fs v (pre ++ probed) cands =
  ((probeChain fs v probed cands).1,
   pre ++ (probeChain fs v probed cands).2).
Proof.
  revert v probed.
  induction cands as [|[q acc] cands IH]; intros v probed; cbn; [done|].
  destruct (isTruthy v); [done|]. by rewrite <- app_assoc, IH.
Qed.

(** A chain that starts from a falsy value forgets it. *)
Lemma probeChain_falsy v probed c cands :
  isTruthy v = false ->
  probeChain fs v probed (c :: cands) =
  ((probeChain fs None [] (c :: cands)).1,
   probed ++ (probeChain fs None [] (c :: cands)).2).
Proof.
  intros Hv. destruct c as [p accept]. cbn. rewrite Hv.
  apply probeChain_probed.
Qed.

Lemma probeChain_source v probed requestedFile :
  isTruthy v = false ->
  probeChain fs v probed (sourceCandidates requestedFile) =
  ((probeChain fs None [] (sourceCandidates requestedFile)).1,
   probed ++ (probeChain fs None [] (sourceCandidates requestedFile)).2).
Proof. apply probeChain_falsy. Qed.

Lemma probeChain_route v probed requestedFile :
  isTruthy v = false ->
  probeChain fs v probed (routeCandidates host opts requestedFile) =
  ((probeChain fs None [] (routeCandidates host opts requestedFile)).1,
   probed ++
     (probeChain fs None [] (routeCandidates host opts requestedFile)).2).
Proof. apply probeChain_falsy. Qed.

Lemma runsAs_resolveFile requestedFile isSrc ext :
  runsAs (resolveFile host opts fs requestedFile isSrc ext)
    (resolution host opts fs requestedFile isSrc ext).1
    (FsStat <$> (resolution host opts fs requestedFile isSrc ext).2).
Proof.
  unfold resolveFile, resolution.
  generalize (runsAs_statProbe requestedFile isFile).
  generalize (probeValue fs requestedFile isFile). intros v0 Hv0.
  eapply runsAs_bind_eq; [exact Hv0| | |].
  - eapply runsAs_bind_eq.
    + apply (runsAs_if (negb (isTruthy v0) && isSrc)).
      * apply runsAs_orElse; [apply runsAs_ret|apply runsAs_probeSource].
      * apply runsAs_ret.
    + apply (runsAs_if (negb (isTruthy _) && negb (JS.truthy ext))).
      * eapply runsAs_bind_eq; [apply runsAs_probeRoute| | done | done].
        apply (runsAs_if (isTruthy _)); apply runsAs_ret.
      * apply runsAs_ret.
    + reflexivity.
    + reflexivity.
  - destruct (negb (isTruthy v0) && isSrc) eqn:Hsrc.
    + apply andb_true_iff in Hsrc as [Hf _]. apply negb_true_iff in Hf.
      rewrite Hf, (probeChain_source _ _ _ Hf).
      generalize (probeChain fs None [] (sourceCandidates requestedFile)).
      intros src. cbn [fst snd].
      destruct (negb (isTruthy src.1) && negb (JS.truthy ext)) eqn:Hroute.
      * apply andb_true_iff in Hroute as [Hf1 _]. apply negb_true_iff in Hf1.
        rewrite (probeChain_route _ _ _ Hf1).
        generalize (probeChain fs None []
          (routeCandidates host opts requestedFile)). intros route.
        by destruct (isTruthy route.1).
      * done.
    + destruct (negb (isTruthy v0) && negb (JS.truthy ext)) eqn:Hroute.
      * apply andb_true_iff in Hroute as [Hf1 _]. apply negb_true_iff in Hf1.
        rewrite (probeChain_route _ _ _ Hf1).
        generalize (probeChain fs None []
          (routeCandidates host opts requestedFile)). intros route.
        by destruct (isTruthy route.1).
      * done.
  - destruct (negb (isTruthy v0) && isSrc) eqn:Hsrc.
    + apply andb_true_iff in Hsrc as [Hf _]. apply negb_true_iff in Hf.
      rewrite Hf, (probeChain_source _ _ _ Hf).
      generalize (probeChain fs None [] (sourceCandidates requestedFile)).
      intros src. cbn [fst snd].
      destruct (negb (isTruthy src.1) && negb (JS.truthy ext)) eqn:Hroute.
      * apply andb_true_iff in Hroute as [Hf1 _]. apply negb_true_iff in Hf1.
        rewrite (probeChain_route _ _ _ Hf1).
        generalize (probeChain fs None []
          (routeCandidates host opts requestedFile)). intros route.
        destruct (isTruthy route.1); cbn;
          by rewrite ?fmap_app, ?app_nil_r, ?app_nil_l.
      * cbn. by rewrite ?fmap_app, ?app_nil_r.
    + destruct (negb (isTruthy v0) && negb (JS.truthy ext)) eqn:Hroute.
      * apply andb_true_iff in Hroute as [Hf1 _]. apply negb_true_iff in Hf1.
        rewrite (probeChain_route _ _ _ Hf1).
        generalize (probeChain fs None []
          (routeCandidates host opts requestedFile)). intros route.
        destruct (isTruthy route.1); cbn;
          by rewrite ?fmap_app, ?app_nil_r, ?app_nil_l.
      * cbn. by rewrite ?fmap_app, ?app_nil_r.
Qed.

(** What a chain finds was probed with success, and is no empty path. *)
Lemma probeChain_hit v probed cands loc :
  (probeChain fs v probed cands).1 = Some loc ->
  v = Some loc \/
  exists accept s,
    In (loc, accept) cands /\ stat fs loc = Some s /\ accept s = true.
Proof.
  revert v probed. induction cands as [|[q acc] cands IH]; intros v probed; cbn.
  - by left.
  - destruct (isTruthy v); [by left|]. intros H. right.
    apply IH in H as [H|(accept & s & Hin & Hs & Ha)].
    + unfold probeValue in H. destruct (stat fs q) as [s|] eqn:Hs; [|done].
      destruct (acc s) eqn:Ha; [|done]. simplify_eq. eauto 6.
    + eauto 6.
Qed.
End Resolver.

(** ** The request listener, path by path *)

Section Handler.

Variable host : Host.
Variable opts : DevOptions.
Variable fs : FileSystem.

Lemma onFinish_run req r st :
  onFinish req r st = (tt, st, finishTrace req r).
Proof.
  unfold onFinish, finishTrace. destruct (statusCode r) as [status|]; [|done].
  by destruct (Nat.eqb status 200).
Qed.

Lemma handleRequest_path req st :
  HandlerPath host opts fs req st (handleRequest host opts fs req st).
Proof.
  unfold handleRequest.
  destruct (String.eqb (url_pathname host (url req)) "/livereload") eqn:Hlr.
  { apply String.eqb_eq in Hlr.
    replace ((sendMessage (res req) "connected" "ready";;
              modify (setLiveReloadClients (fun l => l ++ [res req]));;
              mret EventStream) st)
      with (EventStream, setLiveReloadClients (fun l => l ++ [res req]) st,
            traceOf (sendMessage (res req) "connected" "ready" st)) by done.
    by constructor. }
  apply String.eqb_neq in Hlr.
  destruct (decodeURI host (url_pathname host (url req)))
    as [resource|] eqn:Hdec; [|by constructor].
  destruct (candidateFile host opts (url_pathname host (url req)) resource)
    as [requestedFile isSrc] eqn:Hcand.
  unfold mbind, Action_bind, bind, gets.
  destruct (FILE_CACHE st !! requestedFile) as [file|] eqn:Hcache.
  { cbn. eapply path_hit; [done..|]. by rewrite Hcand. }
  rewrite runsAs_resolveFile.
  destruct (resolution host opts fs requestedFile isSrc
              (JS.toLowerCase (path_ext host resource)))
    as [r probed] eqn:Hres.
  cbn [fst snd].
  destruct (serveResolved host fs r st) as [[response st'] t] eqn:Hserve.
  rewrite onFinish_run.
  pose proof (path_miss host opts fs req st resource r probed
                (response, st', t) Hlr Hdec) as HP.
  rewrite Hcand in HP. specialize (HP Hcache Hres Hserve).
  unfold valueOf, stateOf, traceOf in HP. cbn in HP |- *.
  by rewrite app_nil_r, <- app_assoc.
Qed.

End Handler.

(** ** The serving part of the listener, path by path *)

Section Serving.

Variable host : Host.
Variable fs : FileSystem.

Lemma buildBabelFile_run loc contents st :
  buildBabelFile host loc contents st =
  match transformAsync host contents loc with
  | Resolved result =>
      ((None, Some result), setBabelFileErrors (delete loc) st,
       [Emit (BABEL_START loc); Emit (BABEL_FINISH loc result)])
  | Rejected err =>
      ((Some err, None), setBabelFileErrors (insert loc err) st,
       [Emit (BABEL_START loc); Emit (BABEL_ERROR loc err)])
  end.
Proof.
  unfold buildBabelFile. by destruct (transformAsync host contents loc).
Qed.

Lemma augment_run r contents (st : State) :
  (if isRoute r
   then emit NEW_SESSION;; mret (contents +:+ LIVE_RELOAD_SNIPPET)
   else mret contents) st =
  (augment r contents, st, sessionTrace r).
Proof. unfold augment, sessionTrace. by destruct (isRoute r). Qed.

Lemma serveResolved_path r st :
  ServePath host fs r st (serveResolved host fs r st).
Proof.
  unfold serveResolved.
  destruct (fileLoc r) as [loc|] eqn:Hloc; [|by constructor; rewrite Hloc].
  destruct (JS.truthy loc) eqn:Hl; cbn [negb];
    [|by constructor; rewrite Hloc].
  destruct (readFile fs loc (getEncodingType (requestedFileExt r)))
    as [contents|] eqn:Hread; [|by econstructor].
  destruct (JS.truthy contents) eqn:Hc; cbn [negb].
  2:{ destruct contents; [|done]. by econstructor. }
  fold (needsTransform (requestedFileExt r) loc).
  pose proof (augment_run r contents st) as Haug.
  unfold mbind, Action_bind, bind, effect in Haug |- *.
  rewrite Haug. clear Haug.
  destruct (needsTransform (requestedFileExt r) loc) eqn:Hneeds.
  - rewrite buildBabelFile_run.
    destruct (transformAsync host (augment r contents) loc)
      as [result|err] eqn:Hbabel.
    + destruct (isTruthy (code result)) eqn:Hcode.
      * destruct (code result) as [v|] eqn:Hv; [|done]. cbn.
        rewrite ?app_nil_r. by eapply serve_transformed.
      * cbn. rewrite ?app_nil_r. by eapply serve_nocode.
    + cbn. rewrite ?app_nil_r. by eapply serve_rejected.
  - cbn. rewrite ?app_nil_r. by eapply serve_plain.
Qed.

End Serving.

(** ** Strings *)

Lemma append_cons (a : ascii) (s t : string) :
  String a s +:+ t = String a (s +:+ t).
Proof. done. Qed.

Lemma append_nil_l (t : string) : "" +:+ t = t.
Proof. done. Qed.

Lemma prefix_nil (s : string) : String.prefix "" s = true.
Proof. by destruct s. Qed.

Lemma prefix_cons (a b : ascii) (p s : string) :
  String.prefix (String a p) (String b s) =
  bool_decide (a = b) && String.prefix p s.
Proof. cbn. destruct (ascii_dec a b); by case_bool_decide. Qed.

Lemma prefix_app (p s : string) : String.prefix p (p +:+ s) = true.
Proof.
  induction p as [|a p IH]; [apply prefix_nil|].
  rewrite append_cons, prefix_cons, IH. by case_bool_decide.
Qed.

(** ** The source-root mappings *)

Lemma applyPath_fold host opts reqPath resource entries acc :
  fold_left (applyPath host opts reqPath resource) entries acc =
  match lastMatching reqPath entries with
  | Some entry => applyPath host opts reqPath resource acc entry
  | None => acc
  end.
Proof.
  revert acc.
  induction entries as [|entry entries IH] using rev_ind; intros acc; [done|].
  rewrite fold_left_app. cbn. unfold lastMatching.
  rewrite filter_app, IH, filter_cons, filter_nil.
  destruct entry as [pathStart pathEnd]. cbn. case_decide as Hm.
  - rewrite last_snoc. unfold applyPath. by rewrite Hm.
  - rewrite app_nil_r. unfold applyPath at 1.
    by destruct (JS.startsWith reqPath pathStart).
Qed.

Lemma lastMatching_matches reqPath entries entry :
  lastMatching reqPath entries = Some entry ->
  JS.startsWith reqPath entry.1 = true.
Proof.
  unfold lastMatching. intros H. apply last_Some_elem_of in H.
  by apply list_elem_of_filter in H as [H _].
Qed.

(** C3.  For every request path and every ordered list of source-root
    mappings, the loop recomputes the candidate file at each mapping whose
    prefix starts the request path and never leaves early, so the last
    matching mapping alone decides the candidate file and the rewrite: the
    loop of the source equals [candidateBySpec], and a matching mapping put
    at the end of any list, also after entries with the same prefix,
    decides alone. *)
Theorem last_matching_mapping_decides (host : Host) (opts : DevOptions)
    (reqPath resource : string) :
  candidateFile host opts reqPath resource =
    candidateBySpec host opts reqPath resource /\
  forall root p pub fb entries pathStart pathEnd rest,
    candidateFile host
      (mkDevOptions root p pub fb (entries ++ [(pathStart, pathEnd)]))
      (pathStart +:+ rest) resource =
    (if isTruthy pathEnd
     then JS.replace (path_join host root resource) pathStart
            (default EmptyString pathEnd)
     else path_join host root resource,
     true).
Proof.
  split.
  - unfold candidateFile, candidateBySpec. rewrite applyPath_fold.
    destruct (lastMatching reqPath (paths opts)) as [[pathStart pathEnd]|] eqn:Hl;
      [|done].
    apply lastMatching_matches in Hl. unfold applyPath. cbn in Hl. rewrite Hl.
    destruct pathEnd as [pathEnd|]; cbn; [|done]. by destruct (JS.truthy pathEnd).
  - intros. unfold candidateFile. cbn [paths publicDir].
    rewrite fold_left_app. cbn [fold_left]. unfold applyPath.
    unfold JS.startsWith. rewrite prefix_app. cbn [cwd].
    by destruct (isTruthy pathEnd).
Qed.

(** ** What the resolver returns *)

Section ResolverFacts.

Variable host : Host.
Variable opts : DevOptions.
Variable fs : FileSystem.

Lemma probeValue_hit p accept loc :
  probeValue fs p accept = Some loc ->
  loc = p /\ exists s, stat fs p = Some s /\ accept s = true.
Proof.
  unfold probeValue. destruct (stat fs p) as [s|]; [|done].
  destruct (accept s) eqn:Ha; [|done]. intros [= <-]. eauto.
Qed.

Lemma isTruthy_Some v :
  isTruthy v = true -> exists loc, v = Some loc /\ JS.truthy loc = true.
Proof. destruct v as [loc|]; [|done]. eauto. Qed.

Lemma resolution_path requestedFile isSrc ext :
  ResolutionPath host opts fs requestedFile isSrc ext
    (resolution host opts fs requestedFile isSrc ext).1.
Proof.
  unfold resolution.
  destruct (isTruthy (probeValue fs requestedFile isFile)) eqn:Hv0.
  { cbn [negb andb]. rewrite Hv0. cbn [negb andb fst].
    apply isTruthy_Some in Hv0 as (loc & Hv0 & Hl). rewrite Hv0.
    apply probeValue_hit in Hv0 as (-> & s & Hs & Hf).
    by eapply resolved_direct. }
  cbn [negb andb].
  assert (forall v1 probed1,
    isTruthy v1 = false ->
    (isSrc = true ->
     isTruthy (probeChain fs None [] (sourceCandidates requestedFile)).1 =
       false) ->
    ResolutionPath host opts fs requestedFile isSrc ext
      (if negb false && negb (JS.truthy ext)
       then
         let '(v2, probed2) :=
           probeChain fs v1 probed1
             (routeCandidates host opts requestedFile) in
         if isTruthy v2 then (mkResolution v2 ".html" true, probed2)
         else (mkResolution v2 ext false, probed2)
       else (mkResolution v1 ext false, probed1)).1) as Hroute.
  { intros v1 probed1 Hv1 Hsrc. cbn [negb andb].
    destruct (JS.truthy ext) eqn:Hext; cbn [negb].
    { cbn [fst]. apply resolved_none; [done|done|congruence|done]. }
    rewrite (probeChain_route _ _ _ _ _ _ Hv1).
    destruct (isTruthy (probeChain fs None []
      (routeCandidates host opts requestedFile)).1) eqn:Hv2.
    - cbn [fst]. apply isTruthy_Some in Hv2 as (loc & Hv2 & Hl).
      rewrite Hv2. by eapply resolved_route.
    - cbn [fst]. apply resolved_none; [done|done|by intros _|done]. }
  destruct isSrc.
  - rewrite (probeChain_source _ _ _ _ Hv0).
    destruct (isTruthy (probeChain fs None []
      (sourceCandidates requestedFile)).1) eqn:Hv1.
    + cbn [negb andb fst].
      apply isTruthy_Some in Hv1 as (loc & Hv1 & Hl). rewrite Hv1.
      by eapply resolved_source.
    + cbn [fst snd]. by apply Hroute.
  - cbn [fst snd]. rewrite ?Hv0. by apply Hroute.
Qed.

(** Whatever the resolver returns was found by [fs.stat]. *)
Lemma resolution_stat requestedFile isSrc ext loc :
  fileLoc (resolution host opts fs requestedFile isSrc ext).1 = Some loc ->
  JS.truthy loc = true ->
  is_Some (stat fs loc).
Proof.
  intros Hloc Hl.
  destruct (resolution_path requestedFile isSrc ext) as
    [s Hs _ _|loc' _ _ Hc _|loc' _ _ _ Hc _|v _ _ _ Hv];
    cbn in Hloc; simplify_eq.
  - eauto.
  - apply probeChain_hit in Hc as [?|(accept & s & _ & Hs & _)]; [done|eauto].
  - apply probeChain_hit in Hc as [?|(accept & s & _ & Hs & _)]; [done|eauto].
  - cbn in Hv. congruence.
Qed.

Lemma append_length (s t : string) :
  String.length (s +:+ t) = String.length s + String.length t.
Proof. induction s as [|a s IH]; [done|]. rewrite append_cons. cbn. by rewrite IH. Qed.

Lemma append_neq (s t : string) : t <> "" -> s +:+ t <> s.
Proof.
  intros Ht H. apply (f_equal String.length) in H.
  rewrite append_length in H. destruct t; [done|]. cbn in H. lia.
Qed.

(** A route is served from a file other than the candidate, as [.html]. *)
Lemma resolution_route requestedFile isSrc ext :
  isRoute (resolution host opts fs requestedFile isSrc ext).1 = true ->
  exists loc,
    (resolution host opts fs requestedFile isSrc ext).1 =
      mkResolution (Some loc) ".html" true /\
    JS.truthy loc = true /\ loc <> requestedFile /\ JS.truthy ext = false.
Proof.
  intros Hroute.
  destruct (resolution_path requestedFile isSrc ext) as
    [| |loc Hv0 _ Hext Hc Hl|]; cbn in Hroute; try done.
  exists loc. split_and!; [done..| |done].
  intros ->.
  apply probeChain_hit in Hc as [?|(accept & s & Hin & Hs & Ha)]; [done|].
  unfold routeCandidates in Hin. cbn in Hin.
  destruct Hin as [[= Hp _]|[[= Hp _]|[[= Hp _]|[[= Hp Hacc]|[]]]]].
  - by apply append_neq in Hp.
  - by apply append_neq in Hp.
  - by apply append_neq in Hp.
  - unfold probeValue in Hv0. rewrite Hs in Hv0. subst accept.
    rewrite Ha in Hv0. cbn in Hv0. congruence.
Qed.

End ResolverFacts.

(** ** The watch callback *)

Section Watcher.

Variable host : Host.
Variable opts : DevOptions.
Variable fs : FileSystem.

Lemma pop_nil : pop [] = None.
Proof. done. Qed.

Lemma pop_snoc front last : pop (front ++ [last]) = Some (last, front).
Proof. unfold pop. rewrite rev_app_distr. cbn. by rewrite rev_involutive. Qed.

Lemma setLiveReloadClients_nil st :
  liveReloadClients st = [] -> setLiveReloadClients (fun _ => []) st = st.
Proof. destruct st as [c e l]. cbn. by intros ->. Qed.

Lemma sendMessage_run client channel data (st : State) :
  sendMessage client channel data st =
  (tt, st,
   [ResWrite client
      ("event: " +:+ channel +:+ newline +:+ "id: 0" +:+ newline +:+
       "data: " +:+ data +:+ newline);
    ResWrite client (newline +:+ newline)]).
Proof. done. Qed.

Lemma drainClients_run fuel st :
  length (liveReloadClients st) <= fuel ->
  drainClients fuel st =
  (tt, setLiveReloadClients (fun _ => []) st,
   reloadTrace (rev (liveReloadClients st))).
Proof.
  revert st. induction fuel as [|fuel IH]; intros st Hlen.
  - destruct (liveReloadClients st) eqn:Hl; [|cbn in Hlen; lia].
    cbn. by rewrite setLiveReloadClients_nil.
  - cbn [drainClients]. unfold mbind, Action_bind, bind, gets.
    destruct (liveReloadClients st) as [|c l] eqn:Hl using rev_ind.
    + cbn. by rewrite setLiveReloadClients_nil.
    + clear IHl. rewrite pop_snoc.
      unfold modify. rewrite sendMessage_run, IH.
      * cbn. rewrite rev_app_distr. cbn. done.
      * cbn. rewrite length_app in Hlen. cbn in Hlen. lia.
Qed.

Lemma onWatchEvent_run event fileLoc st :
  onWatchEvent host opts fs event fileLoc st =
  let st0 := invalidated opts fileLoc st in
  let t0 := reloadTrace (rev (liveReloadClients st)) in
  match babelFileErrors st !! fileLoc with
  | None => (tt, st0, t0)
  | Some _ =>
      match readFile fs fileLoc utf8 with
      | Some (String a s) =>
          match transformAsync host (String a s) fileLoc with
          | Resolved result =>
              (tt, setBabelFileErrors (delete fileLoc) st0,
               t0 ++ [FsReadFile fileLoc utf8; Emit (BABEL_START fileLoc);
                      Emit (BABEL_FINISH fileLoc result)])
          | Rejected err =>
              (tt, setBabelFileErrors (insert fileLoc err) st0,
               t0 ++ [FsReadFile fileLoc utf8; Emit (BABEL_START fileLoc);
                      Emit (BABEL_ERROR fileLoc err)])
          end
      | _ =>
          (tt, setBabelFileErrors (delete fileLoc) st0,
           t0 ++ [FsReadFile fileLoc utf8])
      end
  end.
Proof.
  unfold onWatchEvent. fold (requestId opts fileLoc).
  unfold mbind, Action_bind, bind, gets, modify.
  rewrite drainClients_run by done.
  fold (invalidated opts fileLoc st). cbn [liveReloadClients setFileCache].
  cbn [babelFileErrors invalidated setLiveReloadClients setFileCache].
  destruct (babelFileErrors st !! fileLoc) as [err0|]; [|cbn; by rewrite app_nil_r].
  unfold effect.
  destruct (readFile fs fileLoc utf8) as [[|a s]|]; cbn [JS.truthy].
  - cbn. done.
  - rewrite buildBabelFile_run.
    destruct (transformAsync host (String a s) fileLoc); cbn; done.
  - cbn. done.
Qed.
End Watcher.

(** ** Requests *)

Lemma In_fmap_FsStat e probed :
  In e (FsStat <$> probed) -> exists p, e = FsStat p.
Proof.
  induction probed as [|p probed IH]; [done|]. intros [<-|H]; eauto.
Qed.

Lemma In_finishTrace e req r :
  In e (finishTrace req r) ->
  exists status, e = Emit (SERVER_RESPONSE (method req) (url req) status).
Proof.
  unfold finishTrace. destruct (statusCode r) as [status|]; [|done].
  destruct (Nat.eqb status 200); [done|]. intros [<-|[]]. eauto.
Qed.

Lemma In_sessionTrace e r : In e (sessionTrace r) -> e = Emit NEW_SESSION.
Proof. unfold sessionTrace. destruct (isRoute r); [|done]. by intros [<-|[]]. Qed.

Lemma In_sendMessage e client channel data st :
  In e (traceOf (sendMessage client channel data st)) ->
  exists chunk, e = ResWrite client chunk.
Proof. intros [<-|[<-|[]]]; eauto. Qed.

Section Requests.

Variable host : Host.
Variable opts : DevOptions.
Variable fs : FileSystem.

(** C10.  A request that misses the cache and resolves to a file whose
    contents are read with success and are empty is answered 404, not 200
    with an empty body, and leaves the state, so also the cache, as it
    was: no entry is created. *)
Theorem empty_file_is_not_found (req : Request) (st : State)
    (resource loc : string) :
  let reqPath := url_pathname host (url req) in
  let requestedFile := (candidateFile host opts reqPath resource).1 in
  let isSrc := (candidateFile host opts reqPath resource).2 in
  let ext := JS.toLowerCase (path_ext host resource) in
  let r := valueOf (resolveFile host opts fs requestedFile isSrc ext st) in
  reqPath <> "/livereload" ->
  decodeURI host reqPath = Some resource ->
  FILE_CACHE st !! requestedFile = None ->
  fileLoc r = Some loc ->
  readFile fs loc (getEncodingType (requestedFileExt r)) = Some "" ->
  valueOf (handleRequest host opts fs req st) = SendError 404 /\
  stateOf (handleRequest host opts fs req st) = st.
Proof.
  intros reqPath requestedFile isSrc ext r Hlr Hdec Hmiss Hloc Hread.
  subst r. rewrite runsAs_resolveFile in Hloc, Hread.
  unfold valueOf in Hloc, Hread. cbn [fst] in Hloc, Hread.
  destruct (handleRequest_path host opts fs req st)
    as [Heq|_ Hnone|resource' file _ Hdec' Hhit|resource' r probed served _ Hdec' _ Hres Hserve].
  - done.
  - fold reqPath in Hnone. congruence.
  - fold reqPath in Hdec', Hhit. simplify_eq. fold requestedFile in Hhit. congruence.
  - fold reqPath in Hdec', Hres. assert (resource' = resource) as -> by congruence.
    fold requestedFile isSrc ext in Hres. rewrite Hres in Hloc, Hread.
    cbn [fst] in Hloc, Hread. subst served.
    destruct (serveResolved_path host fs r st); unfold valueOf, stateOf; cbn;
      simplify_eq; try done.
Qed.
End Requests.

(** ** The content cache *)

Ltac in_cases Hin :=
  cbn in Hin;
  repeat match type of Hin with
         | In _ (_ ++ _) => apply in_app_or in Hin as [Hin|Hin]
         | In _ (sessionTrace _) => apply In_sessionTrace in Hin
         | In _ (_ :: _) => destruct Hin as [Hin|Hin]
         | In _ [] => destruct Hin
         | _ \/ _ => destruct Hin as [Hin|Hin]
         | False => destruct Hin
         end.

Section Cache.

Variable host : Host.
Variable opts : DevOptions.

(** A request leaves the cache as it was, or stores one entry, whose
    value is the body it sends. *)
Lemma handleRequest_cache fs req st :
  FILE_CACHE (stateOf (handleRequest host opts fs req st)) = FILE_CACHE st \/
  exists loc v,
    FILE_CACHE (stateOf (handleRequest host opts fs req st)) =
      <[loc := v]> (FILE_CACHE st) /\
    storedBy host opts fs req st loc v.
Proof.
  unfold storedBy. cbn zeta.
  destruct (handleRequest_path host opts fs req st)
    as [| | |resource r probed served Hlr Hdec Hmiss Hres Hserved];
    unfold stateOf, valueOf, traceOf; cbn [fst snd]; auto.
  set (c := candidateFile host opts (url_pathname host (url req)) resource)
    in *.
  assert (forall loc, fileLoc r = Some loc -> JS.truthy loc = true ->
            is_Some (stat fs loc)) as Hstat.
  { intros loc Hloc Hl.
    eapply (resolution_stat host opts fs c.1 c.2); [|done].
    by rewrite Hres. }
  subst served.
  destruct (serveResolved_path host fs r st)
    as [| | |loc contents Hloc Hl Hread Hc Hneeds| |
        |loc contents result v Hloc Hl Hread Hc Hneeds Hbabel Hcode Hv];
    cbn [fst snd]; auto; right.
  - exists loc, (augment r contents). split; [done|].
    exists resource, contents. fold c.
    rewrite (runsAs_resolveFile host opts fs c.1 c.2 _ st), Hres.
    cbn [fst]. rewrite Hneeds.
    by split_and!; try done; apply Hstat.
  - exists loc, v. split; [done|].
    exists resource, contents. fold c.
    rewrite (runsAs_resolveFile host opts fs c.1 c.2 _ st), Hres.
    cbn [fst]. rewrite Hneeds.
    split_and!; try done; [by apply Hstat|].
    exists result. split_and!; try done.
    apply in_or_app. right.
    apply in_or_app. left. right. apply in_or_app. right. right. by left.
Qed.

(** A watch event deletes one key from the cache, and adds none. *)
Lemma onWatchEvent_cache fs event fileLoc st :
  FILE_CACHE (stateOf (onWatchEvent host opts fs event fileLoc st)) =
  delete (requestId opts fileLoc) (FILE_CACHE st).
Proof.
  rewrite onWatchEvent_run. cbn zeta.
  destruct (babelFileErrors st !! fileLoc); [|done].
  destruct (readFile fs fileLoc utf8) as [[|a s]|]; [done| |done].
  by destruct (transformAsync host (String a s) fileLoc).
Qed.

Lemma run_snoc history t :
  run host opts (history ++ [t]) = step host opts (run host opts history) t.
Proof. unfold run. by rewrite fold_left_app. Qed.

(** The states of [reachable] are the states after a history. *)
Lemma reachable_run st :
  reachable host opts st <-> exists history, st = run host opts history.
Proof.
  split.
  - induction 1 as [|fs req st _ [history ->]|fs event fileLoc st _ [history ->]].
    + by exists [].
    + exists (history ++ [RequestStep fs req]). by rewrite run_snoc.
    + exists (history ++ [WatchStep fs event fileLoc]). by rewrite run_snoc.
  - intros [history ->]. induction history as [|t history IH] using rev_ind.
    + constructor.
    + rewrite run_snoc. destruct t; by constructor.
Qed.

(** Every entry of the cache was stored by a request of the history, in
    the state the server had when that request came. *)
Lemma cache_entries_stored history loc v :
  FILE_CACHE (run host opts history) !! loc = Some v ->
  exists before fs req after,
    history = before ++ RequestStep fs req :: after /\
    storedBy host opts fs req (run host opts before) loc v.
Proof.
  revert loc v. induction history as [|t history IH] using rev_ind;
    intros loc v Hin; [done|].
  rewrite run_snoc in Hin.
  assert (FILE_CACHE (run host opts history) !! loc = Some v ->
          exists before fs req after,
            history ++ [t] = before ++ RequestStep fs req :: after /\
            storedBy host opts fs req (run host opts before) loc v) as Hold.
  { intros (before & fs & req & after & -> & Hs)%IH.
    exists before, fs, req, (after ++ [t]).
    by rewrite <- app_assoc. }
  destruct t as [fs req|fs event fileLoc]; cbn [step] in Hin.
  - destruct (handleRequest_cache fs req (run host opts history))
      as [Heq|(l & w & Heq & Hs)]; rewrite Heq in Hin; [auto|].
    destruct (decide (l = loc)) as [->|Hne].
    + rewrite lookup_insert_eq in Hin. simplify_eq.
      by exists history, fs, req, [].
    + rewrite lookup_insert_ne in Hin by done. auto.
  - rewrite onWatchEvent_cache in Hin.
    apply lookup_delete_Some in Hin as [_ Hin]. auto.
Qed.

(** What a stored entry holds is not empty. *)
Lemma storedBy_truthy fs req st loc v :
  storedBy host opts fs req st loc v -> JS.truthy v = true.
Proof.
  intros (resource & contents & H). cbn zeta in H.
  destruct H as (_ & _ & _ & _ & _ & _ & Hc & Hv & _).
  destruct (needsTransform _ loc).
  - by destruct Hv as (result & _ & _ & ? & _).
  - subst v. unfold augment. destruct (isRoute _); [|done].
    by destruct contents.
Qed.

(** The entries of the cache of a reachable state are not empty. *)
Lemma cache_values_truthy st key v :
  reachable host opts st -> FILE_CACHE st !! key = Some v ->
  JS.truthy v = true.
Proof.
  intros [history ->]%reachable_run
    (before & fs & req & after & _ & Hs)%cache_entries_stored.
  by eapply storedBy_truthy.
Qed.

(** C4.  After any history of requests and watch events, a request whose
    transform fails (the compiler rejects the input, or returns a result
    without code) is answered 500 and leaves the content cache as it was;
    and every entry the cache holds then was stored by a request of that
    history, for which the resolver ended at the path of the entry, the
    file at that path was read and, where the handler transforms, the
    compiler returned the cached code for the contents read. *)
Theorem failed_transform_is_never_cached (history : list Transition)
    (fs : FileSystem) (req : Request) :
  let st := run host opts history in
  transformFailed (traceOf (handleRequest host opts fs req st)) ->
  valueOf (handleRequest host opts fs req st) = SendError 500 /\
  FILE_CACHE (stateOf (handleRequest host opts fs req st)) = FILE_CACHE st /\
  forall loc v,
    FILE_CACHE (stateOf (handleRequest host opts fs req st)) !! loc = Some v ->
    exists before fs' req' after,
      history = before ++ RequestStep fs' req' :: after /\
      storedBy host opts fs' req' (run host opts before) loc v.
Proof.
  intros st Hfail.
  assert (valueOf (handleRequest host opts fs req st) = SendError 500 /\
          FILE_CACHE (stateOf (handleRequest host opts fs req st)) =
            FILE_CACHE st) as [Hv Hc].
  { destruct (handleRequest_path host opts fs req st)
      as [| | |resource r probed served _ _ _ Hres <-];
      unfold traceOf, valueOf, stateOf in *; cbn [fst snd] in *.
    - destruct Hfail as [(f & e & Hin)|(f & e & Hin & _)];
        by apply In_sendMessage in Hin as [c ?].
    - by destruct Hfail as [(f & e & Hin)|(f & e & Hin & _)].
    - by destruct Hfail as [(f & e & Hin)|(f & e & Hin & _)].
    - assert (transformFailed (serveResolved host fs r st).2) as Hserved.
      { destruct Hfail as [(f & e & Hin)|(f & e & Hin & Hcode)]; [left|right];
          exists f, e; [|split; [|done]];
          apply in_app_or in Hin as [Hin|Hin];
          try (by apply In_fmap_FsStat in Hin as [p ?]);
          apply in_app_or in Hin as [Hin|Hin]; try done;
          by apply In_finishTrace in Hin as [status ?]. }
      clear Hfail.
      destruct (serveResolved_path host fs r st)
        as [| | | | | |loc contents result v ? ? ? ? ? ? Hcode Hv];
        cbn [fst snd] in *; try done;
        destruct Hserved as [(f & e & Hin)|(f & e & Hin & Hfalse)];
        in_cases Hin; try done.
      simplify_eq. rewrite Hcode in Hfalse. cbn in Hfalse. congruence. }
  split_and!; [done..|].
  intros loc v. rewrite Hc. apply cache_entries_stored.
Qed.
End Cache.

(** ** Retry and live reload on a watch event *)

Section WatchEvent.

Variable host : Host.
Variable opts : DevOptions.

(** What [onWatchEvent] does when its argument is a key of
    [babelFileErrors]: it re-reads the file of that name; when the file is
    read and is not empty, the Source Transformer runs once, on the
    contents just read, and the recorded failure is removed if the
    compiler returns and replaced by the new error if it rejects; when the
    file can not be read, or is empty, the recorded failure is removed and
    the transformer does not run. *)
Lemma retry_runs_for_a_recorded_key (fs : FileSystem)
    (event fileLoc : string) (st : State) (err0 : Error) :
  babelFileErrors st !! fileLoc = Some err0 ->
  let out := onWatchEvent host opts fs event fileLoc st in
  match readFile fs fileLoc utf8 with
  | Some contents =>
      if JS.truthy contents then
        transformerRuns (traceOf out) = [fileLoc] /\
        match transformAsync host contents fileLoc with
        | Resolved result =>
            In (Emit (BABEL_FINISH fileLoc result)) (traceOf out) /\
            babelFileErrors (stateOf out) =
              delete fileLoc (babelFileErrors st)
        | Rejected err =>
            In (Emit (BABEL_ERROR fileLoc err)) (traceOf out) /\
            babelFileErrors (stateOf out) =
              <[fileLoc := err]> (babelFileErrors st)
        end
      else
        transformerRuns (traceOf out) = [] /\
        babelFileErrors (stateOf out) = delete fileLoc (babelFileErrors st)
  | None =>
      transformerRuns (traceOf out) = [] /\
      babelFileErrors (stateOf out) = delete fileLoc (babelFileErrors st)
  end.
Proof.
  intros Hpending out. subst out. rewrite onWatchEvent_run, Hpending. cbn zeta.
  assert (forall t, transformerRuns (reloadTrace (rev (liveReloadClients st)) ++ t)
                    = transformerRuns t) as Hruns.
  { intros t. unfold transformerRuns. rewrite omap_app.
    assert (forall l, omap (fun e => match e with
                       | Emit (BABEL_START file) => Some file
                       | _ => None end) (reloadTrace l) = []) as ->; [|done].
    induction l as [|c l IH]; [done|]. done. }
  destruct (readFile fs fileLoc utf8) as [[|a s]|]; cbn [JS.truthy].
  - unfold traceOf, stateOf. cbn [fst snd]. by rewrite Hruns.
  - destruct (transformAsync host (String a s) fileLoc);
      unfold traceOf, stateOf; cbn [fst snd]; rewrite Hruns;
      (split; [done|]); (split; [|done]);
      apply in_or_app; right; cbn; auto.
  - unfold traceOf, stateOf. cbn [fst snd]. by rewrite Hruns.
Qed.

Lemma writesTo_reloadTrace client clients :
  writesTo client (reloadTrace clients) =
  flat_map (fun c => if Nat.eqb c client then reloadMessage else []) clients.
Proof.
  induction clients as [|c clients IH]; [done|].
  unfold reloadTrace, writesTo in *. cbn [flat_map]. rewrite omap_app, IH.
  f_equal. cbn. by destruct (Nat.eqb c client).
Qed.

Lemma flat_map_absent client clients :
  ~ In client clients ->
  flat_map (fun c => if Nat.eqb c client then reloadMessage else []) clients
  = [].
Proof.
  induction clients as [|c clients IH]; [done|]. intros Hnot. cbn [flat_map].
  destruct (Nat.eqb_spec c client) as [->|_].
  - destruct Hnot. by left.
  - rewrite IH; [done|]. intros ?. apply Hnot. by right.
Qed.

Lemma flat_map_once client clients :
  List.NoDup clients -> In client clients ->
  flat_map (fun c => if Nat.eqb c client then reloadMessage else []) clients
  = reloadMessage.
Proof.
  induction 1 as [|c clients Hnot _ IH]; [done|]. intros [->|Hin]; cbn [flat_map].
  - by rewrite Nat.eqb_refl, flat_map_absent, app_nil_r.
  - destruct (Nat.eqb_spec c client) as [->|_]; [done|]. by rewrite IH.
Qed.

Lemma writesTo_onWatchEvent client fs event fileLoc st :
  writesTo client (traceOf (onWatchEvent host opts fs event fileLoc st)) =
  writesTo client (reloadTrace (rev (liveReloadClients st))).
Proof.
  rewrite onWatchEvent_run. cbn zeta.
  destruct (babelFileErrors st !! fileLoc); [|done].
  destruct (readFile fs fileLoc utf8) as [[|a s]|];
    [| destruct (transformAsync host (String a s) fileLoc) |];
    unfold traceOf, writesTo; cbn [snd]; rewrite omap_app; cbn;
    by rewrite app_nil_r.
Qed.

Lemma liveReloadClients_onWatchEvent fs event fileLoc st :
  liveReloadClients (stateOf (onWatchEvent host opts fs event fileLoc st)) = [].
Proof.
  rewrite onWatchEvent_run. cbn zeta.
  destruct (babelFileErrors st !! fileLoc); [|done].
  destruct (readFile fs fileLoc utf8) as [[|a s]|]; [done| |done].
  by destruct (transformAsync host (String a s) fileLoc).
Qed.

Lemma writesTo_app client t1 t2 :
  writesTo client (t1 ++ t2) = writesTo client t1 ++ writesTo client t2.
Proof. apply omap_app. Qed.

Lemma writesTo_FsStat client probed : writesTo client (FsStat <$> probed) = [].
Proof. induction probed as [|p probed IH]; [done|]. exact IH. Qed.

Lemma writesTo_finishTrace client req r :
  writesTo client (finishTrace req r) = [].
Proof.
  unfold finishTrace. destruct (statusCode r) as [status|]; [|done].
  by destruct (Nat.eqb status 200).
Qed.

Lemma writesTo_sessionTrace client r : writesTo client (sessionTrace r) = [].
Proof. unfold sessionTrace. by destruct (isRoute r). Qed.

(** A request writes to an event stream only when it registers one. *)
Lemma writesTo_handleRequest client fs req st :
  url_pathname host (url req) <> "/livereload" ->
  writesTo client (traceOf (handleRequest host opts fs req st)) = [].
Proof.
  intros Hlr.
  destruct (handleRequest_path host opts fs req st)
    as [| | |resource r probed served _ _ _ Hres <-]; try done.
  unfold traceOf. cbn [snd].
  rewrite !writesTo_app, writesTo_FsStat, writesTo_finishTrace, app_nil_r.
  cbn [app].
  destruct (serveResolved_path host fs r st); cbn [snd]; try done.
  - apply writesTo_sessionTrace.
  - change (writesTo client (sessionTrace r ++
      [Emit (BABEL_START loc); Emit (BABEL_ERROR loc err)]) = []).
    by rewrite writesTo_app, writesTo_sessionTrace.
  - change (writesTo client (sessionTrace r ++
      [Emit (BABEL_START loc); Emit (BABEL_FINISH loc result)]) = []).
    by rewrite writesTo_app, writesTo_sessionTrace.
  - change (writesTo client (sessionTrace r ++
      [Emit (BABEL_START loc); Emit (BABEL_FINISH loc result)]) = []).
    by rewrite writesTo_app, writesTo_sessionTrace.
Qed.

(** C6.  With the connected clients pairwise distinct, one watch event
    writes exactly one reload message to each of them and nothing to any
    other response, and leaves the list of clients empty; after it, no
    watch event writes to any client, and no request other than a new
    registration at [/livereload] writes to an event stream. *)
Theorem reload_goes_once_to_each_client (fs : FileSystem)
    (event fileLoc : string) (st : State) :
  List.NoDup (liveReloadClients st) ->
  let out := onWatchEvent host opts fs event fileLoc st in
  (forall client, In client (liveReloadClients st) ->
     writesTo client (traceOf out) = reloadMessage) /\
  (forall client, ~ In client (liveReloadClients st) ->
     writesTo client (traceOf out) = []) /\
  liveReloadClients (stateOf out) = [] /\
  (forall client fs' event' fileLoc',
     writesTo client
       (traceOf (onWatchEvent host opts fs' event' fileLoc' (stateOf out)))
     = []) /\
  (forall client fs' req,
     url_pathname host (url req) <> "/livereload" ->
     writesTo client (traceOf (handleRequest host opts fs' req (stateOf out)))
     = []).
Proof.
  intros Hnodup out. subst out. split_and!.
  - intros client Hin. rewrite writesTo_onWatchEvent, writesTo_reloadTrace.
    apply flat_map_once; [by apply List.NoDup_rev|by apply in_rev in Hin].
  - intros client Hnot. rewrite writesTo_onWatchEvent, writesTo_reloadTrace.
    apply flat_map_absent. intros Hin. apply Hnot. by apply in_rev.
  - apply liveReloadClients_onWatchEvent.
  - intros. by rewrite writesTo_onWatchEvent, liveReloadClients_onWatchEvent.
  - intros. by apply writesTo_handleRequest.
Qed.
End WatchEvent.

(** ** The typecheck listener *)

Lemma append_assoc (s t u : string) : (s +:+ t) +:+ u = s +:+ t +:+ u.
Proof. induction s as [|a s IH]; [done|]. by rewrite !append_cons, IH. Qed.

Lemma drop_append (p s : string) : JS.drop (String.length p) (p +:+ s) = s.
Proof. induction p as [|a p IH]; [done|]. by rewrite append_cons. Qed.

Lemma prefix_split (p s : string) :
  String.prefix p s = true -> s = p +:+ JS.drop (String.length p) s.
Proof.
  revert s. induction p as [|a p IH]; intros s H; [done|].
  destruct s as [|b s]; [done|]. rewrite prefix_cons in H.
  apply andb_true_iff in H as [Hab H]. apply bool_decide_eq_true in Hab as ->.
  rewrite append_cons. cbn. f_equal. by apply IH.
Qed.

Lemma prefix_beginsWith (p s : string) :
  String.prefix p s = true <-> beginsWith p s.
Proof.
  split.
  - intros H. eexists. by apply prefix_split.
  - intros [rest ->]. apply prefix_app.
Qed.

Lemma testLineStartBracket_spec (atLineStart : bool) (s : string) :
  testLineStartBracket atLineStart s = true <->
  (atLineStart = true /\ beginsWith "[" s) \/
  exists before a rest,
    s = before +:+ String a ("[" +:+ rest) /\ JS.isLineTerminator a = true.
Proof.
  revert atLineStart. induction s as [|c s IH]; intros atLineStart.
  - cbn. split; [done|].
    intros [[_ [rest Hr]]|(before & a & rest & Hs & _)]; [done|].
    by destruct before.
  - cbn [testLineStartBracket]. rewrite orb_true_iff, andb_true_iff, IH.
    split.
    + intros [[-> Hc]|[[Hlt [rest ->]]|(before & a & rest & -> & Ha)]].
      * apply Ascii.eqb_eq in Hc as ->. left. split; [done|]. by exists s.
      * right. exists "", c, rest. done.
      * right. exists (String c before), a, rest. done.
    + intros [[-> [rest Hr]]|(before & a & rest & Hs & Ha)].
      * left. split; [done|]. rewrite append_cons in Hr.
        injection Hr as -> _. by apply Ascii.eqb_eq.
      * right. destruct before as [|b before].
        -- rewrite append_nil_l in Hs. injection Hs as -> ->.
           left. split; [done|]. by exists rest.
        -- rewrite append_cons in Hs. injection Hs as -> ->.
           right. by exists before, a, rest.
Qed.

Lemma hasBracketLine_spec (s : string) :
  testLineStartBracket true s = true <-> hasBracketLine s.
Proof.
  rewrite testLineStartBracket_spec. unfold hasBracketLine.
  split; (intros [H|H]; [left|by right]); [by destruct H|done].
Qed.

Lemma matchWatchingAt_spec (t : string) :
  matchWatchingAt t = true <->
  exists a rest,
    t = watchingPhrase +:+ String a rest /\ JS.isLineTerminator a = false.
Proof.
  unfold matchWatchingAt. rewrite andb_true_iff. split.
  - intros [Hp Hd]. apply prefix_split in Hp.
    destruct (JS.drop (String.length watchingPhrase) t) as [|a rest]; [done|].
    exists a, rest. split; [done|]. by apply negb_true_iff.
  - intros (a & rest & -> & Ha). split; [apply prefix_app|].
    rewrite drop_append. by apply negb_true_iff.
Qed.

Lemma testWatching_spec (s : string) :
  testWatching s = true <-> holdsWatching s.
Proof.
  unfold holdsWatching. induction s as [|c s IH].
  - cbn [testWatching]. rewrite orb_false_r, matchWatchingAt_spec. split.
    + intros (a & rest & H & Ha). by exists "", a, rest.
    + intros (before & a & rest & H & Ha). by destruct before.
  - cbn [testWatching]. rewrite orb_true_iff, matchWatchingAt_spec, IH. split.
    + intros [(a & rest & H & Ha)|(before & a & rest & H & Ha)].
      * by exists "", a, rest.
      * exists (String c before), a, rest. by rewrite H.
    + intros (before & a & rest & H & Ha). destruct before as [|b before].
      * left. by exists a, rest.
      * right. rewrite append_cons in H. injection H as -> ->.
        by exists before, a, rest.
Qed.

Lemma spanDigits_split (s : string) :
  s = (JS.spanDigits s).1 +:+ (JS.spanDigits s).2 /\
  allDigits (JS.spanDigits s).1 = true.
Proof.
  induction s as [|a s [IH1 IH2]]; [done|]. cbn [JS.spanDigits].
  destruct (JS.isDigit a) eqn:Ha; [|done].
  destruct (JS.spanDigits s) as [ds rest]. cbn in *.
  rewrite append_cons, Ha. split; [by f_equal|done].
Qed.

Lemma spanDigits_run (ds rest : string) :
  allDigits ds = true ->
  match rest with String a _ => JS.isDigit a = false | EmptyString => True end ->
  JS.spanDigits (ds +:+ rest) = (ds, rest).
Proof.
  intros Hds Hrest. induction ds as [|a ds IH].
  - rewrite append_nil_l. destruct rest as [|a rest]; [done|].
    cbn. by rewrite Hrest.
  - cbn in Hds. apply andb_true_iff in Hds as [Ha Hds].
    rewrite append_cons. cbn. by rewrite Ha, IH.
Qed.

Lemma matchFoundAt_spec (t digits : string) :
  matchFoundAt t = Some digits <->
  exists rest,
    t = "Found " +:+ digits +:+ " errors" +:+ rest /\
    JS.truthy digits = true /\ allDigits digits = true.
Proof.
  unfold matchFoundAt. split.
  - destruct (String.prefix "Found " t) eqn:Hp; [|done].
    apply prefix_split in Hp. cbn [String.length] in Hp.
    destruct (spanDigits_split (JS.drop 6 t)) as [Hs Hd].
    destruct (JS.spanDigits (JS.drop 6 t)) as [ds rest]. cbn [fst snd] in *.
    destruct (JS.truthy ds) eqn:Ht; [|done].
    destruct (String.prefix " errors" rest) eqn:Hr; [|done].
    intros [= <-]. apply prefix_split in Hr.
    exists (JS.drop (String.length " errors") rest).
    split; [|done]. by rewrite <- Hr, <- Hs.
  - intros (rest & -> & Ht & Hd). rewrite prefix_app.
    change 6 with (String.length "Found "). rewrite drop_append.
    rewrite spanDigits_run by done. by rewrite Ht, prefix_app.
Qed.

Lemma matchFound_here (s digits : string) :
  matchFoundAt s = Some digits -> matchFound s = Some digits.
Proof. intros H. destruct s; cbn [matchFound]; by rewrite H. Qed.

Lemma matchFound_sound (s digits : string) :
  matchFound s = Some digits -> holdsFound s digits.
Proof.
  unfold holdsFound. induction s as [|c s IH]; cbn [matchFound].
  - destruct (matchFoundAt "") eqn:Hm; [|done]. intros [= ->].
    apply matchFoundAt_spec in Hm as (rest & H & ?). by exists "", rest.
  - destruct (matchFoundAt (String c s)) eqn:Hm.
    + intros [= ->]. apply matchFoundAt_spec in Hm as (rest & H & ?).
      by exists "", rest.
    + intros (before & rest & -> & ?)%IH. by exists (String c before), rest.
Qed.

Lemma matchFound_complete (s digits : string) :
  holdsFound s digits -> is_Some (matchFound s).
Proof.
  intros (before & rest & -> & Ht & Hd).
  induction before as [|c before IH].
  - rewrite append_nil_l. exists digits. apply matchFound_here.
    apply matchFoundAt_spec. eauto.
  - rewrite append_cons. cbn [matchFound].
    by destruct (matchFoundAt _).
Qed.

(** The events of one chunk, one by one. *)
Lemma onTscData_events (b : string) (e : BusEvent) :
  In e (onTscData b) <->
  (e = TSC_RESET /\ JS.startsWith b clearScreen = true) \/
  e = TSC_MSG (tscMessage b) \/
  (e = TSC_DONE /\ testLineStartBracket true (tscMessage b) = true /\
   testWatching (tscMessage b) = true) \/
  (exists digits,
     e = TSC_ERROR (JS.parseInt digits) /\
     testLineStartBracket true (tscMessage b) = true /\
     matchFound (tscMessage b) = Some digits).
Proof.
  unfold onTscData. rewrite orb_diag.
  destruct (JS.startsWith b clearScreen);
    destruct (testLineStartBracket true (tscMessage b));
    destruct (testWatching (tscMessage b));
    destruct (matchFound (tscMessage b)) as [digits|]; cbn;
    (split;
     [ intros H; repeat (destruct H as [<-|H]; [eauto 10|]); destruct H
     | intros [[-> [=]]|[->|[(-> & [=] & [=])|(d & -> & [=] & [=])]]];
       subst; auto 10 ]).
Qed.

(** C9, as amended.  For every chunk of typecheck output, the listener
    emits RESET exactly when the chunk begins with the clear-screen
    sequence; emits one MESSAGE, carrying the chunk without its first two
    clear sequences and without leading white space; emits DONE exactly
    when that text has a line that begins with an opening bracket and
    holds the watching-for-changes phrase followed by one more character
    of its line; and emits ERROR_COUNT exactly when that text has such a
    bracket line and holds [Found N errors], the count being the number
    read from the digits of such an occurrence. *)
Theorem typecheck_events_of_a_chunk (b : string) :
  (In TSC_RESET (onTscData b) <-> beginsWith clearScreen b) /\
  (forall msg, In (TSC_MSG msg) (onTscData b) <-> msg = tscMessage b) /\
  (In TSC_DONE (onTscData b) <->
   hasBracketLine (tscMessage b) /\ holdsWatching (tscMessage b)) /\
  (forall n, In (TSC_ERROR n) (onTscData b) ->
     hasBracketLine (tscMessage b) /\
     exists digits,
       holdsFound (tscMessage b) digits /\ n = JS.parseInt digits) /\
  ((exists n, In (TSC_ERROR n) (onTscData b)) <->
   hasBracketLine (tscMessage b) /\
   exists digits, holdsFound (tscMessage b) digits).
Proof.
  split_and!.
  - rewrite onTscData_events, <- prefix_beginsWith. unfold JS.startsWith.
    split; [|by auto].
    by intros [[_ ?]|[?|[[? _]|(digits & ? & _)]]].
  - intros msg. rewrite onTscData_events. split; [|intros ->; by auto].
    by intros [[? _]|[[= ->]|[[? _]|(digits & ? & _)]]].
  - rewrite onTscData_events, <- hasBracketLine_spec, <- testWatching_spec.
    split; [|by auto 6].
    by intros [[? _]|[?|[[_ ?]|(digits & ? & _)]]].
  - intros n. rewrite onTscData_events, <- hasBracketLine_spec.
    intros [[? _]|[?|[[? _]|(digits & [= ->] & Hb & Hm)]]]; try done.
    split; [done|]. exists digits. split; [|done]. by apply matchFound_sound.
  - rewrite <- hasBracketLine_spec. split.
    + intros [n Hin]. apply onTscData_events in Hin
        as [[? _]|[?|[[? _]|(digits & [= ->] & Hb & Hm)]]]; try done.
      split; [done|]. exists digits. by apply matchFound_sound.
    + intros [Hb [digits Hf]]. apply matchFound_complete in Hf as [ds Hm].
      exists (JS.parseInt ds). apply onTscData_events. right. right. right.
      by exists ds.
Qed.

(** ** Watching a directory tree *)

(** On Linux, [watch] on a directory attaches one watch, to that
    directory, and never reads its entries. *)
Lemma watch_directory_only (host : Host) (fs : FileSystem) (fuel : nat)
    (root : string) (s : Stats) :
  platform host = "linux" ->
  JS.endsWith root "node_modules" = false ->
  stat fs root = Some s -> isDirectory s = true ->
  watch host fs (S fuel) root = ([FsWatch root false], Normal).
Proof.
  intros Hp He Hs Hd. cbn [watch]. rewrite Hp, He, Hs, Hd. done.
Qed.

(** On Linux, [watch] on anything that is no directory attaches no watch
    at all, whatever the fuel. *)
Lemma watch_file_throws (host : Host) (fs : FileSystem) (fuel : nat)
    (p : string) (s : Stats) :
  platform host = "linux" ->
  JS.endsWith p "node_modules" = false ->
  stat fs p = Some s -> isDirectory s = false ->
  readdir fs p = None ->
  watch host fs (S fuel) p = ([], Throws).
Proof.
  intros Hp He Hs Hd Hr. cbn [watch]. rewrite Hp, He, Hs, Hd, Hr. done.
Qed.

(** ** The route candidates *)

Lemma truthy_append (s t : string) :
  JS.truthy t = true -> JS.truthy (s +:+ t) = true.
Proof. destruct s; [done|]. by rewrite append_cons. Qed.

Lemma truthy_ne (s : string) : s <> "" -> JS.truthy s = true.
Proof. by destruct s. Qed.

Section Routes.

Variable host : Host.
Variable opts : DevOptions.
Variable fs : FileSystem.





Lemma statProbes_FsStat probed : statProbes (FsStat <$> probed) = probed.
Proof. induction probed as [|p probed IH]; [done|]. cbn. by f_equal. Qed.



End Routes.

(** ** Occurrences of the snippet *)

Lemma prefix_longer (p s t : string) :
  String.length p <= String.length s ->
  String.prefix p (s +:+ t) = String.prefix p s.
Proof.
  revert s. induction p as [|a p IH]; intros s Hlen.
  - by rewrite !prefix_nil.
  - destruct s as [|b s]; [cbn in Hlen; lia|].
    rewrite append_cons, !prefix_cons, IH; [done|]. cbn in Hlen. lia.
Qed.

Lemma prefix_shorter (p s t : string) :
  String.length s <= String.length p ->
  String.prefix p (s +:+ t) = true ->
  String.prefix (JS.drop (String.length s) p) t = true.
Proof.
  revert p. induction s as [|b s IH]; intros p Hlen H; [done|].
  destruct p as [|a p]; [cbn in Hlen; lia|].
  rewrite append_cons, prefix_cons in H. apply andb_true_iff in H as [_ H].
  cbn. apply IH; [|done]. cbn in Hlen. lia.
Qed.

Lemma countOccurrences_prefix (needle hay : string) :
  String.prefix needle hay = true -> 0 < countOccurrences needle hay.
Proof. intros H. destruct hay; cbn [countOccurrences]; rewrite H; lia. Qed.

Lemma countOccurrences_inside (needle before after : string) :
  0 < countOccurrences needle (before +:+ needle +:+ after).
Proof.
  induction before as [|a before IH].
  - rewrite append_nil_l. apply countOccurrences_prefix, prefix_app.
  - rewrite append_cons. cbn [countOccurrences]. lia.
Qed.

Lemma countOccurrences_tail a needle hay :
  countOccurrences needle (String a hay) = 0 -> countOccurrences needle hay = 0.
Proof. cbn [countOccurrences]. lia. Qed.

(** No proper shift of the snippet by less than its length, less one,
    matches the snippet again. *)
Lemma snippet_unbordered (k : nat) :
  1 <= k <= String.length LIVE_RELOAD_SNIPPET - 2 ->
  String.prefix (JS.drop k LIVE_RELOAD_SNIPPET) LIVE_RELOAD_SNIPPET = false.
Proof.
  intros Hk.
  assert (forallb (fun k => negb (String.prefix (JS.drop k LIVE_RELOAD_SNIPPET)
                                    LIVE_RELOAD_SNIPPET))
            (seq 1 (String.length LIVE_RELOAD_SNIPPET - 2)) = true) as Hall
    by (vm_compute; reflexivity).
  rewrite forallb_forall in Hall. apply negb_true_iff, Hall, in_seq. lia.
Qed.

Lemma snippet_split :
  LIVE_RELOAD_SNIPPET = newline +:+ snippetElement +:+ newline.
Proof. vm_compute. reflexivity. Qed.

Lemma take_drop (n : nat) (s : string) : s = JS.take n s +:+ JS.drop n s.
Proof.
  revert s. induction n as [|n IH]; intros s; [done|].
  destruct s as [|a s]; [done|]. cbn. rewrite append_cons. by f_equal.
Qed.

Lemma take_length (n : nat) (s : string) :
  n <= String.length s -> String.length (JS.take n s) = n.
Proof.
  revert s. induction n as [|n IH]; intros s H; [done|].
  destruct s as [|a s]; [cbn in H; lia|]. cbn. f_equal. apply IH. cbn in H. lia.
Qed.

(** The snippet does not start inside a document that lacks its script
    element. *)
Lemma snippet_not_before (doc : string) :
  JS.truthy doc = true ->
  countOccurrences snippetElement doc = 0 ->
  String.prefix LIVE_RELOAD_SNIPPET (doc +:+ LIVE_RELOAD_SNIPPET) = false.
Proof.
  intros Hdoc Hnone.
  destruct (String.prefix LIVE_RELOAD_SNIPPET (doc +:+ LIVE_RELOAD_SNIPPET))
    eqn:Hp; [exfalso|done].
  destruct (decide (String.length doc <=
                    String.length LIVE_RELOAD_SNIPPET - 2)) as [Hshort|Hlong].
  - assert (1 <= String.length doc) as Hpos
      by (destruct doc; [done|cbn [String.length]; lia]).
    apply prefix_shorter in Hp; [|lia].
    rewrite snippet_unbordered in Hp; [done|lia].
  - set (n := String.length LIVE_RELOAD_SNIPPET - 1).
    assert (String.prefix (JS.take n LIVE_RELOAD_SNIPPET)
              (doc +:+ LIVE_RELOAD_SNIPPET) = true) as Hp'.
    { apply prefix_split in Hp. rewrite Hp.
      generalize (JS.drop (String.length LIVE_RELOAD_SNIPPET)
                    (doc +:+ LIVE_RELOAD_SNIPPET)).
      intros rest.
      replace (LIVE_RELOAD_SNIPPET +:+ rest)
        with (JS.take n LIVE_RELOAD_SNIPPET +:+
              JS.drop n LIVE_RELOAD_SNIPPET +:+ rest)
        by (by rewrite <- append_assoc, <- take_drop).
      apply prefix_app. }
    rewrite prefix_longer in Hp'.
    2:{ rewrite take_length; subst n; lia. }
    apply prefix_split in Hp'.
    assert (JS.take n LIVE_RELOAD_SNIPPET = newline +:+ snippetElement) as Ht
      by (vm_compute; reflexivity).
    rewrite Ht, append_assoc in Hp'.
    pose proof (countOccurrences_inside snippetElement newline
      (JS.drop (String.length (newline +:+ snippetElement)) doc)) as Hc.
    rewrite <- Hp' in Hc. lia.
Qed.

(** A document without the script element of the snippet holds the
    snippet exactly once after it was appended. *)
Lemma snippet_once (doc : string) :
  countOccurrences snippetElement doc = 0 ->
  countOccurrences LIVE_RELOAD_SNIPPET (doc +:+ LIVE_RELOAD_SNIPPET) = 1.
Proof.
  induction doc as [|a doc IH]; intros Hnone.
  - vm_compute. reflexivity.
  - rewrite append_cons. cbn [countOccurrences]. rewrite <- append_cons.
    rewrite snippet_not_before by done.
    rewrite IH; [done|]. by apply countOccurrences_tail in Hnone.
Qed.

(** ** Routes and the live-reload snippet *)

Section Routes2.

Variable host : Host.
Variable opts : DevOptions.
Variable fs : FileSystem.

Lemma served_session r st :
  In (Emit NEW_SESSION) (traceOf (serveResolved host fs r st)) ->
  isRoute r = true.
Proof.
  assert (In (Emit NEW_SESSION) (sessionTrace r) -> isRoute r = true)
    as Hsession by (unfold sessionTrace; by destruct (isRoute r)).
  unfold traceOf.
  destruct (serveResolved_path host fs r st); cbn [snd]; try done;
    (intros [?|Hin]; [done|]); try done; auto;
    (apply in_app_or in Hin as [Hin|Hin]; [auto|]); in_cases Hin; done.
Qed.

(** What a route is served with, whatever the state. *)
Lemma serveResolved_route loc st :
  JS.truthy loc = true ->
  serveResolved host fs (mkResolution (Some loc) ".html" true) st =
  match readFile fs loc utf8 with
  | Some (String a doc) =>
      (SendFile (String a doc +:+ LIVE_RELOAD_SNIPPET) ".html",
       setFileCache (insert loc (String a doc +:+ LIVE_RELOAD_SNIPPET)) st,
       [FsReadFile loc utf8; Emit NEW_SESSION])
  | Some EmptyString => (SendError 404, st, [FsReadFile loc utf8])
  | None => (SendError 500, st, [FsReadFile loc utf8])
  end.
Proof.
  intros Hl. unfold serveResolved. cbn [fileLoc requestedFileExt isRoute].
  rewrite Hl. cbn [negb]. change (getEncodingType ".html") with utf8.
  unfold mbind, Action_bind, bind, effect.
  destruct (readFile fs loc utf8) as [[|a doc]|]; done.
Qed.

(** C8, as amended.  When a request is served as a route ([isRoute] set),
    a second request for the same target, with the file system
    unchanged, gets the same response, byte for byte: the document as
    read from disk followed by one appended copy of the snippet, which is
    also what the first request put in the cache.  The body holds the
    snippet exactly once whenever the document on disk does not itself
    hold the script element of the snippet. *)
Theorem route_served_twice_is_identical (req req' : Request) (st : State) :
  url req' = url req ->
  In (Emit NEW_SESSION) (traceOf (handleRequest host opts fs req st)) ->
  let first := handleRequest host opts fs req st in
  let second := handleRequest host opts fs req' (stateOf first) in
  exists loc doc,
    readFile fs loc utf8 = Some doc /\
    valueOf first = SendFile (doc +:+ LIVE_RELOAD_SNIPPET) ".html" /\
    FILE_CACHE (stateOf first) !! loc = Some (doc +:+ LIVE_RELOAD_SNIPPET) /\
    valueOf second = valueOf first /\
    (countOccurrences snippetElement doc = 0 ->
     countOccurrences LIVE_RELOAD_SNIPPET (doc +:+ LIVE_RELOAD_SNIPPET) = 1).
Proof.
  intros Hurl Hsession first second. subst second first.
  destruct (handleRequest_path host opts fs req st)
    as [| | |resource r probed served Hlr Hdec Hmiss Hres <-];
    unfold traceOf, valueOf, stateOf in *; cbn [fst snd] in *.
  - by apply In_sendMessage in Hsession as [c ?].
  - done.
  - done.
  - apply in_app_or in Hsession as [Hin|Hin];
      [by apply In_fmap_FsStat in Hin as [p ?]|].
    apply in_app_or in Hin as [Hin|Hin];
      [|by apply In_finishTrace in Hin as [status ?]].
    pose proof (served_session _ _ Hin) as Hroute.
    pose proof (resolution_route host opts fs _ _ _
                  ltac:(by rewrite Hres)) as (loc & Hr & Hl & Hne & Hext).
    rewrite Hres in Hr. cbn [fst] in Hr. subst r.
    clear Hroute.
    unfold traceOf in Hin. rewrite serveResolved_route in Hin |- * by done.
    destruct (readFile fs loc utf8) as [[|a doc]|] eqn:Hread;
      cbn [fst snd] in *; [by destruct Hin as [?|[]]| |by destruct Hin as [?|[]]].
    exists loc, (String a doc). split_and!; [done..| | |apply snippet_once].
    { apply lookup_insert_eq. }
    destruct (handleRequest_path host opts fs req'
                (setFileCache
                   (insert loc (String a doc +:+ LIVE_RELOAD_SNIPPET)) st))
      as [Hlr'|Hlr' Hdec'|resource' file Hlr' Hdec' Hhit
          |resource' r' probed' served' Hlr' Hdec' Hmiss' Hres' <-];
      rewrite Hurl in *; cbn [fst snd]; try congruence.
    + assert (resource' = resource) as -> by congruence.
      cbn [FILE_CACHE setFileCache] in Hhit.
      rewrite lookup_insert_ne in Hhit by done. congruence.
    + assert (resource' = resource) as -> by congruence.
      rewrite Hres in Hres'. injection Hres' as <- <-.
      rewrite serveResolved_route, Hread by done. done.
Qed.
End Routes2.

(** ** The keys of the cache *)

(** A request whose candidate is in the cache is answered from it: no
    probe, no read, no transform, no change of state. *)
Lemma cached_request_is_served_from_cache (host : Host) (opts : DevOptions)
    (fs : FileSystem) (req : Request) (st : State) (resource file : string) :
  url_pathname host (url req) <> "/livereload" ->
  decodeURI host (url_pathname host (url req)) = Some resource ->
  FILE_CACHE st
    !! (candidateFile host opts (url_pathname host (url req)) resource).1 =
    Some file ->
  handleRequest host opts fs req st =
  (SendFile file (JS.toLowerCase (path_ext host resource)), st, []).
Proof.
  intros Hlr Hdec Hhit.
  destruct (handleRequest_path host opts fs req st)
    as [|_ Hnone|resource' file' _ Hdec' Hhit'
        |resource' r probed served _ Hdec' Hmiss _ _]; congruence.
Qed.

Section CacheKeys.

Variable host : Host.
Variable opts : DevOptions.
Variable fs : FileSystem.

(** X27.  A request served from a file other than its candidate leaves
    the candidate out of the cache: the entry goes under the resolved
    path. *)
Lemma resolved_elsewhere_is_not_cached (req : Request) (st : State)
    (resource : string) :
  let reqPath := url_pathname host (url req) in
  let requestedFile := (candidateFile host opts reqPath resource).1 in
  let isSrc := (candidateFile host opts reqPath resource).2 in
  let ext := JS.toLowerCase (path_ext host resource) in
  reqPath <> "/livereload" ->
  decodeURI host reqPath = Some resource ->
  FILE_CACHE st !! requestedFile = None ->
  fileLoc (resolution host opts fs requestedFile isSrc ext).1 <>
    Some requestedFile ->
  FILE_CACHE (stateOf (handleRequest host opts fs req st)) !! requestedFile =
    None.
Proof.
  intros reqPath requestedFile isSrc ext Hlr Hdec Hmiss Hne.
  destruct (handleRequest_path host opts fs req st)
    as [|_ Hnone|resource' file _ Hdec' Hhit
        |resource' r probed served _ Hdec' _ Hres <-];
    unfold stateOf; cbn [fst snd]; try done.
  fold reqPath in Hdec', Hres.
  assert (resource' = resource) as -> by congruence.
  fold requestedFile isSrc ext in Hres. rewrite Hres in Hne. cbn [fst] in Hne.
  destruct (serveResolved_path host fs r st)
    as [| | |loc contents Hloc| | |loc contents result v Hloc];
    cbn [fst snd FILE_CACHE setFileCache setBabelFileErrors]; try done;
    rewrite lookup_insert_ne; congruence.
Qed.

(** X28.  A request served from its candidate itself is answered from the
    cache the next time, with the same body and without any probe, read or
    compile. *)
Lemma direct_hit_is_cached (req : Request) (st : State)
    (resource body ext : string) :
  let reqPath := url_pathname host (url req) in
  let requestedFile := (candidateFile host opts reqPath resource).1 in
  let isSrc := (candidateFile host opts reqPath resource).2 in
  reqPath <> "/livereload" ->
  decodeURI host reqPath = Some resource ->
  fileLoc
    (resolution host opts fs requestedFile isSrc
       (JS.toLowerCase (path_ext host resource))).1 = Some requestedFile ->
  valueOf (handleRequest host opts fs req st) = SendFile body ext ->
  handleRequest host opts fs req (stateOf (handleRequest host opts fs req st))
  = (SendFile body ext, stateOf (handleRequest host opts fs req st), []).
Proof.
  intros reqPath requestedFile isSrc Hlr Hdec Hloc Hserved.
  assert (ext = JS.toLowerCase (path_ext host resource) /\
          FILE_CACHE (stateOf (handleRequest host opts fs req st))
            !! requestedFile = Some body) as [-> Hcached].
  { destruct (handleRequest_path host opts fs req st)
      as [|_ Hnone|resource' file _ Hdec' Hhit
          |resource' r probed served _ Hdec' _ Hres <-];
      unfold valueOf, stateOf in *; cbn [fst snd] in *; try done.
    - fold reqPath in Hdec', Hhit.
      assert (resource' = resource) as -> by congruence.
      injection Hserved as <- <-. done.
    - fold reqPath in Hdec', Hres.
      assert (resource' = resource) as -> by congruence.
      fold requestedFile isSrc in Hres. rewrite Hres in Hloc. cbn [fst] in Hloc.
      pose proof (resolution_path host opts fs requestedFile isSrc
        (JS.toLowerCase (path_ext host resource))) as Hpath.
      rewrite Hres in Hpath. cbn [fst] in Hpath.
      assert (requestedFileExt r = JS.toLowerCase (path_ext host resource)
              \/ isRoute r = true) as Hext.
      { destruct Hpath; cbn; auto. }
      destruct Hext as [Hext|Hroute].
      2:{ pose proof (resolution_route host opts fs requestedFile isSrc
            (JS.toLowerCase (path_ext host resource))) as Hr.
          rewrite Hres in Hr. cbn [fst] in Hr.
          destruct (Hr Hroute) as (loc & -> & _ & Hne & _).
          cbn in Hloc. congruence. }
      destruct (serveResolved_path host fs r st)
        as [| | |loc contents Hloc'| | |loc contents result v Hloc'];
        cbn [fst snd FILE_CACHE setFileCache setBabelFileErrors] in *;
        try done; injection Hserved as <- <-;
        (split; [done|]);
        assert (loc = requestedFile) as -> by congruence;
        apply lookup_insert_eq. }
  by apply cached_request_is_served_from_cache.
Qed.

End CacheKeys.

(** ** The scenarios, evaluated *)

(** C1, at the scenario of the specification.  [/components/app.js] is
    mapped to [src/components/app.js], resolved to [app.tsx] and
    transformed; the result is stored under the resolved path [app.tsx],
    while the next request looks up the candidate path [app.js]: the
    repeated request misses the cache, probes the four paths again and
    runs the Source Transformer again. *)
Theorem repeat_request_misses_the_cache :
  let fs := diskFS projectDisk in
  let req := GET "/components/app.js" 0 in
  let first := handleRequest linuxHost projectOptions fs req initialState in
  let second :=
    handleRequest linuxHost projectOptions fs req (stateOf first) in
  valueOf first = SendFile "/*babel*/export const a = 1;" ".js" /\
  transformerRuns (traceOf first) = ["/proj/src/components/app.tsx"] /\
  (candidateFile linuxHost projectOptions
     "/components/app.js" "/components/app.js").1 =
    "/proj/src/components/app.js" /\
  FILE_CACHE (stateOf first) !! "/proj/src/components/app.tsx" =
    Some "/*babel*/export const a = 1;" /\
  FILE_CACHE (stateOf first) !! "/proj/src/components/app.js" = None /\
  valueOf second = valueOf first /\
  transformerRuns (traceOf second) = ["/proj/src/components/app.tsx"] /\
  statProbes (traceOf second) =
    ["/proj/src/components/app.js"; "/proj/src/components/app.ts";
     "/proj/src/components/app.jsx"; "/proj/src/components/app.tsx"].
Proof. vm_compute. repeat split. Qed.

(** C2, at a directory under a source root.  [/src/docs] has no extension
    and its candidate [src/docs] is a directory, not a file, that holds
    an [index.html]: the wording of the specification selects
    [src/docs/index.html].  The source probes take the directory itself
    (the [.js] replacement leaves the path as it is, and [stat] succeeds
    on a directory), so no route candidate is probed, [isRoute] stays
    unset, the read of the directory fails and the response is 500. *)
Theorem source_mapped_directory_is_not_routed :
  let fs := diskFS projectDisk in
  let out :=
    handleRequest linuxHost projectOptions fs (GET "/src/docs" 0)
      initialState in
  let resolved :=
    resolveFile linuxHost projectOptions fs "/proj/src/docs" true ""
      initialState in
  candidateFile linuxHost projectOptions "/src/docs" "/src/docs" =
    ("/proj/src/docs", true) /\
  JS.toLowerCase (path_ext linuxHost "/src/docs") = "" /\
  stat fs "/proj/src/docs" = Some (mkStats false true) /\
  stat fs "/proj/src/docs/index.html" = Some (mkStats true false) /\
  routeBySpec linuxHost projectOptions fs "/proj/src/docs" =
    Some "/proj/src/docs/index.html" /\
  valueOf resolved = mkResolution (Some "/proj/src/docs") "" false /\
  statProbes (traceOf out) = ["/proj/src/docs"; "/proj/src/docs"] /\
  valueOf out = SendError 500.
Proof. vm_compute. repeat split. Qed.

(** C7, at the project.  On Linux, with any fuel, [watch] on the working
    directory attaches one watch, to that directory, and returns: the
    tree is not enumerated, and the subdirectories [src] and
    [src/components], which exist, get no watch. *)
Theorem watch_attaches_to_the_root_only (fuel : nat) :
  let fs := diskFS projectDisk in
  watch linuxHost fs (S fuel) "/proj" = ([FsWatch "/proj" false], Normal) /\
  startWatching linuxHost projectOptions fs (S fuel) =
    ([FsWatch "/proj" false], Normal) /\
  stat fs "/proj/src" = Some (mkStats false true) /\
  stat fs "/proj/src/components" = Some (mkStats false true) /\
  ~ In (FsWatch "/proj/src" false)
      (startWatching linuxHost projectOptions fs (S fuel)).1.
Proof.
  intros fs.
  assert (watch linuxHost fs (S fuel) "/proj" =
          ([FsWatch "/proj" false], Normal)) as Hw.
  { by apply watch_directory_only with (s := mkStats false true). }
  assert (startWatching linuxHost projectOptions fs (S fuel) =
          ([FsWatch "/proj" false], Normal)) as Hs.
  { unfold startWatching.
    change (JS.startsWith (cwd projectOptions) (publicDir projectOptions))
      with false.
    change (JS.startsWith (publicDir projectOptions) (cwd projectOptions))
      with true.
    cbn [negb]. change (cwd projectOptions) with "/proj". by rewrite Hw. }
  split_and!; [done..|]. rewrite Hs. by intros [[=]|[]].
Qed.

(** C8 as stated fails: a home page that already holds the snippet is
    served as a route, twice, with two copies of the snippet in each
    body. *)
Lemma document_with_snippet_gets_a_second_copy :
  let fs := diskFS projectDiskSnippet in
  let first := handleRequest linuxHost projectOptions fs (GET "/" 0)
                 initialState in
  let second := handleRequest linuxHost projectOptions fs (GET "/" 0)
                  (stateOf first) in
  In (Emit NEW_SESSION) (traceOf first) /\
  In (Emit NEW_SESSION) (traceOf second) /\
  exists body,
    valueOf first = SendFile body ".html" /\
    valueOf second = SendFile body ".html" /\
    countOccurrences LIVE_RELOAD_SNIPPET body = 2.
Proof.
  cbv zeta. split; [vm_compute; auto 10|]. split; [vm_compute; auto 10|].
  eexists. split; [vm_compute; reflexivity|].
  split; [vm_compute; reflexivity|]. vm_compute. reflexivity.
Qed.

(** C9 as stated fails: a chunk that begins with three clear sequences
    and holds the phrase and the error count, but no line that begins
    with an opening bracket, is forwarded with its third clear sequence
    left in, and neither DONE nor ERROR_COUNT is emitted. *)
Lemma unbracketed_chunk_emits_neither_done_nor_count :
  let text := "Found 2 errors. Watching for file changes." in
  let chunk := clearScreen +:+ clearScreen +:+ clearScreen +:+ text in
  holdsWatching chunk /\
  holdsFound chunk "2" /\
  onTscData chunk = [TSC_RESET; TSC_MSG (clearScreen +:+ text)] /\
  ~ In TSC_DONE (onTscData chunk) /\
  forall n, ~ In (TSC_ERROR n) (onTscData chunk).
Proof.
  cbv zeta. split_and!.
  - by exists (clearScreen +:+ clearScreen +:+ clearScreen +:+
               "Found 2 errors. "), "."%char, "".
  - by exists (clearScreen +:+ clearScreen +:+ clearScreen),
              ". Watching for file changes.".
  - vm_compute. reflexivity.
  - by intros [[=]|[[=]|[]]].
  - by intros n [[=]|[[=]|[]]].
Qed.

(** C5.  [src/bad.js] has a recorded compile failure and is saved with
    contents that compile.  [watch] hands [onWatchEvent] to [fs.watch] as
    it is, so the callback gets the name that [fs.watch] reports,
    [src/bad.js] relative to the watched [/proj], while the failure is
    recorded under the joined path [/proj/src/bad.js]: [babelFileErrors]
    has no such key, the file is not read, the Source Transformer is not
    run and the failure stays.  On Linux the one watch on [/proj] is not
    recursive and reports nothing for a file below [/proj/src].  Called
    with the recorded key itself, [onWatchEvent] does read and compile the
    file and removes the failure. *)
Theorem saved_file_is_not_retried :
  let key := "/proj/src/bad.js" in
  let fs := diskFS projectDiskFixed in
  let watches := (startWatching macHost projectOptions fs 1).1 in
  let out :=
    onFileChange macHost projectOptions fs watches "change" key
      afterBadRequest in
  let onLinux :=
    onFileChange linuxHost projectOptions fs
      (startWatching linuxHost projectOptions fs 1).1 "change" key
      afterBadRequest in
  let byKey :=
    onWatchEvent macHost projectOptions fs "change" key afterBadRequest in
  babelFileErrors afterBadRequest !! key =
    Some "SyntaxError: /proj/src/bad.js" /\
  readFile fs key utf8 = Some "let a = 1;" /\
  watches = [FsWatch "/proj" true] /\
  watchedName (FsWatch "/proj" true) key = Some "src/bad.js" /\
  out = onWatchEvent macHost projectOptions fs "change" "src/bad.js"
          afterBadRequest /\
  fileReads (traceOf out) = [] /\
  transformerRuns (traceOf out) = [] /\
  babelFileErrors (stateOf out) !! key =
    Some "SyntaxError: /proj/src/bad.js" /\
  traceOf onLinux = [] /\
  babelFileErrors (stateOf onLinux) !! key =
    Some "SyntaxError: /proj/src/bad.js" /\
  transformerRuns (traceOf byKey) = [key] /\
  babelFileErrors (stateOf byKey) !! key = None.
Proof.
  cbv zeta. split_and!; vm_compute; reflexivity.
Qed.

(** ** The theorems at work on the project *)


(** Three browsers are connected when a file changes. *)
Lemma reload_goes_once_to_each_client_witness :
  let out :=
    onWatchEvent linuxHost projectOptions (diskFS projectDisk) "change"
      "/proj/public/index.html" threeClients in
  liveReloadClients threeClients = [1; 2; 3] /\
  List.NoDup (liveReloadClients threeClients) /\
  writesTo 1 (traceOf out) = reloadMessage /\
  writesTo 2 (traceOf out) = reloadMessage /\
  writesTo 3 (traceOf out) = reloadMessage /\
  liveReloadClients (stateOf out) = [] /\
  writesTo 1
    (traceOf (handleRequest linuxHost projectOptions (diskFS projectDisk)
                (GET "/about.html" 0) (stateOf out))) = [].
Proof.
  cbv zeta.
  assert (liveReloadClients threeClients = [1; 2; 3]) as Hclients
    by reflexivity.
  assert (List.NoDup (liveReloadClients threeClients)) as Hnodup.
  { rewrite Hclients. repeat constructor; cbn; intuition discriminate. }
  destruct (reload_goes_once_to_each_client linuxHost projectOptions
              (diskFS projectDisk) "change" "/proj/public/index.html"
              threeClients Hnodup) as (Hin & _ & Hempty & _ & Hreq).
  split_and!; [done|done| | | |done|].
  - apply Hin. rewrite Hclients. cbn. auto.
  - apply Hin. rewrite Hclients. cbn. auto.
  - apply Hin. rewrite Hclients. cbn. auto.
  - apply Hreq. vm_compute. discriminate.
Defined.

(** [/guide] is served as a route, twice. *)
Lemma route_served_twice_is_identical_witness :
  let fs := diskFS projectDisk in
  let first :=
    handleRequest linuxHost projectOptions fs (GET "/guide" 0) initialState in
  let second :=
    handleRequest linuxHost projectOptions fs (GET "/guide" 1)
      (stateOf first) in
  In (Emit NEW_SESSION) (traceOf first) /\
  exists loc doc,
    readFile fs loc utf8 = Some doc /\
    valueOf first = SendFile (doc +:+ LIVE_RELOAD_SNIPPET) ".html" /\
    FILE_CACHE (stateOf first) !! loc = Some (doc +:+ LIVE_RELOAD_SNIPPET) /\
    valueOf second = valueOf first /\
    (countOccurrences snippetElement doc = 0 ->
     countOccurrences LIVE_RELOAD_SNIPPET (doc +:+ LIVE_RELOAD_SNIPPET) = 1).
Proof.
  cbv zeta.
  assert (In (Emit NEW_SESSION)
            (traceOf
               (handleRequest linuxHost projectOptions (diskFS projectDisk)
                  (GET "/guide" 0) initialState))) as Hsession
    by (vm_compute; auto 10).
  exact (conj Hsession
    (route_served_twice_is_identical linuxHost projectOptions
       (diskFS projectDisk) (GET "/guide" 0) (GET "/guide" 1) initialState
       eq_refl Hsession)).
Defined.

(** [/empty.css] is a file of the public root with no contents. *)
Lemma empty_file_is_not_found_witness :
  let fs := diskFS projectDisk in
  let out :=
    handleRequest linuxHost projectOptions fs (GET "/empty.css" 0)
      initialState in
  stat fs "/proj/public/empty.css" = Some (mkStats true false) /\
  readFile fs "/proj/public/empty.css" utf8 = Some "" /\
  valueOf out = SendError 404 /\ stateOf out = initialState.
Proof.
  cbv zeta. split; [reflexivity|]. split; [reflexivity|].
  refine (empty_file_is_not_found linuxHost projectOptions
            (diskFS projectDisk) (GET "/empty.css" 0) initialState
            "/empty.css" "/proj/public/empty.css" _ _ _ _ _).
  - vm_compute. discriminate.
  - reflexivity.
  - reflexivity.
  - reflexivity.
  - reflexivity.
Defined.

(** [/src/bad.js] is rejected by the compiler, after
    [/components/app.js] was served and cached. *)
Lemma failed_transform_is_never_cached_witness :
  let fs := diskFS projectDisk in
  let history := [RequestStep fs (GET "/components/app.js" 0)] in
  let st := run linuxHost projectOptions history in
  let out := handleRequest linuxHost projectOptions fs (GET "/src/bad.js" 0) st in
  transformFailed (traceOf out) /\
  valueOf out = SendError 500 /\
  FILE_CACHE (stateOf out) = FILE_CACHE st /\
  FILE_CACHE (stateOf out) !! "/proj/src/components/app.tsx" =
    Some "/*babel*/export const a = 1;" /\
  forall loc v,
    FILE_CACHE (stateOf out) !! loc = Some v ->
    exists before fs' req' after,
      history = before ++ RequestStep fs' req' :: after /\
      storedBy linuxHost projectOptions fs' req'
        (run linuxHost projectOptions before) loc v.
Proof.
  cbv zeta.
  assert (transformFailed
            (traceOf (handleRequest linuxHost projectOptions
                        (diskFS projectDisk) (GET "/src/bad.js" 0)
                        (run linuxHost projectOptions
                           [RequestStep (diskFS projectDisk)
                              (GET "/components/app.js" 0)]))))
    as Hfail.
  { left. exists "/proj/src/bad.js", "SyntaxError: /proj/src/bad.js".
    vm_compute. auto 10. }
  split; [exact Hfail|].
  destruct
    (failed_transform_is_never_cached linuxHost projectOptions
       [RequestStep (diskFS projectDisk) (GET "/components/app.js" 0)]
       (diskFS projectDisk) (GET "/src/bad.js" 0) Hfail)
    as (Hv & Hc & Hall).
  split_and!; [exact Hv|exact Hc|vm_compute; reflexivity|exact Hall].
Defined.

(** * Further properties of the server

    What follows covers the parts of [command.ts] around the statements
    above: the report of failed responses, the input and output of one
    request, the bookkeeping of compile failures, the key a watch event
    deletes, the order of the reload broadcast and the start of the file
    watcher. *)

(** ** Strings with a given ending *)

Lemma append_nil_r (s : string) : s +:+ "" = s.
Proof. induction s as [|a s IH]; [done|]. by rewrite append_cons, IH. Qed.

Lemma rev_app_append (s acc : string) :
  String.rev_app s acc = String.rev s +:+ acc.
Proof.
  revert acc. induction s as [|a s IH]; intros acc; [done|].
  unfold String.rev. cbn [String.rev_app].
  rewrite (IH (String a acc)), (IH (String a "")), append_assoc.
  by rewrite append_cons, append_nil_l.
Qed.

Lemma rev_append (s t : string) :
  String.rev (s +:+ t) = String.rev t +:+ String.rev s.
Proof.
  induction s as [|a s IH].
  - by rewrite append_nil_l, append_nil_r.
  - rewrite append_cons. unfold String.rev at 1 3. cbn [String.rev_app].
    by rewrite !rev_app_append, IH, append_assoc.
Qed.


Lemma rev_involutive (s : string) : String.rev (String.rev s) = s.
Proof.
  induction s as [|a s IH]; [done|].
  unfold String.rev at 2. cbn [String.rev_app].
  by rewrite rev_app_append, rev_append, IH.
Qed.

Lemma take_append (s t : string) : JS.take (String.length s) (s +:+ t) = s.
Proof.
  induction s as [|a s IH]; [by destruct t|].
  rewrite append_cons. cbn. by rewrite IH.
Qed.

Lemma endsWith_append (s p : string) : JS.endsWith (s +:+ p) p = true.
Proof. unfold JS.endsWith. rewrite rev_append. apply prefix_app. Qed.




Lemma replaceJsSuffix_of (x ext : string) :
  JS.replaceJsSuffix (x +:+ ".js") ext = x +:+ ext.
Proof.
  unfold JS.replaceJsSuffix. rewrite endsWith_append, append_length.
  replace (String.length x + String.length ".js" - 3)
    with (String.length x) by (cbn; lia).
  by rewrite take_append.
Qed.


Lemma prefix_refl (s : string) : String.prefix s s = true.
Proof. induction s as [|a s IH]; [done|]. cbn. by destruct (ascii_dec a a). Qed.

(** ** The trace of a request, view by view *)

Lemma statProbes_app t1 t2 :
  statProbes (t1 ++ t2) = statProbes t1 ++ statProbes t2.
Proof. apply omap_app. Qed.

Lemma statProbes_finishTrace req r : statProbes (finishTrace req r) = [].
Proof.
  unfold finishTrace. destruct (statusCode r) as [status|]; [|done].
  by destruct (Nat.eqb status 200).
Qed.

Lemma statProbes_served host fs r st :
  statProbes (traceOf (serveResolved host fs r st)) = [].
Proof.
  destruct (serveResolved_path host fs r st); unfold traceOf; cbn [snd];
    try done; unfold sessionTrace; by destruct (isRoute r).
Qed.

Lemma transformerRuns_app t1 t2 :
  transformerRuns (t1 ++ t2) = transformerRuns t1 ++ transformerRuns t2.
Proof. apply omap_app. Qed.

Lemma transformerRuns_FsStat probed : transformerRuns (FsStat <$> probed) = [].
Proof. induction probed as [|p probed IH]; [done|]. exact IH. Qed.

Lemma transformerRuns_finishTrace req r : transformerRuns (finishTrace req r) = [].
Proof.
  unfold finishTrace. destruct (statusCode r) as [status|]; [|done].
  by destruct (Nat.eqb status 200).
Qed.

Lemma transformerRuns_sessionTrace r t :
  transformerRuns (sessionTrace r ++ t) = transformerRuns t.
Proof. unfold sessionTrace. by destruct (isRoute r). Qed.

Lemma fileReads_app t1 t2 :
  fileReads (t1 ++ t2) = fileReads t1 ++ fileReads t2.
Proof. apply omap_app. Qed.

Lemma fileReads_FsStat probed : fileReads (FsStat <$> probed) = [].
Proof. induction probed as [|p probed IH]; [done|]. exact IH. Qed.

Lemma fileReads_finishTrace req r : fileReads (finishTrace req r) = [].
Proof.
  unfold finishTrace. destruct (statusCode r) as [status|]; [|done].
  by destruct (Nat.eqb status 200).
Qed.

Lemma fileReads_In t p enc : In (FsReadFile p enc) t -> In p (fileReads t).
Proof.
  induction t as [|e t IH]; [done|]. intros [->|Hin]; [by left|].
  cbn. destruct e; cbn; auto.
Qed.

Lemma needsTransform_true ext loc :
  needsTransform ext loc = true ->
  ext = ".js" /\ JS.includes loc "/web_modules/" = false.
Proof.
  unfold needsTransform. intros [He Hi]%andb_prop.
  apply String.eqb_eq in He. by apply negb_true_iff in Hi.
Qed.

(** The serving part reads at most one file, the resolved one, and hands
    at most that file to the compiler. *)

Lemma served_reads host fs r st :
  let out := serveResolved host fs r st in
  (fileReads (traceOf out) = [] /\ transformerRuns (traceOf out) = []) \/
  exists loc,
    fileLoc r = Some loc /\ JS.truthy loc = true /\
    fileReads (traceOf out) = [loc] /\
    (forall p enc, In (FsReadFile p enc) (traceOf out) ->
       p = loc /\ enc = getEncodingType (requestedFileExt r)) /\
    (transformerRuns (traceOf out) = [] \/
     transformerRuns (traceOf out) = [loc] /\
     needsTransform (requestedFileExt r) loc = true).
Proof.
  cbn zeta.
  destruct (serveResolved_path host fs r st)
    as [|loc Hloc Hl ?|loc Hloc Hl ?|loc ? Hloc Hl ? ? ?|loc ? ? Hloc Hl ? ? Hn ?
        |loc ? ? Hloc Hl ? ? Hn ? ?|loc ? ? ? Hloc Hl ? ? Hn ? ? ?];
    unfold traceOf; cbn [snd]; [by left|right; exists loc..];
    (split; [done|]); (split; [done|]);
    unfold sessionTrace; destruct (isRoute r); cbn;
    (split; [done|]); (split; [|by auto]);
    intros p enc Hin; in_cases Hin; by simplify_eq.
Qed.

Lemma served_not_reported host fs r st m u s :
  ~ In (Emit (SERVER_RESPONSE m u s)) (traceOf (serveResolved host fs r st)).
Proof.
  intros Hin.
  destruct (serveResolved_path host fs r st);
    unfold traceOf in Hin; cbn [snd] in Hin; in_cases Hin; done.
Qed.

Lemma served_status host fs r st s :
  valueOf (serveResolved host fs r st) = SendError s -> s = 404 \/ s = 500.
Proof.
  destruct (serveResolved_path host fs r st);
    unfold valueOf; cbn [fst]; intros [=]; auto.
Qed.

(** ** The report of failed responses (lines 227-238) *)

(** X1.  The [finish] listener reports a response on the message bus
    exactly when the handler answered with [sendError]: the event carries
    the method and the target of the request and the status sent, which is
    404 or 500.  A 200 answer, an event stream and a request that threw
    are never reported. *)
Theorem error_responses_are_reported (host : Host) (opts : DevOptions)
    (fs : FileSystem) (req : Request) (st : State) :
  let out := handleRequest host opts fs req st in
  (forall m u s,
     In (Emit (SERVER_RESPONSE m u s)) (traceOf out) <->
     valueOf out = SendError s /\ m = method req /\ u = url req) /\
  (forall s, valueOf out = SendError s -> s = 404 \/ s = 500).
Proof.
  intros out. subst out.
  destruct (handleRequest_path host opts fs req st)
    as [| | |resource r probed served _ _ _ Hres <-];
    unfold traceOf, valueOf; cbn [fst snd].
  - split; [|done]. intros m u s. split; [|by intros [? _]].
    intros Hin. by apply In_sendMessage in Hin as [c ?].
  - split; [|done]. intros m u s. split; [done|by intros [? _]].
  - split; [|done]. intros m u s. split; [done|by intros [? _]].
  - split; [|apply served_status].
    intros m u s. split.
    + intros Hin. apply in_app_or in Hin as [Hin|Hin];
        [by apply In_fmap_FsStat in Hin as [p ?]|].
      apply in_app_or in Hin as [Hin|Hin];
        [by apply served_not_reported in Hin|].
      unfold finishTrace in Hin.
      destruct (serveResolved host fs r st).1.1 as [file ext|status| |];
        cbn in Hin; try done.
      destruct (Nat.eqb status 200); [done|].
      destruct Hin as [Hin|[]]. by simplify_eq.
    + intros (Hv & -> & ->). apply in_or_app. right. apply in_or_app. right.
      pose proof (served_status host fs r st s Hv) as Hs.
      unfold valueOf in Hv. unfold finishTrace. rewrite Hv. cbn.
      destruct Hs as [->| ->]; cbn; auto.
Qed.

(** X2.  In every state the server can reach, a 200 answer never has an
    empty body, whether it comes from the cache or from disk, and the cache
    never holds an empty entry. *)
Theorem served_bodies_are_never_empty (host : Host) (opts : DevOptions)
    (fs : FileSystem) (req : Request) (st : State) (body ext : string) :
  reachable host opts st ->
  valueOf (handleRequest host opts fs req st) = SendFile body ext ->
  body <> "" /\
  forall key v,
    FILE_CACHE (stateOf (handleRequest host opts fs req st)) !! key = Some v ->
    v <> "".
Proof.
  intros Hreach Hv.
  assert (forall key v st', reachable host opts st' ->
            FILE_CACHE st' !! key = Some v -> v <> "") as Hcache.
  { intros key v st' Hr Hin.
    pose proof (cache_values_truthy host opts st' key v Hr Hin) as Ht.
    by destruct v. }
  split; [|intros key v; apply Hcache; by constructor].
  destruct (handleRequest_path host opts fs req st)
    as [| |resource file _ _ Hhit|resource r probed served _ _ _ Hres <-];
    unfold valueOf in Hv; cbn [fst] in Hv; try done.
  - simplify_eq. eauto.
  - destruct (serveResolved_path host fs r st)
      as [| | |loc contents _ _ _ Hc _| | |loc contents result v _ _ _ _ _ _ _ Ht];
      cbn [fst] in Hv; try done; simplify_eq.
    + unfold augment. destruct (isRoute r); [|by destruct contents].
      pose proof (truthy_append contents LIVE_RELOAD_SNIPPET eq_refl) as Ht.
      by destruct (contents +:+ LIVE_RELOAD_SNIPPET).
    + by destruct body.
Qed.

(** ** Input and output of one request *)

Lemma probeChain_length fs v probed cands :
  length (probeChain fs v probed cands).2 <= length probed + length cands.
Proof.
  revert v probed. induction cands as [|[p accept] cands IH]; intros v probed.
  - cbn. lia.
  - cbn [probeChain]. destruct (isTruthy v); [cbn; lia|].
    etrans; [apply IH|]. rewrite length_app. cbn. lia.
Qed.

Lemma resolution_length host opts fs requestedFile isSrc ext :
  length (resolution host opts fs requestedFile isSrc ext).2 <= 8.
Proof.
  unfold resolution.
  set (v0 := probeValue fs requestedFile isFile).
  assert (forall c : bool,
    length (if c then probeChain fs v0 [requestedFile]
                        (sourceCandidates requestedFile)
            else (v0, [requestedFile])).2 <= 4) as H1.
  { intros [|]; [|cbn; lia].
    etrans; [apply probeChain_length|]. cbn. lia. }
  specialize (H1 (negb (isTruthy v0) && isSrc)).
  destruct (if negb (isTruthy v0) && isSrc then _ else _) as [v1 probed1].
  cbn [snd] in H1.
  destruct (negb (isTruthy v1) && negb (JS.truthy ext)); [|cbn; lia].
  pose proof (probeChain_length fs v1 probed1
                (routeCandidates host opts requestedFile)) as H2.
  destruct (probeChain fs v1 probed1 _) as [v2 probed2]. cbn in H2.
  destruct (isTruthy v2); cbn; lia.
Qed.

Lemma probeChain_last fs v probed cands :
  (isTruthy v = true -> last probed = v) ->
  isTruthy (probeChain fs v probed cands).1 = true ->
  last (probeChain fs v probed cands).2 = (probeChain fs v probed cands).1.
Proof.
  revert v probed. induction cands as [|[p accept] cands IH];
    intros v probed Hv Ht.
  - cbn in *. auto.
  - cbn [probeChain] in *. destruct (isTruthy v) eqn:Htv; [cbn; auto|].
    apply IH; [|done]. intros Hp. rewrite last_snoc.
    unfold probeValue in *. destruct (stat fs p) as [s|]; [|done].
    by destruct (accept s).
Qed.

Lemma resolution_last host opts fs requestedFile isSrc ext :
  isTruthy (fileLoc (resolution host opts fs requestedFile isSrc ext).1) = true ->
  last (resolution host opts fs requestedFile isSrc ext).2 =
  fileLoc (resolution host opts fs requestedFile isSrc ext).1.
Proof.
  unfold resolution.
  set (v0 := probeValue fs requestedFile isFile).
  assert (isTruthy v0 = true -> last [requestedFile] = v0) as H0.
  { subst v0. unfold probeValue. destruct (stat fs requestedFile) as [s|]; [|done].
    by destruct (isFile s). }
  assert (forall c : bool,
    let x := if c then probeChain fs v0 [requestedFile]
                         (sourceCandidates requestedFile)
             else (v0, [requestedFile]) in
    isTruthy x.1 = true -> last x.2 = x.1) as H1.
  { intros [|]; cbn zeta; [|done]. by apply probeChain_last. }
  specialize (H1 (negb (isTruthy v0) && isSrc)). cbn zeta in H1.
  destruct (if negb (isTruthy v0) && isSrc then _ else _) as [v1 probed1].
  cbn [fst snd] in H1.
  destruct (negb (isTruthy v1) && negb (JS.truthy ext)); [|done].
  pose proof (probeChain_last fs v1 probed1
                (routeCandidates host opts requestedFile) H1) as H2.
  destruct (probeChain fs v1 probed1 _) as [v2 probed2]. cbn [fst snd] in H2.
  destruct (isTruthy v2) eqn:Hv2; cbn [fst snd fileLoc]; [auto|].
  intros Ht. congruence.
Qed.

(** X3.  One request makes at most eight [fs.stat] calls (the candidate,
    three source alternatives, four route candidates), reads at most one
    file and runs the compiler at most once. *)
Theorem request_io_is_bounded (host : Host) (opts : DevOptions)
    (fs : FileSystem) (req : Request) (st : State) :
  let t := traceOf (handleRequest host opts fs req st) in
  length (statProbes t) <= 8 /\
  length (fileReads t) <= 1 /\
  length (transformerRuns t) <= 1.
Proof.
  cbn zeta.
  destruct (handleRequest_path host opts fs req st)
    as [| | |resource r probed served _ Hdec _ Hres <-];
    unfold traceOf; cbn [fst snd]; try (cbn; lia).
  { rewrite sendMessage_run. cbn. lia. }
  fold (traceOf (serveResolved host fs r st)).
  rewrite !statProbes_app, statProbes_FsStat, statProbes_finishTrace,
    statProbes_served, !fileReads_app, fileReads_FsStat,
    fileReads_finishTrace, !transformerRuns_app, transformerRuns_FsStat,
    transformerRuns_finishTrace, !app_nil_r.
  cbn [app]. split.
  { replace probed with
      (resolution host opts fs
         (candidateFile host opts (url_pathname host (url req)) resource).1
         (candidateFile host opts (url_pathname host (url req)) resource).2
         (JS.toLowerCase (path_ext host resource))).2 by (by rewrite Hres).
    apply resolution_length. }
  destruct (served_reads host fs r st)
    as [[-> ->]|(loc & _ & _ & -> & _ & [->|[-> _]])]; cbn; lia.
Qed.

(** X4.  The one file a request reads is the path it probed last, and
    that path exists on the file system of the request. *)
Theorem file_read_is_the_last_probe (host : Host) (opts : DevOptions)
    (fs : FileSystem) (req : Request) (st : State) (p : string)
    (enc : Encoding) :
  let t := traceOf (handleRequest host opts fs req st) in
  In (FsReadFile p enc) t ->
  last (statProbes t) = Some p /\ is_Some (stat fs p) /\
  fileReads t = [p].
Proof.
  cbn zeta. intros Hin.
  destruct (handleRequest_path host opts fs req st)
    as [| | |resource r probed served _ Hdec _ Hres <-];
    unfold traceOf in *; cbn [fst snd] in *; try done.
  { by apply In_sendMessage in Hin as [c ?]. }
  fold (traceOf (serveResolved host fs r st)) in *.
  rewrite !statProbes_app, statProbes_FsStat, statProbes_finishTrace,
    statProbes_served, !fileReads_app, fileReads_FsStat,
    fileReads_finishTrace, !app_nil_r.
  cbn [app].
  apply in_app_or in Hin as [Hin|Hin];
    [by apply In_fmap_FsStat in Hin as [q ?]|].
  apply in_app_or in Hin as [Hin|Hin];
    [|by apply In_finishTrace in Hin as [s ?]].
  destruct (served_reads host fs r st)
    as [[Hnone _]|(loc & Hloc & Hl & Hreads & Hall & _)].
  { apply fileReads_In in Hin. by rewrite Hnone in Hin. }
  apply Hall in Hin as [-> _].
  set (c := candidateFile host opts (url_pathname host (url req)) resource)
    in *.
  pose proof (resolution_last host opts fs c.1 c.2
                (JS.toLowerCase (path_ext host resource))) as Hlast.
  pose proof (resolution_stat host opts fs c.1 c.2
                (JS.toLowerCase (path_ext host resource)) loc) as Hstat.
  rewrite Hres in Hlast, Hstat. cbn [fst snd] in *. rewrite Hloc in Hlast.
  split_and!; [by apply Hlast|by apply Hstat|done].
Qed.

(** X5.  A file handed to the compiler has no [/web_modules/] in its
    path and was read as UTF-8 text in the same request; the answer is then
    500, or 200 with the extension [.js] and a body that is stored in the
    cache under the path of that file. *)
Theorem only_scripts_outside_web_modules_are_compiled (host : Host)
    (opts : DevOptions) (fs : FileSystem) (req : Request) (st : State)
    (loc : string) :
  let out := handleRequest host opts fs req st in
  In loc (transformerRuns (traceOf out)) ->
  JS.includes loc "/web_modules/" = false /\
  In (FsReadFile loc utf8) (traceOf out) /\
  (valueOf out = SendError 500 \/
   exists body,
     valueOf out = SendFile body ".js" /\
     FILE_CACHE (stateOf out) !! loc = Some body).
Proof.
  cbn zeta. intros Hin.
  destruct (handleRequest_path host opts fs req st)
    as [| | |resource r probed served _ Hdec _ Hres <-];
    unfold traceOf, valueOf, stateOf in *; cbn [fst snd] in *; try done.
  rewrite !transformerRuns_app, transformerRuns_FsStat,
    transformerRuns_finishTrace, app_nil_r in Hin. cbn [app] in Hin.
  assert (forall P : Prop, P -> In (FsReadFile loc utf8) (serveResolved host fs r st).2 ->
    P /\ In (FsReadFile loc utf8)
      ((FsStat <$> probed) ++ (serveResolved host fs r st).2 ++
       finishTrace req (serveResolved host fs r st).1.1)) as Hstep.
  { intros P HP Hread. split; [done|].
    apply in_or_app. right. apply in_or_app. by left. }
  destruct (serveResolved_path host fs r st)
    as [| | | |l ? ? _ _ _ _ Hn _|l ? ? _ _ _ _ Hn _ _
        |l ? ? ? _ _ _ _ Hn _ _ _];
    cbn [fst snd] in *; try done.
  - unfold sessionTrace in Hin. by destruct (isRoute r).
  - change (In loc (transformerRuns (sessionTrace r ++
      [Emit (BABEL_START l); Emit (BABEL_ERROR l err)]))) in Hin.
    rewrite transformerRuns_sessionTrace in Hin.
    destruct Hin as [<-|[]]. apply needsTransform_true in Hn as [He Hi].
    split; [done|]. rewrite He. cbn [getEncodingType]. split; [|by left].
    apply in_or_app. right. by left.
  - change (In loc (transformerRuns (sessionTrace r ++
      [Emit (BABEL_START l); Emit (BABEL_FINISH l result)]))) in Hin.
    rewrite transformerRuns_sessionTrace in Hin.
    destruct Hin as [<-|[]]. apply needsTransform_true in Hn as [He Hi].
    split; [done|]. rewrite He. split; [|by left].
    apply in_or_app. right. by left.
  - change (In loc (transformerRuns (sessionTrace r ++
      [Emit (BABEL_START l); Emit (BABEL_FINISH l result)]))) in Hin.
    rewrite transformerRuns_sessionTrace in Hin.
    destruct Hin as [<-|[]]. apply needsTransform_true in Hn as [He Hi].
    split; [done|]. rewrite He. split.
    + apply in_or_app. right. by left.
    + right. exists v. split; [done|]. cbn. apply lookup_insert_eq.
Qed.

(** X6.  A file with [/web_modules/] in its path that is read with
    contents that are not empty is answered 200 without any run of the
    compiler and without any change to the recorded compile failures: the
    body is the contents as read, or, for a route, the contents followed by
    the live-reload snippet; the body is cached under the path read. *)
Theorem web_modules_are_served_as_read (host : Host) (opts : DevOptions)
    (fs : FileSystem) (req : Request) (st : State) (loc : string)
    (enc : Encoding) (contents : string) :
  let out := handleRequest host opts fs req st in
  In (FsReadFile loc enc) (traceOf out) ->
  JS.includes loc "/web_modules/" = true ->
  readFile fs loc enc = Some contents ->
  contents <> "" ->
  transformerRuns (traceOf out) = [] /\
  babelFileErrors (stateOf out) = babelFileErrors st /\
  exists body ext,
    valueOf out = SendFile body ext /\
    FILE_CACHE (stateOf out) !! loc = Some body /\
    (~ In (Emit NEW_SESSION) (traceOf out) /\ body = contents \/
     In (Emit NEW_SESSION) (traceOf out) /\
     body = contents +:+ LIVE_RELOAD_SNIPPET /\ ext = ".html").
Proof.
  cbn zeta. intros Hin Hweb Hread Hne.
  destruct (handleRequest_path host opts fs req st)
    as [| | |resource r probed served _ Hdec _ Hres <-];
    unfold traceOf, valueOf, stateOf in *; cbn [fst snd] in *; try done.
  { by apply In_sendMessage in Hin as [c ?]. }
  apply in_app_or in Hin as [Hin|Hin];
    [by apply In_fmap_FsStat in Hin as [q ?]|].
  apply in_app_or in Hin as [Hin|Hin];
    [|by apply In_finishTrace in Hin as [s ?]].
  rewrite !transformerRuns_app, transformerRuns_FsStat,
    transformerRuns_finishTrace, app_nil_r. cbn [app].
  assert (forall t resp, In (Emit NEW_SESSION)
            ((FsStat <$> probed) ++ t ++ finishTrace req resp) <->
            In (Emit NEW_SESSION) t) as Hsession.
  { intros t resp. split.
    - intros H. apply in_app_or in H as [H|H];
        [by apply In_fmap_FsStat in H as [q ?]|].
      apply in_app_or in H as [H|H]; [done|].
      by apply In_finishTrace in H as [s ?].
    - intros H. apply in_or_app. right. apply in_or_app. by left. }
  setoid_rewrite Hsession.
  destruct (serveResolved_path host fs r st)
    as [|l _ _ Hr|l _ _ Hr|l c _ _ Hr Hc Hn|l c ? _ _ _ _ Hn _
        |l c ? _ _ _ _ Hn _ _|l c ? ? _ _ _ _ Hn _ _ _];
    cbn [fst snd] in *; try done.
  - destruct Hin as [Hin|[]]. by simplify_eq.
  - destruct Hin as [Hin|[]]. by simplify_eq.
  - destruct Hin as [Hin|Hin]; [|by apply In_sessionTrace in Hin].
    simplify_eq.
    split; [unfold sessionTrace; by destruct (isRoute r)|]. split; [done|].
    exists (augment r contents), (requestedFileExt r).
    split; [done|]. split; [apply lookup_insert_eq|].
    unfold augment, sessionTrace.
    pose proof (resolution_route host opts fs
      (candidateFile host opts (url_pathname host (url req)) resource).1
      (candidateFile host opts (url_pathname host (url req)) resource).2
      (JS.toLowerCase (path_ext host resource))) as Hroute.
    rewrite Hres in Hroute. cbn [fst] in Hroute.
    destruct (isRoute r) eqn:Hisroute.
    + right. destruct (Hroute eq_refl) as (l & -> & _). cbn. auto.
    + left. cbn.
      split; [|done]. by intros [|[]].
  - destruct Hin as [Hin|Hin].
    + simplify_eq. apply needsTransform_true in Hn as [_ Hn]. congruence.
    + apply in_app_or in Hin as [Hin|Hin];
        [by apply In_sessionTrace in Hin|]. in_cases Hin; done.
  - destruct Hin as [Hin|Hin].
    + simplify_eq. apply needsTransform_true in Hn as [_ Hn]. congruence.
    + apply in_app_or in Hin as [Hin|Hin];
        [by apply In_sessionTrace in Hin|]. in_cases Hin; done.
  - destruct Hin as [Hin|Hin].
    + simplify_eq. apply needsTransform_true in Hn as [_ Hn]. congruence.
    + apply in_app_or in Hin as [Hin|Hin];
        [by apply In_sessionTrace in Hin|]. in_cases Hin; done.
Qed.

(** ** Recorded compile failures *)

Lemma handleRequest_errors host opts fs req st :
  let out := handleRequest host opts fs req st in
  babelFileErrors (stateOf out) = babelFileErrors st \/
  (exists loc, babelFileErrors (stateOf out) = delete loc (babelFileErrors st)) \/
  (exists loc err contents,
     babelFileErrors (stateOf out) = <[loc := err]> (babelFileErrors st) /\
     JS.truthy contents = true /\
     transformAsync host contents loc = Rejected err).
Proof.
  intros out. subst out.
  destruct (handleRequest_path host opts fs req st)
    as [| | |resource r probed served _ _ _ Hres <-];
    unfold stateOf; cbn [fst snd]; auto.
  destruct (serveResolved_path host fs r st)
    as [| | | |loc contents err _ _ _ Hc _ Hrej| |]; cbn [fst snd]; eauto.
  right. right. exists loc, err, (augment r contents). split_and!; [done| |done].
  unfold augment. destruct (isRoute r); [|done]. by apply truthy_append.
Qed.

Lemma onWatchEvent_errors host opts fs event fileLoc st :
  let out := onWatchEvent host opts fs event fileLoc st in
  babelFileErrors (stateOf out) = babelFileErrors st \/
  babelFileErrors (stateOf out) = delete fileLoc (babelFileErrors st) \/
  (exists err contents,
     babelFileErrors (stateOf out) = <[fileLoc := err]> (babelFileErrors st) /\
     JS.truthy contents = true /\
     transformAsync host contents fileLoc = Rejected err).
Proof.
  cbn zeta. rewrite onWatchEvent_run. cbn zeta.
  destruct (babelFileErrors st !! fileLoc); [|by left].
  destruct (readFile fs fileLoc utf8) as [[|a s]|]; [by right; left| |by right; left].
  destruct (transformAsync host (String a s) fileLoc) eqn:Hb; [by right; left|].
  right. right. by exists err, (String a s).
Qed.

(** X7.  In every state the server can reach, each recorded compile
    failure is the error with which the compiler rejected some contents,
    not empty, of that very file. *)
Theorem pending_failures_come_from_rejections (host : Host)
    (opts : DevOptions) (st : State) (loc : string) (err : Error) :
  reachable host opts st ->
  babelFileErrors st !! loc = Some err ->
  exists contents,
    JS.truthy contents = true /\
    transformAsync host contents loc = Rejected err.
Proof.
  intros Hreach. revert loc err.
  induction Hreach as [|fs req st _ IH|fs event fileLoc st _ IH];
    intros loc err Hin.
  - done.
  - destruct (handleRequest_errors host opts fs req st)
      as [Heq|[(l & Heq)|(l & e & c & Heq & Hc & Hrej)]];
      rewrite Heq in Hin.
    + eauto.
    + apply lookup_delete_Some in Hin as [_ Hin]. eauto.
    + destruct (decide (l = loc)) as [->|Hne].
      * rewrite lookup_insert_eq in Hin. simplify_eq. eauto.
      * rewrite lookup_insert_ne in Hin by done. eauto.
  - destruct (onWatchEvent_errors host opts fs event fileLoc st)
      as [Heq|[Heq|(e & c & Heq & Hc & Hrej)]];
      rewrite Heq in Hin.
    + eauto.
    + apply lookup_delete_Some in Hin as [_ Hin]. eauto.
    + destruct (decide (fileLoc = loc)) as [->|Hne].
      * rewrite lookup_insert_eq in Hin. simplify_eq. eauto.
      * rewrite lookup_insert_ne in Hin by done. eauto.
Qed.

(** ** Watch events and the cache *)

Ltac unfold_state :=
  unfold stateOf; cbn [fst snd];
  unfold invalidated, setLiveReloadClients, setFileCache, setBabelFileErrors;
  cbn [FILE_CACHE babelFileErrors liveReloadClients].

(** X8.  A watch event is idempotent on the state: the same event for
    the same file, against the same file system, leaves the state of the
    first event as it is, and writes to no client. *)
Theorem watch_event_is_idempotent (host : Host) (opts : DevOptions)
    (fs : FileSystem) (event fileLoc : string) (st : State) :
  let once := onWatchEvent host opts fs event fileLoc st in
  let twice := onWatchEvent host opts fs event fileLoc (stateOf once) in
  stateOf twice = stateOf once /\
  forall client, writesTo client (traceOf twice) = [].
Proof.
  cbn zeta. split.
  2:{ intros client. by rewrite writesTo_onWatchEvent,
        liveReloadClients_onWatchEvent. }
  rewrite (onWatchEvent_run host opts fs event fileLoc st). cbn zeta.
  destruct (babelFileErrors st !! fileLoc) as [err0|] eqn:Hpending;
    [destruct (readFile fs fileLoc utf8) as [[|a s]|] eqn:Hread;
     [|destruct (transformAsync host (String a s) fileLoc) eqn:Hb|]|];
    unfold stateOf at 2 3; cbn [fst snd]; rewrite onWatchEvent_run;
    cbn zeta; unfold_state;
    rewrite ?lookup_delete_eq, ?lookup_insert_eq, ?Hpending, ?Hread, ?Hb;
    unfold_state;
    by rewrite ?delete_delete_eq, ?insert_insert_eq.
Qed.



(** ** The order of the reload broadcast *)

Lemma writes_app t1 t2 : writes (t1 ++ t2) = writes t1 ++ writes t2.
Proof. apply omap_app. Qed.

Lemma writes_reloadTrace clients :
  writes (reloadTrace clients) =
  flat_map (fun client => (client,.) <$> reloadMessage) clients.
Proof.
  induction clients as [|c clients IH]; [done|].
  unfold reloadTrace, writes in *. cbn [flat_map]. by rewrite omap_app, IH.
Qed.

Lemma writes_onWatchEvent host opts fs event fileLoc st :
  writes (traceOf (onWatchEvent host opts fs event fileLoc st)) =
  writes (reloadTrace (rev (liveReloadClients st))).
Proof.
  rewrite onWatchEvent_run. cbn zeta.
  destruct (babelFileErrors st !! fileLoc); [|done].
  destruct (readFile fs fileLoc utf8) as [[|a s]|];
    [| destruct (transformAsync host (String a s) fileLoc) |];
    unfold traceOf; cbn [snd]; rewrite writes_app; cbn;
    by rewrite app_nil_r.
Qed.

(** X12.  A request for [/livereload] appends its response to the list
    of clients, and the next watch event writes the reload message to that
    response first and then to the clients registered before it, the most
    recent one first: the broadcast pops the list from its end. *)
Theorem reload_is_written_newest_client_first (host : Host)
    (opts : DevOptions) (fs fs' : FileSystem) (req : Request)
    (event fileLoc : string) (st : State) :
  url_pathname host (url req) = "/livereload" ->
  let registered := handleRequest host opts fs req st in
  let out := onWatchEvent host opts fs' event fileLoc (stateOf registered) in
  liveReloadClients (stateOf registered) = liveReloadClients st ++ [res req] /\
  writes (traceOf out) =
    ((res req,.) <$> reloadMessage) ++
    flat_map (fun client => (client,.) <$> reloadMessage)
      (rev (liveReloadClients st)).
Proof.
  intros Hlr. cbn zeta.
  assert (liveReloadClients (stateOf (handleRequest host opts fs req st)) =
          liveReloadClients st ++ [res req]) as Hclients.
  { destruct (handleRequest_path host opts fs req st); try done. }
  split; [done|].
  by rewrite writes_onWatchEvent, Hclients, rev_app_distr, writes_reloadTrace.
Qed.

(** ** The name a watch event carries *)

Lemma relative_not_under (name root : string) :
  JS.startsWith root "/" = true ->
  JS.startsWith name "/" = false ->
  JS.startsWith name root = false.
Proof.
  unfold JS.startsWith. intros Hroot Hname.
  destruct root as [|a root]; [done|]. destruct name as [|b name]; [done|].
  rewrite prefix_cons in *. rewrite prefix_nil, andb_true_r in *.
  apply bool_decide_eq_true in Hroot as <-. by rewrite Hname.
Qed.

(** X9.  [fs.watch] reports a name relative to the watched directory.
    With an absolute working directory, a cache and recorded failures
    keyed by absolute paths, a watch event with a relative name deletes
    no cache entry and removes or retries no recorded failure: it reads
    no file and runs no compile.  All it does is the reload broadcast. *)
Theorem relative_watch_name_changes_no_entry (host : Host)
    (opts : DevOptions) (fs : FileSystem) (event name : string)
    (st : State) :
  JS.startsWith (cwd opts) "/" = true ->
  JS.startsWith name "/" = false ->
  (forall key v,
     FILE_CACHE st !! key = Some v -> JS.startsWith key "/" = true) ->
  (forall key err,
     babelFileErrors st !! key = Some err -> JS.startsWith key "/" = true) ->
  let out := onWatchEvent host opts fs event name st in
  FILE_CACHE (stateOf out) = FILE_CACHE st /\
  babelFileErrors (stateOf out) = babelFileErrors st /\
  fileReads (traceOf out) = [] /\
  transformerRuns (traceOf out) = [] /\
  writes (traceOf out) =
    flat_map (fun client => (client,.) <$> reloadMessage)
      (rev (liveReloadClients st)).
Proof.
  intros Hcwd Hname Hcache Herrors. cbn zeta.
  assert (FILE_CACHE st !! name = None) as Hc.
  { destruct (FILE_CACHE st !! name) as [v|] eqn:Hin; [|done].
    apply Hcache in Hin. congruence. }
  assert (babelFileErrors st !! name = None) as He.
  { destruct (babelFileErrors st !! name) as [e|] eqn:Hin; [|done].
    apply Herrors in Hin. congruence. }
  rewrite writes_onWatchEvent, writes_reloadTrace, onWatchEvent_run, He.
  cbn zeta. unfold stateOf, traceOf, invalidated, requestId. cbn [fst snd].
  rewrite (relative_not_under name (cwd opts) Hcwd Hname).
  cbn [FILE_CACHE setFileCache setLiveReloadClients babelFileErrors].
  split_and!; [by apply delete_id|done| | |done].
  - unfold fileReads.
    induction (rev (liveReloadClients st)) as [|c l IH]; [done|]. exact IH.
  - unfold transformerRuns.
    induction (rev (liveReloadClients st)) as [|c l IH]; [done|]. exact IH.
Qed.

(** X11.  A cached answer outlives the change of its file: for a
    candidate file with an absolute path that is in the cache, after a
    watch event with a relative name, as [fs.watch] reports it, the entry
    is still there and the next request for the file is answered from the
    cache, with the body stored before the change, whatever the file
    system holds by then. *)
Theorem changed_file_is_served_stale (host : Host) (opts : DevOptions)
    (fs fs' : FileSystem) (req : Request) (st : State)
    (event name resource body : string) :
  let reqPath := url_pathname host (url req) in
  let requestedFile := (candidateFile host opts reqPath resource).1 in
  reqPath <> "/livereload" ->
  decodeURI host reqPath = Some resource ->
  FILE_CACHE st !! requestedFile = Some body ->
  JS.startsWith (cwd opts) "/" = true ->
  JS.startsWith requestedFile "/" = true ->
  JS.startsWith name "/" = false ->
  let changed := stateOf (onWatchEvent host opts fs event name st) in
  FILE_CACHE changed !! requestedFile = Some body /\
  handleRequest host opts fs' req changed =
    (SendFile body (JS.toLowerCase (path_ext host resource)), changed, []).
Proof.
  cbn zeta. intros Hlr Hdec Hhit Hcwd Hfile Hname.
  assert (FILE_CACHE (stateOf (onWatchEvent host opts fs event name st))
            !! (candidateFile host opts (url_pathname host (url req))
                  resource).1 = Some body) as Hkept.
  { rewrite onWatchEvent_cache, lookup_delete_ne; [done|].
    unfold requestId. rewrite (relative_not_under name (cwd opts) Hcwd Hname).
    intros Heq. rewrite <- Heq in Hfile. congruence. }
  split; [done|].
  by apply cached_request_is_served_from_cache.
Qed.

(** ** The start of the file watcher (lines 59-73 and 369-374) *)

(** X13.  When the working directory and the public directory are the
    same path, each [startsWith] test of lines 369-374 holds and no watch
    is attached at all, on any platform. *)
Theorem same_directory_is_never_watched (host : Host) (opts : DevOptions)
    (fs : FileSystem) (fuel : nat) :
  cwd opts = publicDir opts ->
  startWatching host opts fs fuel = ([], Normal).
Proof.
  intros Heq. unfold startWatching, JS.startsWith. rewrite Heq.
  by rewrite prefix_refl.
Qed.

Lemma In_forEach {A : Type} (f : A -> list WatchCall * Completion)
    (entries : list A) (call : WatchCall) :
  In call (forEach f entries).1 ->
  exists entry, In entry entries /\ In call (f entry).1.
Proof.
  induction entries as [|entry rest IH]; [done|]. cbn [forEach].
  destruct (f entry) as [calls c] eqn:Hf.
  assert (In call calls -> exists e, In e (entry :: rest) /\ In call (f e).1)
    as Hhere.
  { intros Hin. exists entry. split; [by left|]. by rewrite Hf. }
  destruct c; [|done..].
  destruct (forEach f rest) as [calls' c']. cbn [fst] in *.
  intros [Hin|Hin]%in_app_or; [auto|].
  destruct (IH Hin) as (e & He & Hc). exists e. split; [by right|done].
Qed.

(** X14.  On Linux every watch that [watch] attaches, at any depth of its
    recursion, is not recursive and sits on a path that [statSync] reports
    as a directory and that does not end in [node_modules]. *)
Theorem linux_watches_are_on_directories (host : Host) (fs : FileSystem)
    (fuel : nat) (root : string) (call : WatchCall) :
  platform host = "linux" ->
  In call (watch host fs fuel root).1 ->
  exists p s,
    call = FsWatch p false /\ stat fs p = Some s /\ isDirectory s = true /\
    JS.endsWith p "node_modules" = false.
Proof.
  intros Hlinux. revert root.
  induction fuel as [|fuel IH]; intros root Hin; [done|].
  cbn [watch] in Hin. rewrite Hlinux in Hin. cbn [String.eqb negb] in Hin.
  change (if String.eqb "linux" "linux" then false else true) with false in Hin.
  destruct (JS.endsWith root "node_modules") eqn:Hnm; [done|].
  destruct (stat fs root) as [s|] eqn:Hstat; [|done].
  destruct (isDirectory s) eqn:Hdir.
  - destruct Hin as [<-|[]]. by exists root, s.
  - destruct (readdir fs root) as [entries|]; [|done].
    apply In_forEach in Hin as (entry & _ & Hin). eauto.
Qed.

(** ** The order of the typecheck events *)

Lemma trimStart_idemp (s : string) : JS.trimStart (JS.trimStart s) = JS.trimStart s.
Proof.
  induction s as [|a s IH]; [done|]. cbn [JS.trimStart].
  destruct (JS.isWhiteSpace a) eqn:Ha; [done|]. cbn [JS.trimStart].
  by rewrite Ha.
Qed.

(** X15.  The events of one chunk come in a fixed order, each at most
    once: [TSC_RESET], [TSC_MSG], [TSC_DONE], [TSC_ERROR].  [TSC_MSG] is
    always among them, and its text has no leading white space. *)
Theorem typecheck_events_are_ordered (b : string) :
  let n := from_option JS.parseInt 0%N (matchFound (tscMessage b)) in
  sublist (onTscData b)
    [TSC_RESET; TSC_MSG (tscMessage b); TSC_DONE; TSC_ERROR n] /\
  In (TSC_MSG (tscMessage b)) (onTscData b) /\
  JS.trimStart (tscMessage b) = tscMessage b.
Proof.
  cbn zeta. split_and!.
  - unfold onTscData.
    destruct (JS.startsWith b clearScreen); cbn [orb app];
      destruct (testLineStartBracket true (tscMessage b));
      destruct (testWatching (tscMessage b));
      destruct (matchFound (tscMessage b)); cbn;
      repeat (first [apply sublist_nil_l | apply sublist_skip
                    | apply sublist_cons]).
  - unfold onTscData. apply in_or_app. right. by left.
  - unfold tscMessage. apply trimStart_idemp.
Qed.

(** ** The rewrite of a mapped request path (line 264) *)

Lemma splitFirst_sound (s pat before after : string) :
  JS.splitFirst s pat = Some (before, after) ->
  s = before +:+ pat +:+ after.
Proof.
  revert before. induction s as [|a s IH]; intros before; cbn [JS.splitFirst].
  - destruct (String.prefix pat "") eqn:Hp; [|done].
    intros [= <- <-]. by apply prefix_split in Hp.
  - destruct (String.prefix pat (String a s)) eqn:Hp.
    + intros [= <- <-]. by apply prefix_split in Hp.
    + destruct (JS.splitFirst s pat) as [[b c]|]; [|done].
      intros [= <- <-]. by rewrite append_cons, <- (IH b).
Qed.

Lemma drop_append_longer (n : nat) (s t : string) :
  n <= String.length s -> JS.drop n (s +:+ t) = JS.drop n s +:+ t.
Proof.
  revert s. induction n as [|n IH]; intros s Hn; [done|].
  destruct s as [|a s]; [cbn in Hn; lia|].
  rewrite append_cons. cbn [JS.drop]. apply IH. cbn in Hn. lia.
Qed.

Lemma splitFirst_append (s t pat before after : string) :
  JS.splitFirst s pat = Some (before, after) ->
  JS.splitFirst (s +:+ t) pat = Some (before, after +:+ t).
Proof.
  revert before. induction s as [|a s IH]; intros before Hs.
  - cbn [JS.splitFirst] in Hs.
    destruct (String.prefix pat "") eqn:Hp; [|done].
    destruct pat; [|done]. injection Hs as <- <-.
    rewrite append_nil_l. cbn [JS.splitFirst].
    by destruct t.
  - pose proof (splitFirst_sound _ _ _ _ Hs) as Hsound.
    assert (String.length pat <= String.length (String a s)) as Hlen.
    { rewrite Hsound, !append_length. lia. }
    cbn [JS.splitFirst] in Hs. rewrite append_cons. cbn [JS.splitFirst].
    rewrite <- append_cons, prefix_longer by done.
    destruct (String.prefix pat (String a s)) eqn:Hp.
    + injection Hs as <- <-. by rewrite drop_append_longer.
    + destruct (JS.splitFirst s pat) as [[b c]|] eqn:Hrec; [|done].
      injection Hs as <- <-. by rewrite (IH b eq_refl).
Qed.

Lemma includes_splitFirst (s pat : string) :
  JS.includes s pat = true -> is_Some (JS.splitFirst s pat).
Proof.
  induction s as [|a s IH]; cbn [JS.includes JS.splitFirst].
  - rewrite orb_false_r. by intros ->.
  - destruct (String.prefix pat (String a s)); [done|]. cbn [orb].
    intros [[b c] ->]%IH. done.
Qed.

Lemma getSubstitution_literal (matched before after rep : string) :
  JS.includes rep "$" = false ->
  JS.getSubstitution matched before after rep = rep.
Proof.
  induction rep as [|c rep IH]; [done|].
  cbn [JS.includes]. intros [Hc Hrest]%orb_false_elim.
  specialize (IH Hrest).
  destruct c as [[] [] [] [] [] [] [] []];
    try (cbn [JS.getSubstitution]; by rewrite IH).
  by destruct rep.
Qed.

Lemma replace_in_front (s t pat rep : string) :
  JS.includes s pat = true ->
  JS.includes rep "$" = false ->
  JS.replace (s +:+ t) pat rep = JS.replace s pat rep +:+ t.
Proof.
  intros [[b a] Hs]%includes_splitFirst Hrep. unfold JS.replace.
  rewrite (splitFirst_append _ t _ _ _ Hs), Hs.
  by rewrite !getSubstitution_literal, !append_assoc.
Qed.

(** X16.  [requestedFile.replace(pathStart, pathEnd)] rewrites the first
    occurrence of [pathStart] in the joined path.  When the working
    directory itself holds [pathStart] (and [pathEnd] holds no dollar
    sign), it is the working directory that is rewritten, and the resource
    part of the path is left as requested. *)
Theorem rewrite_lands_in_the_working_directory (host : Host)
    (opts : DevOptions) (reqPath resource pathStart pathEnd : string) :
  lastMatching reqPath (paths opts) = Some (pathStart, Some pathEnd) ->
  pathEnd <> "" ->
  JS.includes pathEnd "$" = false ->
  JS.includes (cwd opts) pathStart = true ->
  path_join host (cwd opts) resource = cwd opts +:+ resource ->
  candidateFile host opts reqPath resource =
    (JS.replace (cwd opts) pathStart pathEnd +:+ resource, true).
Proof.
  intros Hlast Hne Hlit Hin Hjoin. unfold candidateFile.
  rewrite applyPath_fold, Hlast. unfold applyPath.
  pose proof (lastMatching_matches _ _ _ Hlast) as Hm. cbn [fst] in Hm.
  rewrite Hm. cbn [isTruthy default].
  destruct pathEnd as [|c pathEnd]; [done|]. cbn [JS.truthy].
  by rewrite Hjoin, replace_in_front.
Qed.

(** ** The further properties at concrete inputs *)

Lemma served_bodies_are_never_empty_witness :
  let out :=
    handleRequest linuxHost projectOptions (diskFS projectDisk)
      (GET "/about.html" 0) initialState in
  valueOf out = SendFile "<html>about</html>" ".html" /\
  "<html>about</html>" <> "" /\
  forall key v, FILE_CACHE (stateOf out) !! key = Some v -> v <> "".
Proof.
  split; [vm_compute; reflexivity|].
  apply (served_bodies_are_never_empty linuxHost projectOptions
           (diskFS projectDisk) (GET "/about.html" 0) initialState
           "<html>about</html>" ".html").
  - apply reachable_initial.
  - vm_compute. reflexivity.
Defined.

Lemma file_read_is_the_last_probe_witness :
  let t :=
    traceOf (handleRequest linuxHost projectOptions (diskFS projectDisk)
               (GET "/components/app.js" 0) initialState) in
  last (statProbes t) = Some "/proj/src/components/app.tsx" /\
  is_Some (stat (diskFS projectDisk) "/proj/src/components/app.tsx") /\
  fileReads t = ["/proj/src/components/app.tsx"].
Proof.
  apply (file_read_is_the_last_probe linuxHost projectOptions
           (diskFS projectDisk) (GET "/components/app.js" 0) initialState
           "/proj/src/components/app.tsx" utf8).
  vm_compute. auto 10.
Defined.

Lemma only_scripts_outside_web_modules_are_compiled_witness :
  let out :=
    handleRequest linuxHost projectOptions (diskFS projectDisk)
      (GET "/components/app.js" 0) initialState in
  JS.includes "/proj/src/components/app.tsx" "/web_modules/" = false /\
  In (FsReadFile "/proj/src/components/app.tsx" utf8) (traceOf out) /\
  (valueOf out = SendError 500 \/
   exists body,
     valueOf out = SendFile body ".js" /\
     FILE_CACHE (stateOf out) !! "/proj/src/components/app.tsx" = Some body).
Proof.
  apply (only_scripts_outside_web_modules_are_compiled linuxHost
           projectOptions (diskFS projectDisk) (GET "/components/app.js" 0)
           initialState "/proj/src/components/app.tsx").
  vm_compute. auto.
Defined.

Lemma web_modules_are_served_as_read_witness :
  let out :=
    handleRequest linuxHost projectOptions (diskFS projectDiskModules)
      (GET "/web_modules/vue.js" 0) initialState in
  transformerRuns (traceOf out) = [] /\
  babelFileErrors (stateOf out) = babelFileErrors initialState /\
  exists body ext,
    valueOf out = SendFile body ext /\
    FILE_CACHE (stateOf out) !! "/proj/public/web_modules/vue.js" =
      Some body /\
    (~ In (Emit NEW_SESSION) (traceOf out) /\ body = "export default {};" \/
     In (Emit NEW_SESSION) (traceOf out) /\
     body = "export default {};" +:+ LIVE_RELOAD_SNIPPET /\ ext = ".html").
Proof.
  apply (web_modules_are_served_as_read linuxHost projectOptions
           (diskFS projectDiskModules) (GET "/web_modules/vue.js" 0)
           initialState "/proj/public/web_modules/vue.js" utf8
           "export default {};").
  - vm_compute. auto.
  - vm_compute. reflexivity.
  - vm_compute. reflexivity.
  - discriminate.
Defined.

Lemma pending_failures_come_from_rejections_witness :
  exists contents,
    JS.truthy contents = true /\
    transformAsync linuxHost contents "/proj/src/bad.js" =
      Rejected "SyntaxError: /proj/src/bad.js".
Proof.
  apply (pending_failures_come_from_rejections linuxHost projectOptions
           afterBadRequest "/proj/src/bad.js" "SyntaxError: /proj/src/bad.js").
  - apply reachable_request. apply reachable_initial.
  - vm_compute. reflexivity.
Defined.


Lemma relative_watch_name_changes_no_entry_witness :
  let st :=
    stateOf (handleRequest macHost projectOptions (diskFS projectDisk)
               (GET "/about.html" 0) threeClients) in
  let out :=
    onWatchEvent macHost projectOptions (diskFS projectDiskEdited) "change"
      "public/about.html" st in
  watchedName (FsWatch "/proj" true) "/proj/public/about.html" =
    Some "public/about.html" /\
  FILE_CACHE st !! "/proj/public/about.html" = Some "<html>about</html>" /\
  FILE_CACHE (stateOf out) = FILE_CACHE st /\
  babelFileErrors (stateOf out) = babelFileErrors st /\
  fileReads (traceOf out) = [] /\
  transformerRuns (traceOf out) = [] /\
  writes (traceOf out) =
    flat_map (fun client => (client,.) <$> reloadMessage)
      (rev (liveReloadClients st)).
Proof.
  cbv zeta. split; [reflexivity|]. split; [vm_compute; reflexivity|].
  apply (relative_watch_name_changes_no_entry macHost projectOptions
           (diskFS projectDiskEdited) "change" "public/about.html"
           (stateOf (handleRequest macHost projectOptions
                       (diskFS projectDisk) (GET "/about.html" 0)
                       threeClients))).
  - reflexivity.
  - reflexivity.
  - intros key v.
    replace (FILE_CACHE _)
      with ({[ "/proj/public/about.html" := "<html>about</html>" ]}
              : gmap string string) by (vm_compute; reflexivity).
    intros [<- _]%lookup_singleton_Some. reflexivity.
  - intros key err.
    replace (babelFileErrors _) with (∅ : gmap string Error)
      by (vm_compute; reflexivity).
    by rewrite lookup_empty.
Defined.

Lemma changed_file_is_served_stale_witness :
  let req := GET "/about.html" 0 in
  let st :=
    stateOf (handleRequest macHost projectOptions (diskFS projectDisk) req
               initialState) in
  let changed :=
    stateOf (onWatchEvent macHost projectOptions (diskFS projectDiskEdited)
               "change" "public/about.html" st) in
  readFile (diskFS projectDiskEdited) "/proj/public/about.html" utf8 =
    Some "<html>about us</html>" /\
  FILE_CACHE changed !! "/proj/public/about.html" =
    Some "<html>about</html>" /\
  handleRequest macHost projectOptions (diskFS projectDiskEdited) req changed
  = (SendFile "<html>about</html>" ".html", changed, []).
Proof.
  cbv zeta. split; [vm_compute; reflexivity|].
  apply (changed_file_is_served_stale macHost projectOptions
           (diskFS projectDiskEdited) (diskFS projectDiskEdited)
           (GET "/about.html" 0)
           (stateOf (handleRequest macHost projectOptions
                       (diskFS projectDisk) (GET "/about.html" 0)
                       initialState))
           "change" "public/about.html" "/about.html" "<html>about</html>").
  - vm_compute. discriminate.
  - vm_compute. reflexivity.
  - vm_compute. reflexivity.
  - reflexivity.
  - vm_compute. reflexivity.
  - reflexivity.
Defined.

Lemma reload_is_written_newest_client_first_witness :
  let registered :=
    handleRequest linuxHost projectOptions (diskFS projectDisk)
      (GET "/livereload" 7) threeClients in
  let out :=
    onWatchEvent linuxHost projectOptions (diskFS projectDisk) "change"
      "/proj/public/index.html" (stateOf registered) in
  liveReloadClients (stateOf registered) =
    liveReloadClients threeClients ++ [7] /\
  writes (traceOf out) =
    ((7,.) <$> reloadMessage) ++
    flat_map (fun client => (client,.) <$> reloadMessage)
      (rev (liveReloadClients threeClients)).
Proof.
  apply (reload_is_written_newest_client_first linuxHost projectOptions
           (diskFS projectDisk) (diskFS projectDisk) (GET "/livereload" 7)
           "change" "/proj/public/index.html" threeClients).
  reflexivity.
Defined.

Lemma same_directory_is_never_watched_witness :
  startWatching (exampleHost "darwin")
    (mkDevOptions "/proj" 8080 "/proj" "index.html" [])
    (diskFS projectDisk) 5 = ([], Normal).
Proof.
  apply (same_directory_is_never_watched (exampleHost "darwin")
           (mkDevOptions "/proj" 8080 "/proj" "index.html" [])
           (diskFS projectDisk) 5).
  reflexivity.
Defined.

Lemma linux_watches_are_on_directories_witness :
  exists p s,
    FsWatch "/proj" false = FsWatch p false /\
    stat (diskFS projectDisk) p = Some s /\ isDirectory s = true /\
    JS.endsWith p "node_modules" = false.
Proof.
  apply (linux_watches_are_on_directories linuxHost (diskFS projectDisk) 3
           "/proj" (FsWatch "/proj" false)).
  - reflexivity.
  - vm_compute. auto.
Defined.

Lemma rewrite_lands_in_the_working_directory_witness :
  candidateFile linuxHost
    (mkDevOptions "/home/src/proj" 8080 "/home/src/proj/public" "index.html"
       [("/src/", Some "/lib/")])
    "/src/app.js" "/src/app.js" =
  (JS.replace "/home/src/proj" "/src/" "/lib/" +:+ "/src/app.js", true).
Proof.
  apply (rewrite_lands_in_the_working_directory linuxHost
           (mkDevOptions "/home/src/proj" 8080 "/home/src/proj/public"
              "index.html" [("/src/", Some "/lib/")])
           "/src/app.js" "/src/app.js" "/src/" "/lib/").
  - vm_compute. reflexivity.
  - discriminate.
  - vm_compute. reflexivity.
  - vm_compute. reflexivity.
  - vm_compute. reflexivity.
Defined.

(** * The display and the server

    The listeners of [paint.tsx], fed with the events that the request
    listener, the watch callback and the typecheck listener emit. *)

Lemma busEvents_app t1 t2 : busEvents (t1 ++ t2) = busEvents t1 ++ busEvents t2.
Proof. apply omap_app. Qed.

Lemma busEvents_FsStat probed : busEvents (FsStat <$> probed) = [].
Proof. induction probed as [|p probed IH]; [done|]. exact IH. Qed.


Lemma deliver_app indent e1 e2 app :
  Paint.deliver indent (e1 ++ e2) app =
  Paint.deliver indent e2 (Paint.deliver indent e1 app).
Proof. apply fold_left_app. Qed.

Ltac no_session :=
  left; split; [done|let Hin := fresh in intros Hin; in_cases Hin; done].

(** The events of one request: at most a new session, at most one
    compile, at most one report, with what each says of the state and of
    the answer. *)
Lemma handleRequest_events host opts fs req st :
  let out := handleRequest host opts fs req st in
  exists session build report,
    busEvents (traceOf out) = session ++ build ++ report /\
    (session = [] /\ ~ In (Emit NEW_SESSION) (traceOf out) \/
     session = [NEW_SESSION] /\ build = [] /\ report = [] /\
     In (Emit NEW_SESSION) (traceOf out) /\
     babelFileErrors (stateOf out) = babelFileErrors st) /\
    (build = [] /\ babelFileErrors (stateOf out) = babelFileErrors st \/
     (exists loc result,
        build = [BABEL_START loc; BABEL_FINISH loc result] /\
        babelFileErrors (stateOf out) = delete loc (babelFileErrors st)) \/
     (exists loc err,
        build = [BABEL_START loc; BABEL_ERROR loc err] /\
        babelFileErrors (stateOf out) = <[loc := err]> (babelFileErrors st))) /\
    (report = [] /\ (forall s, valueOf out <> SendError s) \/
     exists s,
       report = [SERVER_RESPONSE (method req) (url req) s] /\
       valueOf out = SendError s).
Proof.
  cbn zeta.
  destruct (handleRequest_path host opts fs req st)
    as [| | |resource r probed served _ Hdec _ Hres <-];
    unfold traceOf, valueOf, stateOf; cbn [fst snd].
  - exists [], [], []. rewrite sendMessage_run. cbn [snd].
    split_and!; [done|no_session|left; by split|left; by split].
  - exists [], [], [].
    split_and!; [done|no_session|left; by split|left; by split].
  - exists [], [], [].
    split_and!; [done|no_session|left; by split|left; by split].
  - rewrite !busEvents_app, busEvents_FsStat. cbn [app].
    assert (forall t resp, In (Emit NEW_SESSION)
              ((FsStat <$> probed) ++ t ++ finishTrace req resp) <->
              In (Emit NEW_SESSION) t) as Hsession.
    { intros t resp. split.
      - intros H. apply in_app_or in H as [H|H];
          [by apply In_fmap_FsStat in H as [q ?]|].
        apply in_app_or in H as [H|H]; [done|].
        by apply In_finishTrace in H as [s ?].
      - intros H. apply in_or_app. right. apply in_or_app. by left. }
    setoid_rewrite Hsession.
    pose proof (resolution_route host opts fs
      (candidateFile host opts (url_pathname host (url req)) resource).1
      (candidateFile host opts (url_pathname host (url req)) resource).2
      (JS.toLowerCase (path_ext host resource))) as Hroute.
    rewrite Hres in Hroute. cbn [fst] in Hroute.
    assert (forall loc, fileLoc r = Some loc ->
              needsTransform (requestedFileExt r) loc = true ->
              sessionTrace r = []) as Hplain.
    { intros loc Hloc Hn. unfold sessionTrace.
      destruct (isRoute r) eqn:Hr; [|done].
      destruct (Hroute eq_refl) as (l & -> & _). cbn in Hn. done. }
    destruct (serveResolved_path host fs r st)
      as [| | |loc contents Hloc _ _ _ _|loc contents err Hloc _ _ _ Hn _
          |loc contents result Hloc _ _ _ Hn _ _
          |loc contents result v Hloc _ _ _ Hn _ _ _];
      cbn [fst snd finishTrace statusCode Nat.eqb busEvents omap app];
      rewrite ?(Hplain loc Hloc Hn); cbn [app busEvents omap].
    + exists [], [], [SERVER_RESPONSE (method req) (url req) 404].
      split_and!; [done|no_session|left; by split|right; by exists 404].
    + exists [], [], [SERVER_RESPONSE (method req) (url req) 500].
      split_and!; [done|no_session|left; by split|right; by exists 500].
    + exists [], [], [SERVER_RESPONSE (method req) (url req) 404].
      split_and!; [done|no_session|left; by split|right; by exists 404].
    + unfold sessionTrace. destruct (isRoute r).
      * exists [NEW_SESSION], [], [].
        split_and!; [done| |left; by split|left; by split].
        right. split_and!; try done. right. by left.
      * exists [], [], [].
        split_and!; [done|no_session|left; by split|left; by split].
    + exists [], [BABEL_START loc; BABEL_ERROR loc err],
        [SERVER_RESPONSE (method req) (url req) 500].
      split_and!; [done|no_session| |right; by exists 500].
      right. right. by exists loc, err.
    + exists [], [BABEL_START loc; BABEL_FINISH loc result],
        [SERVER_RESPONSE (method req) (url req) 500].
      split_and!; [done|no_session| |right; by exists 500].
      right. left. by exists loc, result.
    + exists [], [BABEL_START loc; BABEL_FINISH loc result], [].
      split_and!; [done|no_session| |left; by split].
      right. left. by exists loc, result.
Qed.

(** X17.  If the display shows the compile failures that the server has
    recorded, it still does after a request that opens no new session.  A
    request that opens a new session (a route was served) empties the
    failures of the display, while the server keeps the ones it had. *)
Theorem display_follows_compile_failures (indent : string -> nat -> string)
    (host : Host) (opts : DevOptions) (fs : FileSystem) (req : Request)
    (st : State) (app : Paint.AppState) :
  Paint.babelErrors app = babelFileErrors st ->
  let out := handleRequest host opts fs req st in
  let app' := Paint.deliver indent (busEvents (traceOf out)) app in
  (~ In (Emit NEW_SESSION) (traceOf out) ->
   Paint.babelErrors app' = babelFileErrors (stateOf out)) /\
  (In (Emit NEW_SESSION) (traceOf out) ->
   Paint.babelErrors app' = ∅ /\
   babelFileErrors (stateOf out) = babelFileErrors st).
Proof.
  intros Happ. cbn zeta.
  destruct (handleRequest_events host opts fs req st)
    as (session & build & report & -> & Hs & Hb & Hr).
  rewrite !deliver_app.
  assert (Paint.babelErrors
            (Paint.deliver indent report
               (Paint.deliver indent build (Paint.deliver indent session app)))
          = Paint.babelErrors
              (Paint.deliver indent build (Paint.deliver indent session app)))
    as ->.
  { by destruct Hr as [[-> _]|(s & -> & _)]. }
  destruct Hs as [[-> Hno]|(-> & -> & -> & Hyes & Hsame)].
  - split; [intros _|done].
    destruct Hb as [[-> ->]|[(loc & result & -> & ->)|(loc & err & -> & ->)]];
      cbn; by rewrite ?Happ.
  - split; [done|]. intros _. by split.
Qed.

(** X18.  The display appends one line to its console log for a request
    answered with an error, made of the status, the method and the target;
    a request answered otherwise leaves the console log as it was, or
    empties it when it opens a new session.  The server log of the display
    stays empty. *)
Theorem failed_response_is_logged_once (indent : string -> nat -> string)
    (host : Host) (opts : DevOptions) (fs : FileSystem) (req : Request)
    (st : State) (app : Paint.AppState) :
  let out := handleRequest host opts fs req st in
  let app' := Paint.deliver indent (busEvents (traceOf out)) app in
  Paint.serverLogs app = [] ->
  Paint.serverLogs app' = [] /\
  match valueOf out with
  | SendError status =>
      Paint.consoleLogs app' =
      Paint.consoleLogs app ++
      ["  [" +:+ pretty status +:+ "] " +:+ method req +:+ " " +:+ url req]
  | _ =>
      (In (Emit NEW_SESSION) (traceOf out) -> Paint.consoleLogs app' = []) /\
      (~ In (Emit NEW_SESSION) (traceOf out) ->
       Paint.consoleLogs app' = Paint.consoleLogs app)
  end.
Proof.
  cbn zeta. intros Hlogs.
  destruct (handleRequest_events host opts fs req st)
    as (session & build & report & -> & Hs & Hb & Hr).
  rewrite !deliver_app.
  set (app1 := Paint.deliver indent session app).
  assert (Paint.serverLogs app1 = [] /\
          (session = [] /\ ~ In (Emit NEW_SESSION)
                               (traceOf (handleRequest host opts fs req st)) /\
           Paint.consoleLogs app1 = Paint.consoleLogs app \/
           In (Emit NEW_SESSION) (traceOf (handleRequest host opts fs req st)) /\
           report = [] /\ Paint.consoleLogs app1 = [])) as [Hl1 Hc1].
  { subst app1. destruct Hs as [[-> Hno]|(-> & _ & -> & Hyes & _)].
    - split; [done|]. by left.
    - split; [done|]. by right. }
  set (app2 := Paint.deliver indent build app1).
  assert (Paint.serverLogs app2 = Paint.serverLogs app1 /\
          Paint.consoleLogs app2 = Paint.consoleLogs app1) as [Hl2 Hc2].
  { subst app2.
    by destruct Hb as [[-> _]|[(loc & result & -> & _)|(loc & err & -> & _)]]. }
  destruct Hr as [[-> Hnot]|(s & -> & Hv)].
  - cbn [Paint.deliver fold_left]. split; [congruence|].
    assert ((In (Emit NEW_SESSION) (traceOf (handleRequest host opts fs req st))
             -> Paint.consoleLogs app2 = []) /\
            (~ In (Emit NEW_SESSION)
                 (traceOf (handleRequest host opts fs req st)) ->
             Paint.consoleLogs app2 = Paint.consoleLogs app)) as Hboth.
    { rewrite Hc2. destruct Hc1 as [(_ & Hno & ->)|(Hyes & _ & ->)];
        split; intros; done. }
    destruct (valueOf (handleRequest host opts fs req st)) as [| s | |];
      [done| |done..].
    by destruct (Hnot s).
  - rewrite Hv. cbn. split; [congruence|]. rewrite Hc2.
    destruct Hc1 as [(_ & _ & ->)|(_ & [=] & _)]. done.
Qed.


(** X20.  What one chunk of typecheck output does to the display.  The
    output pane gets the indented message of the chunk and a line break,
    appended to what it held, or in place of it when the chunk begins
    with the clear sequence.  The error count is the count found in a
    chunk with a bracket line; otherwise it is zero after a clear sequence
    and unchanged without one.  The state is [DONE] when a bracket line
    and the watching phrase are found, else [IN_PROGRESS] after a clear
    sequence, else unchanged.  Compile failures and console log are not
    touched. *)
Theorem typecheck_chunk_on_the_display (indent : string -> nat -> string)
    (b : string) (app : Paint.AppState) :
  let msg := tscMessage b in
  let cleared := JS.startsWith b clearScreen in
  let bracket := testLineStartBracket true msg in
  let app' := Paint.deliver indent (onTscData b) app in
  Paint.tscOutput app' =
    (if cleared then "" else Paint.tscOutput app) +:+
    indent msg 2 +:+ newline /\
  Paint.tscErrors app' =
    match (if bracket then matchFound msg else None) with
    | Some digits => JS.parseInt digits
    | None => if cleared then 0%N else Paint.tscErrors app
    end /\
  Paint.tscState app' =
    (if bracket && testWatching msg then Some Paint.DONE
     else if cleared then Some Paint.IN_PROGRESS
     else Paint.tscState app) /\
  Paint.babelErrors app' = Paint.babelErrors app /\
  Paint.consoleLogs app' = Paint.consoleLogs app.
Proof.
  cbn zeta. unfold onTscData.
  destruct (JS.startsWith b clearScreen); cbn [orb];
    destruct (testLineStartBracket true (tscMessage b));
    destruct (testWatching (tscMessage b));
    destruct (matchFound (tscMessage b)); cbn;
    by rewrite ?append_nil_l.
Qed.

(** ** The display at concrete inputs *)

Lemma display_follows_compile_failures_witness :
  let out :=
    handleRequest linuxHost projectOptions (diskFS projectDisk)
      (GET "/src/bad.js" 0) initialState in
  let app' :=
    Paint.deliver (fun s _ => s) (busEvents (traceOf out)) Paint.initialApp in
  (~ In (Emit NEW_SESSION) (traceOf out) ->
   Paint.babelErrors app' = babelFileErrors (stateOf out)) /\
  (In (Emit NEW_SESSION) (traceOf out) ->
   Paint.babelErrors app' = ∅ /\
   babelFileErrors (stateOf out) = babelFileErrors initialState).
Proof.
  apply (display_follows_compile_failures (fun s _ => s) linuxHost
           projectOptions (diskFS projectDisk) (GET "/src/bad.js" 0)
           initialState Paint.initialApp).
  reflexivity.
Defined.

Lemma failed_response_is_logged_once_witness :
  let out :=
    handleRequest linuxHost projectOptions (diskFS projectDisk)
      (GET "/missing.css" 0) initialState in
  let app' :=
    Paint.deliver (fun s _ => s) (busEvents (traceOf out)) Paint.initialApp in
  valueOf out = SendError 404 /\
  Paint.consoleLogs app' = ["  [404] GET /missing.css"].
Proof.
  pose proof (failed_response_is_logged_once (fun s _ => s) linuxHost
                projectOptions (diskFS projectDisk) (GET "/missing.css" 0)
                initialState Paint.initialApp eq_refl) as [_ H].
  split; [vm_compute; reflexivity|].
  change (valueOf (handleRequest linuxHost projectOptions (diskFS projectDisk)
                     (GET "/missing.css" 0) initialState))
    with (SendError 404) in H.
  exact H.
Defined.


(** * The resolution of dependencies from the CDN *)

Lemma fetches_app t1 t2 :
  Remote.fetches (t1 ++ t2) = Remote.fetches t1 ++ Remote.fetches t2.
Proof. apply omap_app. Qed.

Lemma puts_app t1 t2 :
  Remote.puts (t1 ++ t2) = Remote.puts t1 ++ Remote.puts t2.
Proof. apply omap_app. Qed.

Lemma fetches_warned (c : bool) (message : string) :
  Remote.fetches (if c then [Remote.Warn message] else []) = [].
Proof. by destruct c. Qed.

Lemma puts_warned (c : bool) (message : string) :
  Remote.puts (if c then [Remote.Warn message] else []) = [].
Proof. by destruct c. Qed.

(** Follows the code of one call down to each of its exits: the goal is
    [call = out -> _], and the condition tested first is split first. *)
Ltac follow_call :=
  repeat lazymatch goal with
         | |- (if ?c then _ else _) = _ -> _ => destruct c eqn:?
         | |- (match ?x with _ => _ end) = _ -> _ => destruct x eqn:?
         end.

Lemma selfPinned_put (c : gmap string Remote.CacheEntry) (url body : string) :
  Remote.selfPinned c -> Remote.selfPinned (Remote.put url body c).
Proof.
  intros Hc key entry pinnedUrl Hin Hmeta. unfold Remote.put in Hin.
  destruct (decide (url = key)) as [->|Hne].
  - rewrite lookup_insert_eq in Hin. simplify_eq. cbn in Hmeta.
    by simplify_eq.
  - rewrite lookup_insert_ne in Hin by done. eauto.
Qed.

Lemma selfPinned_empty : Remote.selfPinned ∅.
Proof. intros key entry pinnedUrl Hin. by rewrite lookup_empty in Hin. Qed.

Section ResolveFacts.

Variable Net : Type.
Variable validForNewPackages : string -> bool.
Variable PIKA_CDN : string.
Variable fetchCDNResource : string -> Net -> Remote.CDNResponse * Net.

Local Abbreviation resolveDependency :=
  (Remote.resolveDependency Net validForNewPackages PIKA_CDN fetchCDNResource).

(** The second round: with [canRetry = false] no further call is made. *)
Lemma resolveDependency_last_round fuel spec semver lockfile w out :
  resolveDependency (S fuel) spec semver lockfile false w = out ->
  out = resolveDependency 1 spec semver lockfile false w /\
  out.1.1 <> Remote.OutOfFuel /\
  length (Remote.fetches out.2) <= 1 /\
  length (Remote.puts out.2) <= 1.
Proof.
  cbn [Remote.resolveDependency negb orb].
  follow_call; intros <-; cbn [fst snd];
    rewrite ?fetches_app, ?puts_app, ?fetches_warned, ?puts_warned,
      ?length_app; cbn;
    split_and!; try done; lia.
Qed.

(** X21.  [resolveDependency] calls itself at most once: the result of
    two rounds is the result for any larger number of rounds, and it is
    never the end of the fuel.  A call makes at most three requests to the
    CDN and writes at most one entry to the cache. *)
Theorem resolveDependency_retries_once (fuel : nat)
    (installSpecifier packageSemver : string)
    (lockfile : option Remote.ImportMap) (canRetry : bool)
    (w : Remote.World Net) :
  let out :=
    resolveDependency (S (S fuel)) installSpecifier packageSemver lockfile
      canRetry w in
  out = resolveDependency 2 installSpecifier packageSemver lockfile
          canRetry w /\
  out.1.1 <> Remote.OutOfFuel /\
  length (Remote.fetches out.2) <= 3 /\
  length (Remote.puts out.2) <= 1.
Proof.
  cbn zeta.
  assert (forall k m,
    (forall w',
       resolveDependency k installSpecifier packageSemver lockfile false w' =
       resolveDependency m installSpecifier packageSemver lockfile false w') ->
    resolveDependency (S k) installSpecifier packageSemver lockfile
      canRetry w =
    resolveDependency (S m) installSpecifier packageSemver lockfile
      canRetry w) as Hsame.
  { intros k m Hrec. cbn [Remote.resolveDependency].
    repeat first
      [ rewrite Hrec
      | lazymatch goal with
        | |- (if ?c then _ else _) = _ => destruct c
        | |- (match ?x with _ => _ end) = _ => destruct x
        end ];
      done. }
  split.
  { apply Hsame. intros w'. by eapply resolveDependency_last_round. }
  remember (resolveDependency (S (S fuel)) installSpecifier packageSemver
              lockfile canRetry w) as out eqn:Hout.
  symmetry in Hout. revert out Hout.
  assert (forall w',
    let out :=
      resolveDependency (S fuel) installSpecifier packageSemver lockfile
        false w' in
    out.1.1 <> Remote.OutOfFuel /\
    length (Remote.fetches out.2) <= 1 /\
    length (Remote.puts out.2) <= 1) as Hlast.
  { intros w'. by eapply resolveDependency_last_round. }
  generalize dependent (S fuel). intros k Hlast out.
  cbn [Remote.resolveDependency].
  follow_call; intros <-; cbn [fst snd];
    rewrite ?fetches_app, ?puts_app, ?fetches_warned, ?puts_warned,
      ?length_app; cbn;
    try (split_and!; try done; lia).
  match goal with
  | H : Remote.resolveDependency _ _ _ _ k _ _ _ _ ?w' = _ |- _ =>
      pose proof (Hlast w') as Hb; cbn zeta in Hb;
      rewrite H in Hb; subst; cbn [fst snd] in Hb
  end.
  split_and!; [tauto|lia..].
Qed.

(** X22.  If every cache entry with metadata names its own key as
    [pinnedUrl], then this holds after the call as well, and every URL the
    call returns is a key of the cache whose metadata names that URL: all
    resolved URLs are in the local cache. *)
Theorem resolved_url_is_in_the_cache (fuel : nat)
    (installSpecifier packageSemver : string)
    (lockfile : option Remote.ImportMap) (canRetry : bool)
    (w : Remote.World Net) :
  Remote.selfPinned (Remote.cache Net w) ->
  let out :=
    resolveDependency fuel installSpecifier packageSemver lockfile
      canRetry w in
  Remote.selfPinned (Remote.cache Net out.1.2) /\
  forall url,
    out.1.1 = Remote.Returned (Some url) ->
    exists entry,
      Remote.cache Net out.1.2 !! url = Some entry /\
      Remote.metadata entry = Some (Some url).
Proof.
  intros Hw. cbn zeta.
  remember (resolveDependency fuel installSpecifier packageSemver lockfile
              canRetry w) as out eqn:Hout.
  symmetry in Hout. revert canRetry w Hw out Hout.
  induction fuel as [|fuel IH]; intros canRetry w Hw out;
    cbn [Remote.resolveDependency]; [by intros <-|].
  follow_call; intros <-; cbn [fst snd Remote.cache];
    try (split; [done|by intros url [=]]);
    try (split; [by apply selfPinned_put|intros url [= <-]];
         eexists; split; [apply lookup_insert_eq|done]).
  - split; [done|]. intros url [= ->].
    match goal with
    | H : Remote.cache Net w !! ?k = Some _ |- _ =>
        pose proof (Hw _ _ _ H eq_refl) as Hself
    end.
    simplify_eq. eauto.
  - match goal with
    | H : Remote.resolveDependency _ _ _ _ fuel _ _ _ _ ?w' = _ |- _ =>
        apply (IH false w' Hw _ H)
    end.
Qed.

(** X23.  For a valid package name with a URL in the lockfile.  When the
    cache has an entry with metadata for that URL, the call returns the
    [pinnedUrl] of the metadata, whatever it is, without any request; it
    is the lockfile URL when the entries of the cache name their own key.
    Otherwise the call requests that URL and nothing else: on status 200
    it puts the body in the cache under the URL and returns the URL, on
    any other status it returns [null] and leaves the cache alone.  In no
    case does the call reach one of its [throw] statements or call itself
    ([fetchCDNResource] and [cacache.put] are taken to resolve). *)
Theorem lockfile_pin_is_returned_or_dropped (fuel : nat)
    (installSpecifier packageSemver installUrl : string)
    (lockfile : option Remote.ImportMap) (canRetry : bool)
    (w : Remote.World Net) :
  validForNewPackages installSpecifier = true ->
  Remote.pinOf lockfile installSpecifier = Some installUrl ->
  let out :=
    resolveDependency (S fuel) installSpecifier packageSemver lockfile
      canRetry w in
  let response := (fetchCDNResource installUrl (Remote.net Net w)).1 in
  (forall entry pinnedUrl,
     Remote.cache Net w !! installUrl = Some entry ->
     Remote.metadata entry = Some pinnedUrl ->
     out = (Remote.Returned pinnedUrl, w, [Remote.CacheInfo installUrl])) /\
  ((forall entry,
      Remote.cache Net w !! installUrl = Some entry ->
      Remote.metadata entry = None) ->
   Remote.fetches out.2 = [installUrl] /\
   (Remote.statusCode response = 200 ->
    out.1.1 = Remote.Returned (Some installUrl) /\
    Remote.puts out.2 = [installUrl] /\
    Remote.cache Net out.1.2 !! installUrl =
      Some (Remote.mkCacheEntry (Remote.body response)
              (Some (Some installUrl)))) /\
   (Remote.statusCode response <> 200 ->
    out.1.1 = Remote.Returned None /\
    Remote.puts out.2 = [] /\
    Remote.cache Net out.1.2 = Remote.cache Net w)) /\
  (forall message, out.1.1 <> Remote.Threw message) /\
  (Remote.selfPinned (Remote.cache Net w) ->
   out.1.1 = Remote.Returned (Some installUrl) \/
   out.1.1 = Remote.Returned None /\ Remote.statusCode response <> 200).
Proof.
  intros Hvalid Hpin. cbn zeta.
  remember (resolveDependency (S fuel) installSpecifier packageSemver
              lockfile canRetry w) as out eqn:Hout.
  symmetry in Hout. revert Hout.
  cbn [Remote.resolveDependency]. rewrite Hvalid, Hpin. cbn [negb].
  follow_call; intros <-; cbn [fst snd Remote.cache];
    repeat match goal with
           | H : negb (_ =? 200) = true |- _ =>
               apply negb_true_iff, Nat.eqb_neq in H
           | H : negb (_ =? 200) = false |- _ =>
               apply negb_false_iff, Nat.eqb_eq in H
           end;
    (split_and!;
     [intros entry p He Hm; simplify_eq; cbn in Hm; by simplify_eq
     |intros Hnone
     |done
     |intros Hself]).
  all: try match goal with
           | H : Remote.cache Net _ !! _ = Some _ |- _ =>
               try (by specialize (Hnone _ H));
               try (pose proof (Hself _ _ _ H eq_refl); simplify_eq; by left)
           end.
  all: try (split_and!; [done|intros ?|intros ?]; try done;
            split_and!; try done; unfold Remote.put; apply lookup_insert_eq).
  all: try (by left); try (right; by split).
  by specialize (Hnone _ eq_refl).
Qed.

(** X24.  Without a URL in the lockfile, a URL that the call returns
    starts with the address of the CDN and is the one key the call has
    written to the cache; the call has requested
    [PIKA_CDN/installSpecifier@packageSemver], and the version range holds
    neither a space nor a colon. *)
Theorem looked_up_url_is_on_the_cdn (fuel : nat)
    (installSpecifier packageSemver url : string)
    (lockfile : option Remote.ImportMap) (canRetry : bool)
    (w : Remote.World Net) :
  Remote.pinOf lockfile installSpecifier = None ->
  let out :=
    resolveDependency fuel installSpecifier packageSemver lockfile
      canRetry w in
  out.1.1 = Remote.Returned (Some url) ->
  JS.startsWith url PIKA_CDN = true /\
  Remote.puts out.2 = [url] /\
  In (PIKA_CDN +:+ "/" +:+ installSpecifier +:+ "@" +:+ packageSemver)
    (Remote.fetches out.2) /\
  JS.includes packageSemver " " = false /\
  JS.includes packageSemver ":" = false.
Proof.
  intros Hpin. cbn zeta.
  remember (resolveDependency fuel installSpecifier packageSemver lockfile
              canRetry w) as out eqn:Hout.
  symmetry in Hout. revert canRetry w out Hout.
  induction fuel as [|fuel IH]; intros canRetry w out;
    cbn [Remote.resolveDependency]; [by intros <-|].
  rewrite Hpin.
  follow_call; intros <-; cbn [fst snd]; try done.
  - intros [= <-].
    match goal with
    | H : _ || _ = false |- _ => apply orb_false_elim in H as [? ?]
    end.
    rewrite puts_app, fetches_app, puts_warned.
    split_and!; [apply prefix_app|done|apply in_or_app; right; by left
                |done..].
  - intros Hret.
    match goal with
    | H : Remote.resolveDependency _ _ _ _ fuel _ _ _ _ ?w' = _ |- _ =>
        pose proof (IH false w' _ H Hret) as (? & Hputs & ? & ? & ?)
    end.
    cbn [snd] in Hputs.
    rewrite puts_app, fetches_app, puts_warned.
    split_and!; [done| |apply in_or_app; right; by left|done..].
    rewrite puts_app. cbn. by rewrite Hputs.
Qed.

(** X25.  An install specifier that no section of the configuration and
    of the package manifest lists (or lists with an empty version) is
    asked of the CDN as [latest]: for a valid name without a URL in the
    lockfile, the call first warns that the package was not found in
    [dependencies] and its first request is for
    [PIKA_CDN/installSpecifier@latest]. *)
Theorem unlisted_dependency_is_looked_up_as_latest (fuel : nat)
    (config : option (gmap string string)) (pkg : PackageManifest)
    (installSpecifier : string) (lockfile : option Remote.ImportMap)
    (w : Remote.World Net) :
  versionIn config installSpecifier = None ->
  versionIn (webDependencies pkg) installSpecifier = None ->
  versionIn (dependencies pkg) installSpecifier = None ->
  versionIn (devDependencies pkg) installSpecifier = None ->
  versionIn (peerDependencies pkg) installSpecifier = None ->
  validForNewPackages installSpecifier = true ->
  Remote.pinOf lockfile installSpecifier = None ->
  let out :=
    Remote.resolveDependency Net validForNewPackages PIKA_CDN
      fetchCDNResource (S fuel) installSpecifier
      (installSemver config pkg installSpecifier) lockfile true w in
  installSemver config pkg installSpecifier = "latest" /\
  head out.2 =
    Some (Remote.Warn
            ("warn(" +:+ installSpecifier +:+ "): Not found in " +:+
             String "034" "dependencies" +:+
             String "034" ". Using latest package version...")) /\
  head (Remote.fetches out.2) =
    Some (PIKA_CDN +:+ "/" +:+ installSpecifier +:+ "@latest").
Proof.
  intros H1 H2 H3 H4 H5 Hvalid Hpin. cbn zeta.
  assert (installSemver config pkg installSpecifier = "latest") as ->.
  { unfold installSemver. by rewrite H1, H2, H3, H4, H5. }
  split; [done|].
  remember (Remote.resolveDependency _ _ _ _ _ _ _ _ _ _) as out eqn:Hout.
  symmetry in Hout. revert Hout.
  cbn [Remote.resolveDependency]. rewrite Hvalid, Hpin. cbn [negb].
  change (String.eqb "latest" "latest") with true.
  change (JS.startsWith "latest" "npm:@reactesm" ||
          JS.startsWith "latest" "npm:@pika/react") with false.
  change (JS.includes "latest" " " || JS.includes "latest" ":") with false.
  cbn iota.
  follow_call; intros <-; cbn [fst snd]; done.
Qed.

End ResolveFacts.

(** ** The resolution at concrete inputs *)

Lemma resolved_url_is_in_the_cache_witness :
  let out := exampleResolve 2 "vue" "^2.6.0" None true freshWorld in
  Remote.selfPinned (Remote.cache _ out.1.2) /\
  forall url,
    out.1.1 = Remote.Returned (Some url) ->
    exists entry,
      Remote.cache _ out.1.2 !! url = Some entry /\
      Remote.metadata entry = Some (Some url).
Proof.
  apply (resolved_url_is_in_the_cache (list string) JS.truthy
           "https://cdn.example" Remote.exampleCDN 2 "vue" "^2.6.0" None true
           freshWorld).
  apply selfPinned_empty.
Defined.

Lemma lockfile_pin_is_returned_or_dropped_witness :
  let pinned := "https://cdn.example/pin/vue-v2.6.11/vue.js" in
  let lockfile := Some (Remote.mkImportMap {[ "vue" := pinned ]}) in
  let out := exampleResolve 1 "vue" "^2.6.0" lockfile true freshWorld in
  let response := (Remote.exampleCDN pinned []).1 in
  Remote.statusCode response = 200 /\
  out.1.1 = Remote.Returned (Some pinned) /\
  Remote.fetches out.2 = [pinned] /\
  Remote.puts out.2 = [pinned] /\
  forall message, out.1.1 <> Remote.Threw message.
Proof.
  cbv zeta.
  assert (Remote.pinOf
            (Some (Remote.mkImportMap
                     {[ "vue" := "https://cdn.example/pin/vue-v2.6.11/vue.js" ]}))
            "vue" = Some "https://cdn.example/pin/vue-v2.6.11/vue.js")
    as Hpin by (vm_compute; reflexivity).
  destruct
    (lockfile_pin_is_returned_or_dropped (list string) JS.truthy
       "https://cdn.example" Remote.exampleCDN 0 "vue" "^2.6.0"
       "https://cdn.example/pin/vue-v2.6.11/vue.js"
       (Some (Remote.mkImportMap
                {[ "vue" := "https://cdn.example/pin/vue-v2.6.11/vue.js" ]}))
       true freshWorld eq_refl Hpin)
    as (_ & Hfetch & Hthrow & _).
  destruct Hfetch as (Hf & H200 & _).
  { intros entry. unfold freshWorld. cbn. by rewrite lookup_empty. }
  destruct (H200 eq_refl) as (Hr & Hp & _).
  split_and!; [reflexivity|exact Hr|exact Hf|exact Hp|exact Hthrow].
Defined.

Lemma looked_up_url_is_on_the_cdn_witness :
  let out := exampleResolve 2 "vue" "^2.6.0" None true freshWorld in
  JS.startsWith "https://cdn.example/pin/vue-v2.6.11/vue.js"
    "https://cdn.example" = true /\
  Remote.puts out.2 = ["https://cdn.example/pin/vue-v2.6.11/vue.js"] /\
  In ("https://cdn.example" +:+ "/" +:+ "vue" +:+ "@" +:+ "^2.6.0")
    (Remote.fetches out.2) /\
  JS.includes "^2.6.0" " " = false /\
  JS.includes "^2.6.0" ":" = false.
Proof.
  apply (looked_up_url_is_on_the_cdn (list string) JS.truthy
           "https://cdn.example" Remote.exampleCDN 2 "vue" "^2.6.0"
           "https://cdn.example/pin/vue-v2.6.11/vue.js" None true freshWorld).
  - reflexivity.
  - vm_compute. reflexivity.
Defined.

Lemma unlisted_dependency_is_looked_up_as_latest_witness :
  let pkg :=
    mkPackageManifest None (Some {[ "react" := "^16.13.0" ]}) None None in
  let out :=
    exampleResolve 1 "vue" (installSemver None pkg "vue") None true
      freshWorld in
  installSemver None pkg "vue" = "latest" /\
  head out.2 =
    Some (Remote.Warn
            ("warn(" +:+ "vue" +:+ "): Not found in " +:+
             String "034" "dependencies" +:+
             String "034" ". Using latest package version...")) /\
  head (Remote.fetches out.2) =
    Some ("https://cdn.example" +:+ "/" +:+ "vue" +:+ "@latest").
Proof.
  apply (unlisted_dependency_is_looked_up_as_latest (list string) JS.truthy
           "https://cdn.example" Remote.exampleCDN 0 None
           (mkPackageManifest None (Some {[ "react" := "^16.13.0" ]})
              None None)
           "vue" None freshWorld); vm_compute; reflexivity.
Defined.

(** * Two more edges of the listener and of the display *)

(** X29.  A request under a source root whose candidate exists but is
    no regular file, and does not end in [.js], is resolved to the
    candidate itself: [replace(/\.js$/, '.ts')] leaves the path as it is,
    and the probe of the source alternative accepts whatever [stat]
    finds.  No route candidate is probed, and when the candidate can not
    be read as a file (a directory can not) the answer is 500. *)
Theorem source_mapped_directory_is_answered_500 (host : Host)
    (opts : DevOptions) (fs : FileSystem) (req : Request) (st : State)
    (resource requestedFile : string) (s : Stats) :
  let reqPath := url_pathname host (url req) in
  let ext := JS.toLowerCase (path_ext host resource) in
  reqPath <> "/livereload" ->
  decodeURI host reqPath = Some resource ->
  candidateFile host opts reqPath resource = (requestedFile, true) ->
  FILE_CACHE st !! requestedFile = None ->
  stat fs requestedFile = Some s ->
  isFile s = false ->
  JS.endsWith requestedFile ".js" = false ->
  requestedFile <> "" ->
  readFile fs requestedFile (getEncodingType ext) = None ->
  resolveFile host opts fs requestedFile true ext st =
    (mkResolution (Some requestedFile) ext false, st,
     [FsStat requestedFile; FsStat requestedFile]) /\
  handleRequest host opts fs req st =
    (SendError 500, st,
     [FsStat requestedFile; FsStat requestedFile;
      FsReadFile requestedFile (getEncodingType ext);
      Emit (SERVER_RESPONSE (method req) (url req) 500)]).
Proof.
  cbn zeta. intros Hlr Hdec Hcand Hmiss Hstat Hfile Hjs Hne Hread.
  assert (resolution host opts fs requestedFile true
            (JS.toLowerCase (path_ext host resource)) =
          (mkResolution (Some requestedFile)
             (JS.toLowerCase (path_ext host resource)) false,
           [requestedFile; requestedFile])) as Hres.
  { unfold resolution, sourceCandidates, JS.replaceJsSuffix. rewrite Hjs.
    cbn [probeChain negb andb]. unfold probeValue. rewrite Hstat, Hfile.
    cbn [isTruthy negb andb app]. rewrite (truthy_ne _ Hne).
    cbn [isTruthy]. by rewrite (truthy_ne _ Hne). }
  split.
  - rewrite (runsAs_resolveFile host opts fs requestedFile true _ st).
    by rewrite Hres.
  - destruct (handleRequest_path host opts fs req st)
      as [| |resource' file _ Hdec' Hhit
          |resource' r probed served _ Hdec' _ Hres' <-]; try congruence.
    + rewrite Hdec in Hdec'. simplify_eq. rewrite Hcand in Hhit. cbn in Hhit.
      congruence.
    + rewrite Hdec in Hdec'. simplify_eq. rewrite Hcand in Hres'.
      cbn [fst snd] in Hres'. rewrite Hres in Hres'. simplify_eq.
      destruct (serveResolved_path host fs
                  (mkResolution (Some requestedFile)
                     (JS.toLowerCase (path_ext host resource')) false) st)
        as [Hf|l Hl _ _|l Hl _ Hr|l c Hl _ Hr|l c e Hl _ Hr|l c e Hl _ Hr
            |l c e v Hl _ Hr];
        cbn [fileLoc requestedFileExt] in *; simplify_eq; try done.
      cbn in Hf. by rewrite (truthy_ne _ Hne) in Hf.
Qed.

(** X30.  The detail panes follow the status lines of the overview: the
    Babel pane is shown exactly when the Babel line says [ERROR], and the
    TypeScript pane exactly when the TypeScript line is shown and says
    [ERROR]. *)
Theorem panes_follow_the_status_lines (app : Paint.AppState) :
  (In "BABEL" (Paint.showDetails app) <-> Paint.babelStatus app = "ERROR") /\
  (In "TYPESCRIPT" (Paint.showDetails app) <->
   Paint.hasTsc app = true /\ Paint.typeScriptStatus app = "ERROR").
Proof.
  unfold Paint.showDetails, Paint.babelStatus, Paint.typeScriptStatus.
  rewrite !in_app_iff.
  destruct (decide (size (Paint.babelErrors app) = 0)) as [Hsize|Hsize].
  - rewrite (bool_decide_eq_true_2 _ Hsize), bool_decide_eq_false_2 by lia.
    destruct (Paint.hasTsc app), (0 <? Paint.tscErrors app)%N; cbn;
      try destruct (Paint.tscState app) as [[]|]; intuition congruence.
  - rewrite (bool_decide_eq_false_2 _ Hsize), bool_decide_eq_true_2 by lia.
    destruct (Paint.hasTsc app), (0 <? Paint.tscErrors app)%N; cbn;
      try destruct (Paint.tscState app) as [[]|]; intuition congruence.
Qed.

(** ** At concrete inputs *)

Lemma source_mapped_directory_is_answered_500_witness :
  let fs := diskFS projectDisk in
  let req := GET "/src/docs" 0 in
  resolveFile linuxHost projectOptions fs "/proj/src/docs" true
    (JS.toLowerCase (path_ext linuxHost "/src/docs")) initialState =
    (mkResolution (Some "/proj/src/docs")
       (JS.toLowerCase (path_ext linuxHost "/src/docs")) false, initialState,
     [FsStat "/proj/src/docs"; FsStat "/proj/src/docs"]) /\
  handleRequest linuxHost projectOptions fs req initialState =
    (SendError 500, initialState,
     [FsStat "/proj/src/docs"; FsStat "/proj/src/docs";
      FsReadFile "/proj/src/docs"
        (getEncodingType (JS.toLowerCase (path_ext linuxHost "/src/docs")));
      Emit (SERVER_RESPONSE (method req) (url req) 500)]).
Proof.
  apply (source_mapped_directory_is_answered_500 linuxHost projectOptions
           (diskFS projectDisk) (GET "/src/docs" 0) initialState "/src/docs"
           "/proj/src/docs" (mkStats false true)).
  - vm_compute. discriminate.
  - vm_compute. reflexivity.
  - vm_compute. reflexivity.
  - vm_compute. reflexivity.
  - vm_compute. reflexivity.
  - reflexivity.
  - vm_compute. reflexivity.
  - discriminate.
  - vm_compute. reflexivity.
Defined.

Lemma resolved_elsewhere_is_not_cached_witness :
  FILE_CACHE
    (stateOf (handleRequest linuxHost projectOptions (diskFS projectDisk)
                (GET "/components/app.js" 0) initialState))
    !! "/proj/src/components/app.js" = None.
Proof.
  apply (resolved_elsewhere_is_not_cached linuxHost projectOptions
           (diskFS projectDisk) (GET "/components/app.js" 0) initialState
           "/components/app.js").
  - vm_compute. discriminate.
  - vm_compute. reflexivity.
  - vm_compute. reflexivity.
  - vm_compute. discriminate.
Defined.

Lemma direct_hit_is_cached_witness :
  let fs := diskFS projectDisk in
  let req := GET "/about.html" 0 in
  let first := handleRequest linuxHost projectOptions fs req initialState in
  handleRequest linuxHost projectOptions fs req (stateOf first) =
  (SendFile "<html>about</html>" ".html", stateOf first, []).
Proof.
  apply (direct_hit_is_cached linuxHost projectOptions (diskFS projectDisk)
           (GET "/about.html" 0) initialState "/about.html"
           "<html>about</html>" ".html").
  - vm_compute. discriminate.
  - vm_compute. reflexivity.
  - vm_compute. reflexivity.
  - vm_compute. reflexivity.
Defined.
